(** * crm01: daily-record analytics dashboard

    A shallow embedding of the Express server ([server/src/index.ts]), of the
    worker variant of [calculateMetrics] and of the diagnosis engine of the
    auto-analysis page ([client/src/pages/AutoAnalysis.tsx]), followed by the
    properties of metric derivation, aggregation, the comparison period, the
    diagnosis rules, the upsert of daily records and bulk import / undo.

    Conventions.
    - A JavaScript number is an IEEE 754 binary64 value: Rocq's primitive
      [float], whose operations are the kernel's and are specified by the
      library's [FloatAxioms].
    - A [Date] is its time value, milliseconds since the epoch, in [Z].
    - The table of daily records is a list of rows in insertion order together
      with the auto-increment counter.
    - A handler is a function from the server state to a response and the
      state it leaves; a rejected database promise is the outcome [Throw],
      and the state reached before it is kept, as in the source. *)

From Stdlib Require Import ZArith List String Ascii Bool Lia.
From Stdlib Require Import Floats.
From Stdlib Require Import Permutation.
Import ListNotations.

Local Open Scope Z_scope.

(* ================================================================= *)
(** ** JavaScript numbers *)

Module JsNumber.

Definition number := float.
Bind Scope float_scope with number.

(** [x > y] on numbers; false when either side is NaN. *)
Definition gt (x y : number) : bool := PrimFloat.ltb y x.

(** [x < y] on numbers; false when either side is NaN. *)
Definition lt (x y : number) : bool := PrimFloat.ltb x y.

(** [x >= y] on numbers; false when either side is NaN. *)
Definition ge (x y : number) : bool := PrimFloat.leb y x.

(** [x === y] on numbers: NaN differs from itself, [-0 === 0]. *)
Definition strict_eq (x y : number) : bool := PrimFloat.eqb x y.

Definition isNaN (x : number) : bool := negb (PrimFloat.eqb x x).

(** ToBoolean on a number: [0], [-0] and NaN are falsy. *)
Definition truthy (x : number) : bool :=
  negb (PrimFloat.eqb x 0%float) && negb (isNaN x).

(** [x || 0]. *)
Definition or0 (x : number) : number := if truthy x then x else 0%float.

(** [o || 0] where the property may be absent ([undefined] is falsy). *)
Definition opt_or0 (o : option number) : number :=
  match o with Some x => or0 x | None => 0%float end.

End JsNumber.

(* ================================================================= *)
(** ** JavaScript dates *)

Module JsDate.

Definition msPerDay : Z := 86400000.

(** ECMAScript [Day(t)] and [TimeWithinDay(t)]. *)
Definition Day (t : Z) : Z := t / msPerDay.
Definition TimeWithinDay (t : Z) : Z := t mod msPerDay.

(** Day number of the proleptic Gregorian date [y]-[m]-[d], [m] in 1..12,
    counted from 1970-01-01. *)
Definition days_from_civil (y m d : Z) : Z :=
  let y' := if m <=? 2 then y - 1 else y in
  let era := y' / 400 in
  let yoe := y' - era * 400 in
  let mp := if 2 <? m then m - 3 else m + 9 in
  let doy := (153 * mp + 2) / 5 + d - 1 in
  let doe := yoe * 365 + yoe / 4 - yoe / 100 + doy in
  era * 146097 + doe - 719468.

(** Year, month (1..12) and day of month of the day [doe] of the 400-year
    cycle number [era] (cycles start on 1 March). *)
Definition civil_of_doe (era doe : Z) : Z * Z * Z :=
  let yoe := (doe - doe / 1460 + doe / 36524 - doe / 146096) / 365 in
  let doy := doe - (365 * yoe + yoe / 4 - yoe / 100) in
  let mp := (5 * doy + 2) / 153 in
  let d := doy - (153 * mp + 2) / 5 + 1 in
  let m := if mp <? 10 then mp + 3 else mp - 9 in
  (if m <=? 2 then yoe + era * 400 + 1 else yoe + era * 400, m, d).

(** ECMAScript [YearFromTime], [MonthFromTime] + 1 and [DateFromTime] of a
    day number. *)
Definition civil_from_days (z : Z) : Z * Z * Z :=
  let z' := z + 719468 in
  let era := z' / 146097 in
  civil_of_doe era (z' - era * 146097).

(** ECMAScript [MakeDay(year, month, date)] on integers; [month] is
    0-based and may lie outside 0..11. *)
Definition MakeDay (year month date : Z) : Z :=
  let ym := year + month / 12 in
  let mn := month mod 12 in
  days_from_civil ym (mn + 1) 1 + date - 1.

(** ECMAScript [TimeClip]: [None] is NaN, the time value of an
    [Invalid Date]. *)
Definition TimeClip (t : Z) : option Z :=
  if Z.abs t <=? 8640000000000000 then Some t else None.

(** Years 0..99 mean 1900..1999 in [Date.UTC] and in [new Date(y, m, d)]. *)
Definition fullYear (y : Z) : Z :=
  if (0 <=? y) && (y <=? 99) then 1900 + y else y.

(** [Date.UTC(year, month, day)] on integers. *)
Definition Date_UTC (year month day : Z) : option Z :=
  TimeClip (MakeDay (fullYear year) month day * msPerDay).

(** [d.setUTCHours(0, 0, 0, 0)]. *)
Definition setUTCHours0 (t : Z) : Z := Day t * msPerDay.

(** [d.toISOString().split('T')[0]], as the UTC day number of [d]: two
    dates give the same string exactly when they fall on the same UTC day. *)
Definition isoDateKey (t : Z) : Z := Day t.

Section LocalTime.

(** The host's time zone: local time is UTC plus [tz] milliseconds, a
    fixed offset (the application runs in GMT+8, which has no daylight
    saving). The getters and setters below are those of a valid date whose
    result stays a valid date; they do not clip. *)
Variable tz : Z.

Definition LocalTime (t : Z) : Z := t + tz.
Definition UTC (t : Z) : Z := t - tz.

Definition getFullYear (t : Z) : Z :=
  let '(y, _, _) := civil_from_days (Day (LocalTime t)) in y.

(** 0-based month. *)
Definition getMonth (t : Z) : Z :=
  let '(_, m, _) := civil_from_days (Day (LocalTime t)) in m - 1.

Definition getDate (t : Z) : Z :=
  let '(_, _, d) := civil_from_days (Day (LocalTime t)) in d.

(** [new Date(year, month, day)]: local midnight. *)
Definition new_Date (year month day : Z) : option Z :=
  TimeClip (UTC (MakeDay (fullYear year) month day * msPerDay)).

(** [d.setHours(h, m, s, ms)]. *)
Definition setHours (t h m s ms : Z) : Z :=
  UTC (Day (LocalTime t) * msPerDay
       + (h * 3600000 + m * 60000 + s * 1000 + ms)).

(** [d.setDate(dt)]: same local year, month and time of day. *)
Definition setDate (t dt : Z) : Z :=
  let lt := LocalTime t in
  let '(y, m, _) := civil_from_days (Day lt) in
  UTC (MakeDay y (m - 1) dt * msPerDay + TimeWithinDay lt).

End LocalTime.

End JsDate.

(* ================================================================= *)
(** ** Promises that may reject, over a mutable store *)

Module Async.

(** The result of awaiting: a value, or a rejection (a thrown error). *)
Inductive outcome (A : Type) : Type :=
| Ok (a : A)
| Throw.
Arguments Ok {A} a.
Arguments Throw {A}.

(** A computation over a store [S]; the store it returns is the one left
    behind, also when it throws. *)
Definition io (S A : Type) : Type := S -> outcome A * S.

Definition ret {S A} (a : A) : io S A := fun s => (Ok a, s).

Definition throw {S A} : io S A := fun s => (Throw, s).

Definition bind {S A B} (c : io S A) (k : A -> io S B) : io S B :=
  fun s =>
    match c s with
    | (Ok a, s') => k a s'
    | (Throw, s') => (Throw, s')
    end.

Definition get {S} : io S S := fun s => (Ok s, s).
Definition put {S} (s : S) : io S unit := fun _ => (Ok tt, s).

(** [try { body } catch (error) { handler }] where the handler only
    builds a response. *)
Definition try_catch {S A} (body : io S A) (handler : A) : S -> A * S :=
  fun s =>
    match body s with
    | (Ok a, s') => (a, s')
    | (Throw, s') => (handler, s')
    end.

(** Runs a computation written for a component of the store. *)
Definition zoom {S T A} (proj : S -> T) (upd : T -> S -> S) (c : io T A)
  : io S A :=
  fun s => let '(o, t') := c (proj s) in (o, upd t' s).

(** [for (const x of xs) { acc.push(await f(x)) }]: stops at the first
    rejection, keeping the effects of the iterations before it. *)
Fixpoint for_of {S A B} (f : A -> io S B) (xs : list A) (acc : list B)
  : io S (list B) :=
  match xs with
  | [] => ret acc
  | x :: xs' => bind (f x) (fun b => for_of f xs' (acc ++ [b]))
  end.

Module Notations.
Notation "x <- c ;; k" := (bind c (fun x => k))
  (at level 61, c at next level, right associativity).
Notation "c ;;; k" := (bind c (fun _ => k))
  (at level 61, right associativity).
End Notations.

End Async.

(* ================================================================= *)
(** ** The table of daily records *)

Module Prisma.
Import JsNumber Async Async.Notations.

(** A stored row of [DailyRecord]. *)
Record DailyRecord : Type := mkDailyRecord {
  id : Z;
  date : Z;
  totalSale : number;
  totalSaleGmv : number;
  gmvSaleLive : number;
  gmvAdsSpend : number;
  gmvLiveAdsSpend : number;
  ttamSpendAds : number;
  ttamImpressions : number;
  visitor : number;
  customers : number
}.

(** The [data] argument of [create]; the source leaves [visitor] and
    [customers] out in one call, so they are optional here. *)
Record CreateData : Type := mkCreateData {
  c_date : Z;
  c_totalSale : number;
  c_totalSaleGmv : number;
  c_gmvSaleLive : number;
  c_gmvAdsSpend : number;
  c_gmvLiveAdsSpend : number;
  c_ttamSpendAds : number;
  c_ttamImpressions : number;
  c_visitor : option number;
  c_customers : option number
}.

(** The [data] argument of [update]: every column but [id] and [date]. *)
Record UpdateData : Type := mkUpdateData {
  u_totalSale : number;
  u_totalSaleGmv : number;
  u_gmvSaleLive : number;
  u_gmvAdsSpend : number;
  u_gmvLiveAdsSpend : number;
  u_ttamSpendAds : number;
  u_ttamImpressions : number;
  u_visitor : number;
  u_customers : number
}.

(** Rows in insertion order, and the next value of the
    [INTEGER PRIMARY KEY AUTOINCREMENT] column. *)
Record Table : Type := mkTable {
  rows : list DailyRecord;
  nextId : Z
}.

(** [where: { date: { gte, lt } }] *)
Definition date_gte_lt (gte lt : Z) (r : DailyRecord) : bool :=
  (gte <=? date r) && (date r <? lt).

(** [where: { id: { in: ids } }] *)
Definition id_in (ids : list Z) (r : DailyRecord) : bool :=
  existsb (Z.eqb (id r)) ids.

Definition findMany (where_ : DailyRecord -> bool)
  : io Table (list DailyRecord) :=
  fun t => (Ok (filter where_ (rows t)), t).

Definition findFirst (where_ : DailyRecord -> bool)
  : io Table (option DailyRecord) :=
  fun t => (Ok (find where_ (rows t)), t).

Definition count (where_ : DailyRecord -> bool) : io Table nat :=
  fun t => (Ok (List.length (filter where_ (rows t))), t).

Definition deleteMany (where_ : DailyRecord -> bool) : io Table unit :=
  fun t =>
    (Ok tt, mkTable (filter (fun r => negb (where_ r)) (rows t)) (nextId t)).

Section Schema.

(** The schema file is not part of the sources: the values the table
    gives [visitor] and [customers] when [create] leaves them out are
    taken as given. *)
Variables visitorDefault customersDefault : number.

Definition new_row (i : Z) (d : CreateData) : DailyRecord :=
  mkDailyRecord i (c_date d) (c_totalSale d) (c_totalSaleGmv d)
    (c_gmvSaleLive d) (c_gmvAdsSpend d) (c_gmvLiveAdsSpend d)
    (c_ttamSpendAds d) (c_ttamImpressions d)
    (match c_visitor d with Some v => v | None => visitorDefault end)
    (match c_customers d with Some v => v | None => customersDefault end).

(** [create]: rejected by the unique index [DailyRecord_date_key] on
    [date] (migration.sql) when a row with that date is stored. The
    values are taken to be ones the columns hold: the client library
    also refuses a fractional count for an INTEGER column, which is not
    modelled here; statements about an accepted write say so
    ([Spec.storable]). *)
Definition create (d : CreateData) : io Table DailyRecord :=
  fun t =>
    if existsb (fun r => date r =? c_date d) (rows t) then (Throw, t)
    else
      let r := new_row (nextId t) d in
      (Ok r, mkTable (rows t ++ [r]) (nextId t + 1)).

End Schema.

Definition set_data (u : UpdateData) (r : DailyRecord) : DailyRecord :=
  mkDailyRecord (id r) (date r) (u_totalSale u) (u_totalSaleGmv u)
    (u_gmvSaleLive u) (u_gmvAdsSpend u) (u_gmvLiveAdsSpend u)
    (u_ttamSpendAds u) (u_ttamImpressions u) (u_visitor u) (u_customers u).

(** [update({ where: { id }, data })]: rejected when no row has that id;
    the values are taken to be ones the columns hold, as for [create]. *)
Definition update (i : Z) (u : UpdateData) : io Table DailyRecord :=
  fun t =>
    match find (fun r => id r =? i) (rows t) with
    | None => (Throw, t)
    | Some r =>
        (Ok (set_data u r),
         mkTable (map (fun x => if id x =? i then set_data u x else x)
                      (rows t))
                 (nextId t))
    end.

End Prisma.

(* ================================================================= *)
(** ** server/src/index.ts: metric derivation and aggregation *)

(** The object [calculateMetrics] returns: the columns of the record
    (the spread [...record]) and the seven derived fields. *)
Module Metrics.
Import JsNumber.

Record t : Type := mk {
  id : Z;
  date : Z;
  totalSale : number;
  totalSaleGmv : number;
  gmvSaleLive : number;
  gmvAdsSpend : number;
  gmvLiveAdsSpend : number;
  ttamSpendAds : number;
  ttamImpressions : number;
  visitor : number;
  customers : number;
  gmvSaleProduct : number;
  directShopSale : number;
  gmvProductAdsSpend : number;
  totalAdsSpend : number;
  cpm : number;
  roiTotal : number;
  roiGmv : number
}.

End Metrics.

Module Formulas.
Import JsNumber Prisma.

(** [calculateMetrics] of index.ts. *)
Definition calculateMetrics (record : DailyRecord) : Metrics.t :=
  (* Sales calculations *)
  let gmvSaleProduct := (totalSaleGmv record - gmvSaleLive record)%float in
  let directShopSale := (totalSale record - totalSaleGmv record)%float in
  (* Ads calculations *)
  let gmvProductAdsSpend :=
    (gmvAdsSpend record - gmvLiveAdsSpend record)%float in
  let totalAdsSpend := (gmvAdsSpend record + ttamSpendAds record)%float in
  let cpm :=
    if gt (ttamImpressions record) 0
    then (ttamSpendAds record / ttamImpressions record * 1000)%float
    else 0%float in
  (* ROI calculations *)
  let roiTotal :=
    if gt totalAdsSpend 0 then (totalSale record / totalAdsSpend)%float
    else 0%float in
  let roiGmv :=
    if gt totalAdsSpend 0 then (totalSaleGmv record / totalAdsSpend)%float
    else 0%float in
  Metrics.mk (id record) (date record) (totalSale record)
    (totalSaleGmv record) (gmvSaleLive record) (gmvAdsSpend record)
    (gmvLiveAdsSpend record) (ttamSpendAds record) (ttamImpressions record)
    (visitor record) (customers record)
    gmvSaleProduct directShopSale gmvProductAdsSpend totalAdsSpend
    cpm roiTotal roiGmv.

End Formulas.

(** The worker variant of [calculateMetrics] (Hono / Supabase), which reads
    snake_case columns that may be null. *)
Module Worker.
Import JsNumber.

(** A row as the worker's database returns it; [None] is null or absent. *)
Record Row : Type := mkRow {
  id : Z;
  date : Z;
  total_sale : option number;
  total_sale_gmv : option number;
  gmv_sale_live : option number;
  gmv_ads_spend : option number;
  gmv_live_ads_spend : option number;
  ttam_spend_ads : option number;
  ttam_impressions : option number;
  visitor : option number;
  customers : option number
}.

Definition calculateMetrics (r : Row) : Metrics.t :=
  let totalSale := opt_or0 (total_sale r) in
  let totalSaleGmv := opt_or0 (total_sale_gmv r) in
  let gmvSaleLive := opt_or0 (gmv_sale_live r) in
  let gmvAdsSpend := opt_or0 (gmv_ads_spend r) in
  let gmvLiveAdsSpend := opt_or0 (gmv_live_ads_spend r) in
  let ttamSpendAds := opt_or0 (ttam_spend_ads r) in
  let ttamImpressions := opt_or0 (ttam_impressions r) in
  let gmvSaleProduct := (totalSaleGmv - gmvSaleLive)%float in
  let directShopSale := (totalSale - totalSaleGmv)%float in
  let gmvProductAdsSpend := (gmvAdsSpend - gmvLiveAdsSpend)%float in
  let totalAdsSpend := (gmvAdsSpend + ttamSpendAds)%float in
  let cpm :=
    if gt ttamImpressions 0
    then (ttamSpendAds / ttamImpressions * 1000)%float else 0%float in
  let roiTotal :=
    if gt totalAdsSpend 0 then (totalSale / totalAdsSpend)%float
    else 0%float in
  let roiGmv :=
    if gt totalAdsSpend 0 then (totalSaleGmv / totalAdsSpend)%float
    else 0%float in
  Metrics.mk (id r) (date r) totalSale totalSaleGmv gmvSaleLive gmvAdsSpend
    gmvLiveAdsSpend ttamSpendAds ttamImpressions
    (opt_or0 (visitor r)) (opt_or0 (customers r))
    gmvSaleProduct directShopSale gmvProductAdsSpend totalAdsSpend
    cpm roiTotal roiGmv.

End Worker.

(** GET /api/summary *)
Module Summary.
Import JsNumber JsDate Prisma Formulas.

(** The five running totals of the handler. *)
Record Totals : Type := mkTotals {
  totalSale : number;
  totalAdsSpend : number;
  totalSaleGmv : number;
  totalLiveGmv : number;
  totalDirectShop : number
}.

(** The body of [records.forEach((r) => { ... })]. *)
Definition accumulate (acc : Totals) (r : DailyRecord) : Totals :=
  let m := calculateMetrics r in
  mkTotals
    (totalSale acc + Metrics.totalSale m)%float
    (totalAdsSpend acc + Metrics.totalAdsSpend m)%float
    (totalSaleGmv acc + Metrics.totalSaleGmv m)%float
    (totalLiveGmv acc + Metrics.gmvSaleLive m)%float
    (totalDirectShop acc + Metrics.directShopSale m)%float.

Record Body : Type := mkBody {
  b_totalSale : number;
  b_totalAdsSpend : number;
  b_roiTotal : number;
  b_roiGmv : number;
  b_totalSaleGmv : number;
  b_totalLiveGmv : number;
  b_totalDirectShop : number;
  b_records : list Metrics.t
}.

Inductive Response : Type :=
| Json (b : Body)
| Status400 (error : string).

(** The response computed from the records the query returned. *)
Definition aggregate (records : list DailyRecord) : Body :=
  let t := fold_left accumulate records (mkTotals 0 0 0 0 0) in
  let roiTotal :=
    if gt (totalAdsSpend t) 0 then (totalSale t / totalAdsSpend t)%float
    else 0%float in
  let roiGmv :=
    if gt (totalAdsSpend t) 0 then (totalSaleGmv t / totalAdsSpend t)%float
    else 0%float in
  mkBody (totalSale t) (totalAdsSpend t) roiTotal roiGmv (totalSaleGmv t)
    (totalLiveGmv t) (totalDirectShop t) (map calculateMetrics records).

Section Handler.
Variable tz : Z.

(** The handler; [start] and [end_] are the time values of
    [new Date(req.query.start)] and [new Date(req.query.end)], [None] when
    the parameter is missing. *)
Definition summary (start end_ : option Z) (table : Table) : Response :=
  match start, end_ with
  | Some startDate, Some endDate0 =>
      let endDate := setDate tz endDate0 (getDate tz endDate0 + 1) in
      Json (aggregate (filter (date_gte_lt startDate endDate) (rows table)))
  | _, _ => Status400 "Start and End date required"
  end.

End Handler.

End Summary.

(** GET /api/funnel-metrics *)
Module Funnel.
Import JsNumber JsDate Prisma.

(** [Math.round(x / d)] for an integer [x] and a positive integer [d]: the
    quotient rounded to the nearest integer, halves upwards. The double
    division is exact enough for this: no quotient of integers below 2^53
    is rounded across a half-integer. *)
Definition Math_round_div (x d : Z) : Z := (2 * x + d) / (2 * d).

Record Aggregates : Type := mkAggregates {
  a_visitor : number;
  a_customers : number;
  a_revenue : number;
  a_ads : number
}.

(** [_sum] of a column: null over no rows. *)
Definition sum_column (f : DailyRecord -> number) (rs : list DailyRecord)
  : option number :=
  match rs with
  | [] => None
  | _ => Some (fold_left (fun a r => (a + f r)%float) rs 0%float)
  end.

Definition getAggregates (gte lte : Z) (table : Table) : Aggregates :=
  let rs :=
    filter (fun r => (gte <=? date r) && (date r <=? lte)) (rows table) in
  let visitor := opt_or0 (sum_column Prisma.visitor rs) in
  let customers := opt_or0 (sum_column Prisma.customers rs) in
  let revenue := opt_or0 (sum_column Prisma.totalSale rs) in
  let gmvAdsSpend := opt_or0 (sum_column Prisma.gmvAdsSpend rs) in
  let ttamSpendAds := opt_or0 (sum_column Prisma.ttamSpendAds rs) in
  let ads := (gmvAdsSpend + ttamSpendAds)%float in
  mkAggregates visitor customers revenue ads.

Section Handler.
Variable tz : Z.

(** The requested range as the handler queries it: [start] and [end]
    after [end.setHours(23, 59, 59, 999)]. *)
Definition current_period (start end0 : Z) : Z * Z :=
  (start, setHours tz end0 23 59 59 999).

(** [rangeDays] of the handler. *)
Definition rangeDays (start end0 : Z) : Z :=
  let end_ := setHours tz end0 23 59 59 999 in
  let oneDay := 1000 * 60 * 60 * 24 in
  let s := setHours tz start 0 0 0 0 in
  let e := setHours tz end_ 0 0 0 0 in
  Math_round_div (e - s) oneDay + 1.

(** [pStart] and [pEnd] of the handler. *)
Definition previous_period (start end0 : Z) : Z * Z :=
  let s := setHours tz start 0 0 0 0 in
  (* prevEnd *)
  let pEnd := setDate tz s (getDate tz s - 1) in
  let pEnd := setHours tz pEnd 23 59 59 999 in
  (* prevStart *)
  let pStart := setDate tz pEnd (getDate tz pEnd - rangeDays start end0 + 1) in
  let pStart := setHours tz pStart 0 0 0 0 in
  (pStart, pEnd).

Inductive Response : Type :=
| Json (current previous : Aggregates)
| Status400 (error : string).

(** The handler; [startDate] and [endDate] are the time values of the
    parsed query parameters, [None] when the parameter is missing. *)
Definition funnel_metrics (startDate endDate : option Z) (table : Table)
  : Response :=
  match startDate, endDate with
  | Some start, Some end0 =>
      let '(cs, ce) := current_period start end0 in
      let '(ps, pe) := previous_period start end0 in
      Json (getAggregates cs ce table) (getAggregates ps pe table)
  | _, _ => Status400 "startDate and endDate are required"
  end.

End Handler.

End Funnel.

(** POST /api/records *)
Module Records.
Import JsNumber JsDate Async Async.Notations Prisma Formulas.

(** [body.date]: absent or not a string, or a string with the time value
    [new Date] gives it ([None] for an Invalid Date). *)
Inductive DateField : Type :=
| NoDate
| DateString (t : option Z).

(** A member the schema gives a default: absent ([undefined]), or present
    with a value that is a number or is not one ([null], a string). *)
Inductive Defaulted : Type :=
| Absent
| Present (v : option number).

(** The JSON body; a numeric field is [None] when absent or not a number. *)
Record Body : Type := mkBody {
  b_date : DateField;
  b_totalSale : option number;
  b_totalSaleGmv : option number;
  b_gmvSaleLive : option number;
  b_gmvAdsSpend : option number;
  b_gmvLiveAdsSpend : option number;
  b_ttamSpendAds : option number;
  b_ttamImpressions : option number;
  b_visitor : Defaulted;
  b_customers : Defaulted
}.

Record Validated : Type := mkValidated {
  v_date : option Z;
  v_data : UpdateData
}.

(** [z.number().min(0)]: a number, not NaN, at least 0. *)
Definition number_min0 (o : option number) : option number :=
  match o with
  | Some x => if ge x 0 then Some x else None
  | None => None
  end.

(** [z.number().min(0).default(0)]: the default replaces an absent member
    only. *)
Definition number_min0_default0 (o : Defaulted) : option number :=
  match o with
  | Present v => number_min0 v
  | Absent => Some 0%float
  end.

(** [recordSchema.parse]; [None] is a thrown [ZodError]. *)
Definition recordSchema_parse (b : Body) : option Validated :=
  match b_date b,
        number_min0 (b_totalSale b), number_min0 (b_totalSaleGmv b),
        number_min0 (b_gmvSaleLive b), number_min0 (b_gmvAdsSpend b),
        number_min0 (b_gmvLiveAdsSpend b), number_min0 (b_ttamSpendAds b),
        number_min0 (b_ttamImpressions b),
        number_min0_default0 (b_visitor b),
        number_min0_default0 (b_customers b) with
  | DateString d, Some totalSale, Some totalSaleGmv, Some gmvSaleLive,
    Some gmvAdsSpend, Some gmvLiveAdsSpend, Some ttamSpendAds,
    Some ttamImpressions, Some visitor, Some customers =>
      if ge totalSale totalSaleGmv && ge totalSaleGmv gmvSaleLive
         && ge gmvAdsSpend gmvLiveAdsSpend
      then Some (mkValidated d
                   (mkUpdateData totalSale totalSaleGmv gmvSaleLive
                      gmvAdsSpend gmvLiveAdsSpend ttamSpendAds
                      ttamImpressions visitor customers))
      else None
  | _, _, _, _, _, _, _, _, _, _ => None
  end.

Inductive Mode : Type := create_ | update_.

Inductive Response : Type :=
| Success (mode : Mode) (data : Metrics.t)
| Status400 (code message : string)
| Status500 (code message : string).

Definition create_data (date : Z) (u : UpdateData) : CreateData :=
  mkCreateData date (u_totalSale u) (u_totalSaleGmv u) (u_gmvSaleLive u)
    (u_gmvAdsSpend u) (u_gmvLiveAdsSpend u) (u_ttamSpendAds u)
    (u_ttamImpressions u) (Some (u_visitor u)) (Some (u_customers u)).

Section Handler.
Variables visitorDefault customersDefault : number.

Definition post_records_body (b : Body) : io Table Response :=
  match recordSchema_parse b with
  | None => ret (Status400 "validation_error" "Invalid date or values")
  | Some validatedData =>
      match v_date validatedData with
      | None => throw (* an Invalid Date reaches the query *)
      | Some date0 =>
          (* Normalize date to midnight UTC *)
          let date := setUTCHours0 date0 in
          existingRecord <-
            findFirst (date_gte_lt date (date + 24 * 60 * 60 * 1000)) ;;
          match existingRecord with
          | Some existing =>
              record <- update (id existing) (v_data validatedData) ;;
              ret (Success update_ (calculateMetrics record))
          | None =>
              record <- create visitorDefault customersDefault
                          (create_data date (v_data validatedData)) ;;
              ret (Success create_ (calculateMetrics record))
          end
      end
  end.

Definition post_records (b : Body) : Table -> Response * Table :=
  try_catch (post_records_body b)
    (Status500 "server_error" "Unable to save record").

End Handler.

End Records.

(** Bulk import: POST /api/import/preview, /confirm and /undo *)
Module BulkImport.
Import JsNumber JsDate Async Async.Notations Prisma.

(** *** The uploaded sheet *)

(** A cell of the first column as [sheet_to_json] returns it. A numeric
    cell carries, next to its value, what the spreadsheet library's
    [parse_date_code] answers for it (year, month 1..12, day), since that
    function is not part of the sources. *)
Inductive Cell : Type :=
| CEmpty
| CBool (b : bool)
| CNum (v : number) (code : option (Z * Z * Z))
| CStr (s : string).

(** A row of the sheet. The nine numeric columns are represented by the
    numbers the builtins return on their cells: [parseFloat(row[i])] for
    columns 1..6 and [parseInt(row[i])] for columns 7..9 (NaN for an empty
    or non-numeric cell). *)
Record SheetRow : Type := mkSheetRow {
  cell0 : Cell;
  parseFloat1 : number;
  parseFloat2 : number;
  parseFloat3 : number;
  parseFloat4 : number;
  parseFloat5 : number;
  parseFloat6 : number;
  parseInt7 : number;
  parseInt8 : number;
  parseInt9 : number
}.

(** ToBoolean of a cell. *)
Definition cell_truthy (c : Cell) : bool :=
  match c with
  | CEmpty => false
  | CBool b => b
  | CNum v _ => truthy v
  | CStr s => match s with EmptyString => false | String _ _ => true end
  end.

(** [rawData.slice(1).filter(row => row.length > 0 && row[0])]; an empty
    row has no first cell. *)
Definition dataRows (rawData : list SheetRow) : list SheetRow :=
  filter (fun row => cell_truthy (cell0 row)) (tl rawData).

(** *** Strings *)

(** [s.split(sep)] for a one-character separator. *)
Fixpoint split (sep : ascii) (s : string) : list string :=
  match s with
  | EmptyString => [EmptyString]
  | String c s' =>
      if Ascii.eqb c sep then EmptyString :: split sep s'
      else match split sep s' with
           | [] => [String c EmptyString]
           | p :: ps => String c p :: ps
           end
  end.

Definition is_white_space (c : ascii) : bool :=
  let n := Z.of_nat (nat_of_ascii c) in
  ((9 <=? n) && (n <=? 13)) || (n =? 32).

Fixpoint trim_start (s : string) : string :=
  match s with
  | String c s' => if is_white_space c then trim_start s' else s
  | EmptyString => EmptyString
  end.

Definition digit_value (radix : Z) (c : ascii) : option Z :=
  let n := Z.of_nat (nat_of_ascii c) in
  let v :=
    if (48 <=? n) && (n <=? 57) then Some (n - 48)
    else if (97 <=? n) && (n <=? 122) then Some (n - 87)
    else if (65 <=? n) && (n <=? 90) then Some (n - 55)
    else None in
  match v with
  | Some d => if d <? radix then Some d else None
  | None => None
  end.

(** The value of the longest prefix of digits, [acc] so far. *)
Fixpoint digits (radix : Z) (s : string) (acc : option Z) : option Z :=
  match s with
  | String c s' =>
      match digit_value radix c with
      | Some d =>
          digits radix s'
            (Some (match acc with Some a => a * radix + d | None => d end))
      | None => acc
      end
  | EmptyString => acc
  end.

(** [parseInt(s)] on a string (ASCII white space; the integer is kept
    exact); [None] is NaN. *)
Definition parseInt (s : string) : option Z :=
  let s1 := trim_start s in
  let '(sign, s2) :=
    match s1 with
    | String "-" r => (-1, r)
    | String "+" r => (1, r)
    | _ => (1, s1)
    end in
  let '(radix, s3) :=
    match s2 with
    | String "0" (String "x" r) => (16, r)
    | String "0" (String "X" r) => (16, r)
    | _ => (10, s2)
    end in
  match digits radix s3 None with
  | Some n => Some (sign * n)
  | None => None
  end.

(** *** Parsing and validating rows *)

(** A [Date] object: its time value, [None] for an Invalid Date. *)
Definition DateObj : Type := option Z.

(** [parseExcelDate]; the outer [None] is [null]. *)
Definition parseExcelDate (value : Cell) : option DateObj :=
  if negb (cell_truthy value) then None
  else
    match value with
    | CNum _ (Some (y, m, d)) =>
        (* Excel serial number *)
        Some (Date_UTC y (m - 1) d)
    | CStr s =>
        (* a string like DD/MM/YYYY *)
        match split "/" s with
        | [p0; p1; p2] =>
            match parseInt p0, parseInt p1, parseInt p2 with
            | Some day, Some month1, Some year =>
                let month := month1 - 1 in
                Some (Date_UTC year month day)
            | _, _, _ => None
            end
        | _ => None
        end
    | _ => None
    end.

(** A row that passed validation, as pushed on [validRows]. *)
Record ParsedRow : Type := mkParsedRow {
  date : Z;
  totalSale : number;
  totalSaleGmv : number;
  gmvSaleLive : number;
  gmvAdsSpend : number;
  gmvLiveAdsSpend : number;
  ttamSpendAds : number;
  ttamImpressions : number;
  visitor : number;
  customers : number
}.

(** The request field [month], of the documented form YYYY-MM, with the
    two numbers [month.split('-').map(Number)] yields. *)
Record Month : Type := mkMonth {
  month_string : string;
  targetYear : Z;
  targetMonth : Z
}.

Section Handlers.
Variable tz : Z.
Variables visitorDefault customersDefault : number.

(** [date.getMonth() + 1 !== targetMonth || date.getFullYear() !==
    targetYear]; every getter of an Invalid Date is NaN. *)
Definition month_mismatch (month : Month) (d : DateObj) : bool :=
  match d with
  | None => true
  | Some t =>
      negb (getMonth tz t + 1 =? targetMonth month)
      || negb (getFullYear tz t =? targetYear month)
  end.

(** The numeric columns of a row, in the order the handlers read them. *)
Definition parse_numbers (t : Z) (row : SheetRow) : ParsedRow :=
  let totalSale := or0 (parseFloat1 row) in
  let totalSaleGmv := or0 (parseFloat2 row) in
  let gmvSaleLive := or0 (parseFloat3 row) in
  let gmvLiveAdsSpend := or0 (parseFloat4 row) in
  let gmvAdsSpend := or0 (parseFloat5 row) in
  let ttamSpendAds := or0 (parseFloat6 row) in
  let ttamImpressions := or0 (parseInt7 row) in
  let visitor := or0 (parseInt8 row) in
  let customers := or0 (parseInt9 row) in
  mkParsedRow t totalSale totalSaleGmv gmvSaleLive gmvAdsSpend
    gmvLiveAdsSpend ttamSpendAds ttamImpressions visitor customers.

(** The callback of [dataRows.forEach] in the preview: the row for
    [validRows], or the reason pushed on [invalidRows]. *)
Definition preview_row (month : Month) (row : SheetRow)
  : ParsedRow + string :=
  match parseExcelDate (cell0 row) with
  | None => inr "Invalid date format. Use DD/MM/YYYY"%string
  | Some d =>
      match d, month_mismatch month d with
      | Some t, false =>
          let r := parse_numbers t row in
          (* Validate business rules *)
          if lt (totalSale r) (totalSaleGmv r)
          then inr "Total Sale must be >= Total Sale GMV"%string
          else if lt (totalSaleGmv r) (gmvSaleLive r)
          then inr "Total Sale GMV must be >= GMV Sale Live"%string
          else if lt (gmvAdsSpend r) (gmvLiveAdsSpend r)
          then inr "GMV Ads Spend must be >= GMV Live Ads Spend"%string
          else if gt (customers r) (visitor r)
          then inr "Customers cannot be > Visitor"%string
          else inl r
      | _, _ =>
          inr ("Date does not match selected month ("
                 ++ month_string month ++ ")")%string
      end
  end.

(** The callback of [dataRows.forEach] in the confirm handler. *)
Definition confirm_row (month : Month) (row : SheetRow) : option ParsedRow :=
  match parseExcelDate (cell0 row) with
  | None => None
  | Some d =>
      match d, month_mismatch month d with
      | Some t, false =>
          let r := parse_numbers t row in
          if ge (totalSale r) (totalSaleGmv r)
             && ge (totalSaleGmv r) (gmvSaleLive r)
             && ge (gmvAdsSpend r) (gmvLiveAdsSpend r)
          then Some r else None
      | _, _ => None
      end
  end.

(** The first [forEach] of the preview: rows in file order, [index]
    counting the data rows already seen. *)
Fixpoint preview_rows (month : Month) (rows : list SheetRow) (index : Z)
    (validRows : list ParsedRow) (invalidRows : list (Z * string))
  : list ParsedRow * list (Z * string) :=
  match rows with
  | [] => (validRows, invalidRows)
  | row :: rest =>
      let rowNum := index + 2 in
      match preview_row month row with
      | inl r =>
          preview_rows month rest (index + 1) (validRows ++ [r]) invalidRows
      | inr reason =>
          preview_rows month rest (index + 1) validRows
            (invalidRows ++ [(rowNum, reason)])
      end
  end.

(** The second [forEach] of the preview: duplicate dates among the valid
    rows are reported; [validRows] itself is left as it is. *)
Fixpoint duplicate_dates (validRows : list ParsedRow) (index : Z)
    (dateSet : list Z) (invalidRows : list (Z * string))
  : list (Z * string) :=
  match validRows with
  | [] => invalidRows
  | row :: rest =>
      let dateKey := isoDateKey (date row) in
      if existsb (Z.eqb dateKey) dateSet
      then duplicate_dates rest (index + 1) dateSet
             (invalidRows ++ [(index + 2, "Duplicate date in file"%string)])
      else duplicate_dates rest (index + 1) (dateKey :: dateSet) invalidRows
  end.

(** [validRows] of the confirm handler. *)
Definition confirm_rows (month : Month) (rows : list SheetRow)
  : list ParsedRow :=
  fold_left
    (fun validRows row =>
       match confirm_row month row with
       | Some r => validRows ++ [r]
       | None => validRows
       end)
    rows [].

(** *** Server state *)

(** [lastImportBackup] *)
Record Backup : Type := mkBackup {
  month : string;
  records : list DailyRecord;
  importedIds : list Z;
  timestamp : Z
}.

Record State : Type := mkState {
  table : Table;
  lastImportBackup : option Backup
}.

Definition on_table {A} (c : io Table A) : io State A :=
  zoom table (fun t s => mkState t (lastImportBackup s)) c.

Definition set_lastImportBackup (b : option Backup) : io State unit :=
  fun s => (Ok tt, mkState (table s) b).

(** The multipart request: [req.body.month] and the first sheet of
    [req.file] as an array of rows. *)
Record Request : Type := mkRequest {
  req_month : option Month;
  req_file : option (list SheetRow)
}.

Record Preview : Type := mkPreview {
  selectedMonth : string;
  totalRowsInFile : nat;
  validRows : nat;
  invalidRows : nat;
  existingRecordsToDelete : nat;
  errors : list (Z * string)
}.

Record ImportResult : Type := mkImportResult {
  i_month : string;
  recordsDeleted : nat;
  recordsImported : nat;
  skipped : Z
}.

Record UndoResult : Type := mkUndoResult {
  u_month : string;
  recordsRestored : nat;
  recordsRemoved : nat
}.

Inductive Response : Type :=
| PreviewSuccess (preview : Preview)
| ImportSuccess (result : ImportResult)
| UndoSuccess (result : UndoResult)
| Status400 (message : string)
| Status500 (message : string).

(** The month as the queries bound it: [new Date(targetYear, targetMonth
    - 1, 1)] and [new Date(targetYear, targetMonth, 1)]; a query given an
    Invalid Date is rejected. *)
Definition month_range (m : Month) : io State (Z * Z) :=
  match new_Date tz (targetYear m) (targetMonth m - 1) 1,
        new_Date tz (targetYear m) (targetMonth m) 1 with
  | Some startDate, Some endDate => ret (startDate, endDate)
  | _, _ => throw
  end.

(** POST /api/import/preview *)
Definition preview_body (req : Request) : io State Response :=
  match req_month req, req_file req with
  | Some month, Some rawData =>
      let dataRows := dataRows rawData in
      let '(validRows, invalidRows) := preview_rows month dataRows 0 [] [] in
      (* Check for duplicate dates in valid rows *)
      let invalidRows := duplicate_dates validRows 0 [] invalidRows in
      (* Get existing records count for this month *)
      range <- month_range month ;;
      existingCount <- on_table (count (date_gte_lt (fst range) (snd range))) ;;
      ret (PreviewSuccess
             (mkPreview (month_string month) (List.length dataRows)
                (List.length validRows) (List.length invalidRows)
                existingCount invalidRows))
  | _, _ => ret (Status400 "Month and file are required")
  end.

Definition preview (req : Request) : State -> Response * State :=
  try_catch (preview_body req) (Status500 "Failed to process file").

Definition row_data (row : ParsedRow) : CreateData :=
  mkCreateData (date row) (totalSale row) (totalSaleGmv row)
    (gmvSaleLive row) (gmvAdsSpend row) (gmvLiveAdsSpend row)
    (ttamSpendAds row) (ttamImpressions row)
    (Some (visitor row)) (Some (customers row)).

(** POST /api/import/confirm; [now] is the clock read by [new Date()]. *)
Definition confirm_body (req : Request) (now : Z) : io State Response :=
  match req_month req, req_file req with
  | Some month, Some rawData =>
      let dataRows := dataRows rawData in
      let validRows := confirm_rows month dataRows in
      (* STEP 1: Backup existing records *)
      range <- month_range month ;;
      existingRecords <-
        on_table (findMany (date_gte_lt (fst range) (snd range))) ;;
      (* STEP 2: Delete existing records *)
      on_table (deleteMany (date_gte_lt (fst range) (snd range))) ;;;
      (* STEP 3: Insert new records *)
      importedIds <-
        for_of
          (fun row =>
             record <- on_table (create visitorDefault customersDefault
                                   (row_data row)) ;;
             ret (Prisma.id record))
          validRows [] ;;
      (* STEP 4: Store backup for undo *)
      set_lastImportBackup
        (Some (mkBackup (month_string month) existingRecords importedIds
                 now)) ;;;
      ret (ImportSuccess
             (mkImportResult (month_string month)
                (List.length existingRecords) (List.length importedIds)
                (Z.of_nat (List.length dataRows)
                 - Z.of_nat (List.length validRows))))
  | _, _ => ret (Status400 "Month and file are required")
  end.

Definition confirm (req : Request) (now : Z) : State -> Response * State :=
  try_catch (confirm_body req now) (Status500 "Failed to import records").

(** The [data] of the [create] that restores a backed-up record. *)
Definition restore_data (record : DailyRecord) : CreateData :=
  mkCreateData (Prisma.date record) (Prisma.totalSale record)
    (Prisma.totalSaleGmv record) (Prisma.gmvSaleLive record)
    (Prisma.gmvAdsSpend record) (Prisma.gmvLiveAdsSpend record)
    (Prisma.ttamSpendAds record) (Prisma.ttamImpressions record)
    None None.

(** POST /api/import/undo *)
Definition undo_body : io State Response :=
  s <- get ;;
  match lastImportBackup s with
  | None =>
      ret (Status400
             "No import to undo. Undo is only available for the most recent import.")
  | Some backup =>
      (* STEP 1: Delete imported records *)
      on_table (deleteMany (id_in (importedIds backup))) ;;;
      (* STEP 2: Restore backup records *)
      for_of
        (fun record =>
           on_table (create visitorDefault customersDefault
                       (restore_data record)))
        (records backup) [] ;;;
      let result :=
        mkUndoResult (month backup) (List.length (records backup))
          (List.length (importedIds backup)) in
      (* Clear backup after undo *)
      set_lastImportBackup None ;;;
      ret (UndoSuccess result)
  end.

Definition undo : State -> Response * State :=
  try_catch undo_body (Status500 "Failed to undo import").

End Handlers.

End BulkImport.

(* ================================================================= *)
(** ** client/src/pages/AutoAnalysis.tsx *)

Module AutoAnalysis.
Import JsNumber JsDate.

(** The body of a /summary response as the page holds it; [visitor] and
    [customers] are optional members of [SummaryData]. *)
Record SummaryData : Type := mkSummaryData {
  totalSale : number;
  totalAdsSpend : number;
  roiTotal : number;
  roiGmv : number;
  totalSaleGmv : number;
  totalLiveGmv : number;
  totalDirectShop : number;
  records : list Metrics.t;
  visitor : option number;
  customers : option number
}.

Definition getChange (curr prev : number) : number :=
  if strict_eq prev 0 then (if gt curr 0 then 100%float else 0%float)
  else ((curr - prev) / prev * 100)%float.

Record Funnel : Type := mkFunnel {
  f_visitor : number;
  f_customers : number;
  cr : number;
  aov : number;
  cac : number;
  rpv : number
}.

(** [o || alt] for an optional numeric member. *)
Definition or_else (o : option number) (alt : number) : number :=
  match o with
  | Some x => if truthy x then x else alt
  | None => alt
  end.

Definition calcFunnel (data : SummaryData) : Funnel :=
  let vis :=
    or_else (visitor data)
      (fold_left (fun acc r => (acc + or0 (Metrics.visitor r))%float)
         (records data) 0%float) in
  let cust :=
    or_else (customers data)
      (fold_left (fun acc r => (acc + or0 (Metrics.customers r))%float)
         (records data) 0%float) in
  let sales := or0 (totalSale data) in
  let spend := or0 (totalAdsSpend data) in
  mkFunnel vis cust
    (if gt vis 0 then (cust / vis * 100)%float else 0%float)
    (if gt cust 0 then (sales / cust)%float else 0%float)
    (if gt cust 0 then (spend / cust)%float else 0%float)
    (if gt vis 0 then (sales / vis)%float else 0%float).

(** The five deltas the sale diagnosis reads. *)
Definition saleChange (c p : SummaryData) : number :=
  getChange (totalSale c) (totalSale p).
Definition roiChange (c p : SummaryData) : number :=
  getChange (roiTotal c) (roiTotal p).
Definition crChange (c p : SummaryData) : number :=
  getChange (cr (calcFunnel c)) (cr (calcFunnel p)).
Definition aovChange (c p : SummaryData) : number :=
  getChange (aov (calcFunnel c)) (aov (calcFunnel p)).
Definition visChange (c p : SummaryData) : number :=
  getChange (f_visitor (calcFunnel c)) (f_visitor (calcFunnel p)).

(** The canned texts of the sale section, [(saleComment, saleAction)]. *)
Definition traffic_issue : string * string :=
  ("ALERT: Isu Trafik. Penurunan jualan berpunca dari kejatuhan trafik (Visitor) yang ketara. Funnel tersumbat di peringkat Awareness.",
   "Tingkatkan bajet 'Traffic Awareness' atau hasilkan video 'Hook' baru untuk menarik trafik baru ke kedai.")%string.
Definition conversion_issue : string * string :=
  ("ALERT: Isu Conversion. Trafik masuk tetapi tidak membeli (CR Drop). Tawaran (Offer) atau Landing Page video mungkin tidak lagi relevan.",
   "Semak semula Offer, tambah Urgency (Limited Time Deal), atau perbaiki Product Card / Anchor Link dalam video.")%string.
Definition basket_value_issue : string * string :=
  ("ALERT: Isu Nilai Jualan. Pelanggan membeli, tetapi nilai bakul (AOV) semakin mengecil. Kita kehilangan margin keuntungan.",
   "Perkenalkan strategi 'Bundle Deal' atau 'Add-on Deal' untuk menaikkan semula nilai setiap pesanan.")%string.
Definition ads_efficiency : string * string :=
  ("Penurunan ROI semasa jualan menurun menunjukkan Ads Efficiency semakin lemah. Kos untuk dapatkan pelanggan (CAC) semakin mahal.",
   "Pause ads yang underperforming (CAC tinggi). Fokus bajet pada kempen yang mempunyai 'Lowest Cost' per result.")%string.
Definition generic_decline : string * string :=
  ("Penurunan jualan keseluruhan. Perlu audit menyeluruh dari trafik ke conversion.",
   "Lakukan audit penuh funnel.")%string.
Definition scaling : string * string :=
  ("Prestasi Cemerlang. Jualan dan ROI meningkat serentak. Funnel berfungsi dengan baik dari Trafik -> Conversion -> Profit.",
   "Fasa Scaling. Naikkan bajet sebanyak 20% pada kempen yang mempunyai CR & ROI tertinggi.")%string.
Definition buying_sales : string * string :=
  ("Jualan meningkat TETAPI ROI menurun. Kita 'membeli sales' dengan kos yang mahal (CAC meningkat).",
   "Kawal kenaikan CAC. Perbaiki kreatif iklan untuk turunkan kos klik (CPC) dan naikkan relevansi.")%string.

(** DIAGNOSIS ENGINE V2 (FUNNEL AWARE): [saleComment] and [saleAction] of
    [report]. *)
Definition sale_diagnosis (c p : SummaryData) : string * string :=
  if lt (saleChange c p) 0 then
    (* Priority Diagnosis *)
    if lt (visChange c p) (-10) then traffic_issue
    else if lt (crChange c p) (-10) then conversion_issue
    else if lt (aovChange c p) (-10) then basket_value_issue
    else if lt (roiChange c p) 0 then ads_efficiency
    else generic_decline
  else
    if gt (roiChange c p) 0 then scaling
    else buying_sales.

Section Page.
Variable tz : Z.

(** The initial [dateRange]: the last seven days up to the end of today;
    [now] is the clock read by [new Date()]. *)
Definition initial_dateRange (now : Z) : Z * Z :=
  let end_ := setHours tz now 23 59 59 999 in
  let start := setDate tz end_ (getDate tz end_ - 6) in
  let start := setHours tz start 0 0 0 0 in
  (start, end_).

(** [toStr]: the local calendar date, as (year, month 1..12, day) instead
    of the string YYYY-MM-DD built from them. *)
Definition toStr (d : Z) : Z * Z * Z :=
  (getFullYear tz d, getMonth tz d + 1, getDate tz d).

(** [compStart] and [compEnd] of [fetchData]. *)
Definition comparison_period (start end_ : Z) : Z * Z :=
  let duration := end_ - start in
  let compEnd := start - 86400000 in
  let compStart := compEnd - duration in
  (compStart, compEnd).

(** The [start] and [end] parameters of the two /summary requests of
    [fetchData]: the current range, then the comparison range. *)
Definition fetchData_queries (start end_ : Z)
  : (Z * Z * Z) * (Z * Z * Z) * ((Z * Z * Z) * (Z * Z * Z)) :=
  let '(compStart, compEnd) := comparison_period start end_ in
  ((toStr start, toStr end_), (toStr compStart, toStr compEnd)).

End Page.

End AutoAnalysis.


(* ================================================================= *)
(** * Further handlers

    The handlers of [server/src/index.ts] and of the worker, and the
    form of the data-entry page, that the further properties are about. *)

(** ** PUT /api/records/:id *)

Module RecordsById.
Import JsNumber JsDate Async Async.Notations Prisma Formulas Records.

Inductive Response : Type :=
| Success (data : Metrics.t)
| Status400 (code message : string)
| Status404 (code message : string).

(** The handler; [id] is [parseInt(req.params.id)], [None] for NaN. The
    only query is [update], whose rejection carries the code P2025, so the
    last branch of the [catch] is not reached. The date of the body is
    validated and not used. *)
Definition put_records (id : option Z) (b : Body)
  : Table -> Response * Table :=
  fun table =>
    match id with
    | None => (Status400 "validation_error" "Invalid record ID", table)
    | Some id =>
        match recordSchema_parse b with
        | None =>
            (Status400 "validation_error" "Invalid date or values", table)
        | Some validatedData =>
            match update id (v_data validatedData) table with
            | (Ok record, table') =>
                (Success (calculateMetrics record), table')
            | (Throw, table') =>
                (Status404 "not_found" "Record not found", table')
            end
        end
    end.

End RecordsById.

(** ** GET /api/import/undo-status *)

Module UndoStatus.
Import JsNumber BulkImport.

Record Status : Type := mkStatus {
  available : bool;
  month : option string;
  timestamp : option Z
}.

(** [!!lastImportBackup], [lastImportBackup?.month || null] (an empty
    month string gives null) and [lastImportBackup?.timestamp || null] (a
    Date object is truthy). *)
Definition undo_status (s : State) : Status :=
  match lastImportBackup s with
  | Some b =>
      mkStatus true
        (match BulkImport.month b with
         | EmptyString => None
         | m => Some m
         end)
        (Some (BulkImport.timestamp b))
  | None => mkStatus false None None
  end.

End UndoStatus.

(** ** The import template *)

Module Template.
Import JsNumber JsDate BulkImport.

(** The character of a decimal digit. *)
Definition digit_char (d : Z) : ascii := ascii_of_nat (Z.to_nat (48 + d)).

(** The decimal digits of [n >= 0] in front of [acc], at most [fuel] of
    them. *)
Fixpoint decimal (fuel : nat) (n : Z) (acc : string) : string :=
  match fuel with
  | O => acc
  | S fuel' =>
      let acc' := String (digit_char (n mod 10)) acc in
      if n <? 10 then acc' else decimal fuel' (n / 10) acc'
  end.

(** [n.toString()] and the string of [n] in a template literal, for an
    integer [n]. A number has fewer decimal digits than binary ones. *)
Definition toString (n : Z) : string :=
  if n <? 0
  then String "-" (decimal (S (Z.to_nat (Z.log2 (- n)))) (- n) EmptyString)
  else decimal (S (Z.to_nat (Z.log2 n))) n EmptyString.

(** [s.padStart(2, '0')] *)
Definition padStart2 (s : string) : string :=
  match s with
  | EmptyString => "00"
  | String c EmptyString => String "0" s
  | _ => s
  end.

(** [dateStr] of the template, DD/MM/YYYY. *)
Definition dateStr (year monthNum day : Z) : string :=
  (padStart2 (toString day) ++ "/" ++ padStart2 (toString monthNum) ++ "/"
   ++ toString year)%string.

(** The rows of the sheet as the import handlers read them back. The header
    cells are text, on which [parseFloat] and [parseInt] give NaN. *)
Definition headerRow : SheetRow :=
  mkSheetRow (CStr "Date (DD/MM/YYYY)") nan nan nan nan nan nan nan nan nan.

Definition sampleRows : list SheetRow :=
  [mkSheetRow (CStr "01/01/2026") 10000 8000 5000 600 1000 500 50000 1000 50;
   mkSheetRow (CStr "02/01/2026") 12000 9000 6000 700 1200 600 60000 1200 60].

(** [[dateStr, 0, 0, 0, 0, 0, 0, 0, 0, 0]] *)
Definition dayRow (dateStr : string) : SheetRow :=
  mkSheetRow (CStr dateStr) 0 0 0 0 0 0 0 0 0.

(** The values [day] takes in
    [for (let day = 1; day <= daysInMonth; day++)]. *)
Definition days (daysInMonth : Z) : list Z :=
  map Z.of_nat (seq 1 (Z.to_nat daysInMonth)).

Section Handler.
Variable tz : Z.

(** [templateData] of GET /api/import/template; [month] is the query
    parameter, absent or of the form YYYY-MM. When
    [new Date(year, monthNum, 0)] is an Invalid Date its [getDate()] is NaN
    and the loop adds no row. *)
Definition templateData (month : option Month) : list SheetRow :=
  match month with
  | None => headerRow :: sampleRows
  | Some m =>
      let year := targetYear m in
      let monthNum := targetMonth m in
      match new_Date tz year monthNum 0 with
      | Some lastDay =>
          let daysInMonth := getDate tz lastDay in
          headerRow
          :: map (fun day => dayRow (dateStr year monthNum day))
               (days daysInMonth)
      | None => [headerRow]
      end
  end.

End Handler.

End Template.

(** ** The worker's funnel metrics *)

Module WorkerFunnel.
Import JsDate.

(** [Math.ceil(x / d)] for an integer [x] and a positive integer [d]. The
    double division is exact enough for this: for [x] below 2^53 and [d]
    the milliseconds of a day, no quotient is rounded onto an integer. *)
Definition Math_ceil_div (x d : Z) : Z := - ((- x) / d).

Section Handler.
Variable tz : Z.

(** The requested range as the handler queries it. *)
Definition current_period (start end0 : Z) : Z * Z :=
  (start, setHours tz end0 23 59 59 999).

Definition diffDays (start end0 : Z) : Z :=
  let end_ := setHours tz end0 23 59 59 999 in
  let diffTime := Z.abs (end_ - start) in
  Math_ceil_div diffTime (1000 * 60 * 60 * 24).

(** [prevStart] and [prevEnd] of the handler. *)
Definition previous_period (start end0 : Z) : Z * Z :=
  let diffDays := diffDays start end0 in
  let prevEnd := setDate tz start (getDate tz start - 1) in
  let prevEnd := setHours tz prevEnd 23 59 59 999 in
  let prevStart :=
    setDate tz prevEnd
      (getDate tz prevEnd - (if 0 <? diffDays then diffDays - 1 else 0)) in
  (prevStart, prevEnd).

End Handler.

End WorkerFunnel.

(** ** GET /api/records *)

Module GetRecords.
Import JsNumber JsDate Prisma Formulas.

(** [orderBy: { date: 'desc' }]: the rows by falling date; the unique
    index on [date] leaves no ties. *)
Fixpoint insert_desc (r : DailyRecord) (l : list DailyRecord)
  : list DailyRecord :=
  match l with
  | [] => [r]
  | x :: l' =>
      if date x <=? date r then r :: l else x :: insert_desc r l'
  end.

Definition orderBy_date_desc (l : list DailyRecord) : list DailyRecord :=
  fold_right insert_desc [] l.

(** The query string: [startDate] and [endDate] when both are given, else
    [month] when it is given; the dates are the time values of
    [new Date(startDate)], [new Date(endDate)] and
    [new Date(`${month}-01`)], [None] for an Invalid Date. *)
Inductive Query : Type :=
| Range (startDate endDate : option Z)
| ByMonth (start : option Z)
| All.

Section Handler.

(** The zone of the server, a fixed offset from UTC as in [JsDate]; a zone
    with daylight saving is outside this model. *)
Variable tz : Z.

(** [d.setMonth(month)]: same local year, day of month and time of day;
    [None] for an Invalid Date. *)
Definition setMonth (t month : Z) : option Z :=
  let lt := LocalTime tz t in
  let '(y, _, d) := civil_from_days (Day lt) in
  TimeClip (UTC tz (MakeDay y month d * msPerDay + TimeWithinDay lt)).

(** The [where] of the query; [None] when one of its dates is an Invalid
    Date, which the database client refuses. *)
Definition where_ (q : Query) : option (DailyRecord -> bool) :=
  match q with
  | Range (Some startDate) (Some endDate) =>
      Some (date_gte_lt startDate endDate)
  | Range _ _ => None
  | ByMonth (Some start) =>
      match setMonth start (getMonth tz start + 1) with
      | Some end_ => Some (date_gte_lt start end_)
      | None => None
      end
  | ByMonth None => None
  | All => Some (fun _ => true)
  end.

(** The handler has no [catch]: when the query is refused no response is
    sent ([None]). *)
Definition get_records (q : Query) (table : Table) : option (list Metrics.t) :=
  match where_ q with
  | Some w =>
      let records := orderBy_date_desc (filter w (rows table)) in
      let enrichedRecords := map calculateMetrics records in
      Some enrichedRecords
  | None => None
  end.

End Handler.

End GetRecords.

(** ** client/src/pages/DataEntry.tsx *)

Module DataEntry.
Import JsNumber JsDate.

(** [formData] *)
Record FormData : Type := mkFormData {
  totalSale : number;
  totalSaleGmv : number;
  gmvSaleLive : number;
  gmvAdsSpend : number;
  gmvLiveAdsSpend : number;
  ttamSpendAds : number;
  ttamImpressions : number;
  visitor : number;
  customers : number
}.

(** [selectedDate]: [None] is null, [Some None] an Invalid Date. *)
Definition SelectedDate : Type := option (option Z).

(** The keys [validateForm] sets on [errors], in the order of its
    checks. *)
Definition errors (selectedDate : SelectedDate) (formData : FormData)
  : list string :=
  (match selectedDate with
   | Some (Some _) => []
   | _ => ["date"%string]
   end)
  ++ (if lt (totalSale formData) (totalSaleGmv formData)
      then ["totalSale"%string] else [])
  ++ (if lt (totalSaleGmv formData) (gmvSaleLive formData)
      then ["totalSaleGmv"%string] else [])
  ++ (if lt (gmvAdsSpend formData) (gmvLiveAdsSpend formData)
      then ["gmvAdsSpend"%string] else [])
  ++ (if gt (customers formData) (visitor formData)
      then ["customers"%string] else [])
  ++ (if lt (visitor formData) 0 then ["visitor"%string] else [])
  ++ (if lt (customers formData) 0 then ["customers"%string] else []).

(** [validateForm]: no key was set. *)
Definition validateForm (selectedDate : SelectedDate) (formData : FormData)
  : bool :=
  match errors selectedDate formData with
  | [] => true
  | _ :: _ => false
  end.

(** A number as JSON carries it: NaN and the infinities become null, which
    is not a number for the server. *)
Definition json_number (x : number) : option number :=
  if (isNaN x || PrimFloat.is_infinity x)%bool then None else Some x.

(** [payload] of [handleSubmit] as the server receives it; [date] is the
    time value the server's [new Date] gives [dateStr]. The payload has no
    [visitor] and no [customers]. *)
Definition payload (date : option Z) (formData : FormData) : Records.Body :=
  Records.mkBody (Records.DateString date)
    (json_number (totalSale formData))
    (json_number (totalSaleGmv formData))
    (json_number (gmvSaleLive formData))
    (json_number (gmvAdsSpend formData))
    (json_number (gmvLiveAdsSpend formData))
    (json_number (ttamSpendAds formData))
    (json_number (ttamImpressions formData))
    Records.Absent Records.Absent.

(** The request [handleSubmit] posts to /records; [None] when
    [validateForm] fails and nothing is sent. *)
Definition handleSubmit (selectedDate : SelectedDate) (formData : FormData)
    (date : option Z) : option Records.Body :=
  if negb (validateForm selectedDate formData) then None
  else Some (payload date formData).

End DataEntry.


(* ================================================================= *)
(** * Vocabulary of the statements *)

Module Spec.
Import JsNumber JsDate Async Prisma.

(** *** Metrics and sums *)

(** [num / den] when [den > 0], and 0 otherwise. *)
Definition ratio_or_zero (num den : number) : number :=
  if gt den 0 then (num / den)%float else 0%float.

(** The sum of [f] over a list, added up from 0 in list order. *)
Definition sum_of {A} (f : A -> number) (l : list A) : number :=
  fold_left (fun acc x => (acc + f x)%float) l 0%float.

(** The record a worker row stands for once its null columns read as 0. *)
Definition coalesce (r : Worker.Row) : DailyRecord :=
  mkDailyRecord (Worker.id r) (Worker.date r)
    (opt_or0 (Worker.total_sale r)) (opt_or0 (Worker.total_sale_gmv r))
    (opt_or0 (Worker.gmv_sale_live r)) (opt_or0 (Worker.gmv_ads_spend r))
    (opt_or0 (Worker.gmv_live_ads_spend r))
    (opt_or0 (Worker.ttam_spend_ads r)) (opt_or0 (Worker.ttam_impressions r))
    (opt_or0 (Worker.visitor r)) (opt_or0 (Worker.customers r)).

(** *** Calendar *)

(** What [civil_of_doe] must satisfy on one day of the 400-year cycle:
    a year of the cycle, a month, a day of month, and the day number
    [days_from_civil] gives back. *)
Definition doe_ok (doe : Z) : bool :=
  let '(y, m, d) := civil_of_doe 0 doe in
  let y' := if m <=? 2 then y - 1 else y in
  (0 <=? y') && (y' <=? 399) && (1 <=? m) && (m <=? 12) && (1 <=? d)
  && (days_from_civil y m d =? doe - 719468).

(** [doe_ok] on the [n] days from [z] on. *)
Fixpoint all_from (n : nat) (z : Z) : bool :=
  match n with
  | O => true
  | S n' => doe_ok z && all_from n' (z + 1)
  end.

Section LocalTime.
Variable tz : Z.

(** The local calendar day of a date, as a day number. *)
Definition localDay (t : Z) : Z := Day (LocalTime tz t).

(** The first and the last millisecond of a local day. *)
Definition startOfDay (n : Z) : Z := UTC tz (n * msPerDay).
Definition endOfDay (n : Z) : Z := UTC tz (n * msPerDay + (msPerDay - 1)).

End LocalTime.

(** *** Daily records *)

(** The UTC calendar day of a stored record. *)
Definition utc_day (r : DailyRecord) : Z := Day (date r).

(** At most one record per UTC calendar day. *)
Definition one_record_per_day (t : Table) : Prop :=
  NoDup (map utc_day (rows t)).

(** What POST /api/records did, read off its response: an update leaves
    the ids and dates of the table as they were and concerns a stored
    record of the submitted day; a creation appends one record, dated
    midnight UTC of the submitted day, which no stored record had;
    anything else leaves the table alone. *)
Definition upsert_outcome (body : Records.Body) (table : Table)
    (response : Records.Response) (table' : Table) : Prop :=
  match response with
  | Records.Success Records.update_ _ =>
      exists date0 existing,
        Records.b_date body = Records.DateString (Some date0)
        /\ In existing (rows table)
        /\ utc_day existing = Day date0
        /\ map date (rows table') = map date (rows table)
        /\ map id (rows table') = map id (rows table)
  | Records.Success Records.create_ data =>
      exists date0,
        Records.b_date body = Records.DateString (Some date0)
        /\ (forall r, In r (rows table) -> utc_day r <> Day date0)
        /\ Metrics.date data = setUTCHours0 date0
        /\ exists record,
             date record = setUTCHours0 date0
             /\ rows table' = rows table ++ [record]
  | _ => table' = table
  end.

(** The record with id [i] and date [d] that holds the nine values of
    [u]. *)
Definition record_of (i d : Z) (u : UpdateData) : DailyRecord :=
  mkDailyRecord i d (u_totalSale u) (u_totalSaleGmv u) (u_gmvSaleLive u)
    (u_gmvAdsSpend u) (u_gmvLiveAdsSpend u) (u_ttamSpendAds u)
    (u_ttamImpressions u) (u_visitor u) (u_customers u).

(** What the database takes. The sources hold no schema file:
    migration.sql declares [ttamImpressions] INTEGER, and the import reads
    the three counts with [parseInt]. A count is storable when it is a
    whole number below 2^31, a date when it lies in the years 0 to 9999. *)
Definition whole (x : number) : Prop :=
  exists n : Z, 0 <= n < 2 ^ 31 /\ x = PrimFloat.of_uint63 (Uint63.of_Z n).

Definition storable_date (t : Z) : Prop :=
  -62167219200000 <= t <= 253402300799999.

Definition storable (date0 : Z) (u : UpdateData) : Prop :=
  storable_date date0 /\ whole (u_ttamImpressions u)
  /\ whole (u_visitor u) /\ whole (u_customers u).

(** What POST /api/records does, decided by the body and the table. A
    body the schema refuses is answered 400 and a date that cannot be read
    500, the table left alone. Otherwise, on a table with its primary key
    and for storable values: when a record of the submitted UTC day is
    stored, the answer is an update, that record keeps its id and its
    date and holds the nine values of the body, and nothing else changes;
    when no record of that day is stored, the answer is a creation and one
    record is appended, with the next id, dated midnight UTC of the
    submitted day, holding the nine values of the body. *)
Definition upsert_decided (body : Records.Body) (table : Table)
    (response : Records.Response) (table' : Table) : Prop :=
  match Records.recordSchema_parse body with
  | None =>
      response
      = Records.Status400 "validation_error" "Invalid date or values"
      /\ table' = table
  | Some validatedData =>
      match Records.v_date validatedData with
      | None =>
          response
          = Records.Status500 "server_error" "Unable to save record"
          /\ table' = table
      | Some date0 =>
          let u := Records.v_data validatedData in
          NoDup (map id (rows table)) ->
          storable date0 u ->
          (forall existing,
              In existing (rows table) ->
              utc_day existing = Day date0 ->
              let record := record_of (id existing) (date existing) u in
              response
              = Records.Success Records.update_
                  (Formulas.calculateMetrics record)
              /\ table'
                 = mkTable
                     (map (fun r => if id r =? id existing then record else r)
                        (rows table))
                     (nextId table))
          /\ ((forall r, In r (rows table) -> utc_day r <> Day date0) ->
              let record :=
                record_of (nextId table) (setUTCHours0 date0) u in
              response
              = Records.Success Records.create_
                  (Formulas.calculateMetrics record)
              /\ table' = mkTable (rows table ++ [record]) (nextId table + 1))
      end
  end.

(** *** Diagnosis *)

(** The seven canned texts of the sale section. *)
Definition sale_texts : list (string * string) :=
  [AutoAnalysis.traffic_issue; AutoAnalysis.conversion_issue;
   AutoAnalysis.basket_value_issue; AutoAnalysis.ads_efficiency;
   AutoAnalysis.generic_decline; AutoAnalysis.scaling;
   AutoAnalysis.buying_sales].

(** *** Bulk import *)

Section Schema.
Variables visitorDefault customersDefault : number.

(** The rows a run of successful [create] calls appends: the data in
    order, numbered from [i]. *)
Fixpoint number_rows (i : Z) (ds : list CreateData) : list DailyRecord :=
  match ds with
  | [] => []
  | d :: ds' =>
      new_row visitorDefault customersDefault i d :: number_rows (i + 1) ds'
  end.

(** The table after [ds] were created on top of [t]. *)
Definition appended (t : Table) (ds : list CreateData) : Table :=
  mkTable (rows t ++ number_rows (nextId t) ds)
    (nextId t + Z.of_nat (List.length ds)).

(** [f] creates one row from [data x] and answers [result] of it. *)
Definition creates_one {A B} (f : A -> io BulkImport.State B)
    (data : A -> CreateData) (result : DailyRecord -> B) : Prop :=
  forall x s,
    f x s
    = match create visitorDefault customersDefault (data x)
              (BulkImport.table s) with
      | (Ok r, t') =>
          (Ok (result r),
           BulkImport.mkState t' (BulkImport.lastImportBackup s))
      | (Throw, t') =>
          (Throw, BulkImport.mkState t' (BulkImport.lastImportBackup s))
      end.

End Schema.

(** [new] is [old] put back by the undo handler: the date and the seven
    sales and ads columns of [old], the table's defaults for [visitor] and
    [customers]. *)
Definition restored_from (visitorDefault customersDefault : number)
    (old new : DailyRecord) : Prop :=
  date new = date old
  /\ totalSale new = totalSale old
  /\ totalSaleGmv new = totalSaleGmv old
  /\ gmvSaleLive new = gmvSaleLive old
  /\ gmvAdsSpend new = gmvAdsSpend old
  /\ gmvLiveAdsSpend new = gmvLiveAdsSpend old
  /\ ttamSpendAds new = ttamSpendAds old
  /\ ttamImpressions new = ttamImpressions old
  /\ visitor new = visitorDefault
  /\ customers new = customersDefault.

(** The check of the preview that the import leaves out. *)
Definition customers_within_visitor (r : BulkImport.ParsedRow) : bool :=
  negb (gt (BulkImport.customers r) (BulkImport.visitor r)).

(** The table without the rows that satisfy [where_]. *)
Definition without (where_ : DailyRecord -> bool) (t : Table) : Table :=
  mkTable (filter (fun r => negb (where_ r)) (rows t)) (nextId t).

(** The bounds of the month as the import handlers compute them, when both
    are valid dates. *)
Definition month_bounds (tz : Z) (m : BulkImport.Month) : option (Z * Z) :=
  match new_Date tz (BulkImport.targetYear m) (BulkImport.targetMonth m - 1) 1,
        new_Date tz (BulkImport.targetYear m) (BulkImport.targetMonth m) 1 with
  | Some startDate, Some endDate => Some (startDate, endDate)
  | _, _ => None
  end.

(** The answer of an undo that finds no backup. *)
Definition no_import_to_undo : BulkImport.Response :=
  BulkImport.Status400
    "No import to undo. Undo is only available for the most recent import.".

End Spec.

(* ================================================================= *)
(** * Concrete runs *)

Module Scenario.
Import JsNumber JsDate Async Prisma BulkImport.

(** GMT+8, the zone the application names. *)
Definition gmt8 : Z := 8 * 3600000.

(** 2026-01-14T02:00:00Z, 10:00 in GMT+8. *)
Definition now0 : Z := 1768356000000.

(** 2026-01-05T00:00:00Z *)
Definition jan5 : Z := 1767571200000.

Definition january : Month := mkMonth "2026-01" 2026 1.

(** The header row of the template; its cells are not numbers. *)
Definition header : SheetRow :=
  mkSheetRow (CStr "Date (DD/MM/YYYY)") nan nan nan nan nan nan nan nan nan.

(** A template row: date, Total Sale, Total Sale GMV, GMV Sale Live, GMV
    Live Ads Spend, GMV Ads Spend, TTAM Spend, TTAM Impressions, Visitor,
    Customers, all but the date in numeric cells. *)
Definition template_row (d : string)
    (sale gmv live liveAds ads ttam impressions visitor customers : number)
  : SheetRow :=
  mkSheetRow (CStr d) sale gmv live liveAds ads ttam impressions visitor
    customers.

(** One stored record for 5 January 2026, with funnel counts. *)
Definition stored : DailyRecord :=
  mkDailyRecord 1 jan5 10000 8000 5000 1000 600 500 50000 1000 50.

Definition table0 : Table := mkTable [stored] 2.

Definition state0 : State := mkState table0 None.

(** A file with one valid row for the same day. *)
Definition file_one : list SheetRow :=
  [header;
   template_row "05/01/2026" 12000 9000 6000 700 1200 600 60000 1200 60].

(** A file whose two rows carry the same date. *)
Definition file_duplicate : list SheetRow :=
  [header;
   template_row "06/01/2026" 12000 9000 6000 700 1200 600 60000 1200 60;
   template_row "06/01/2026" 13000 9000 6000 700 1200 600 60000 1300 65].

(** A file whose only row has more customers than visitors. *)
Definition file_customers : list SheetRow :=
  [header;
   template_row "07/01/2026" 12000 9000 6000 700 1200 600 60000 50 60].

Definition request (file : list SheetRow) : Request :=
  mkRequest (Some january) (Some file).

(** The state after [file_one] was imported into [state0], and after that
    import was undone, the omitted columns defaulting to 0. *)
Definition imported_state : State :=
  snd (confirm gmt8 0 0 (request file_one) now0 state0).
Definition undone_state : State := snd (undo 0 0 imported_state).

(** A record without ad spend or impressions. *)
Definition unadvertised : DailyRecord :=
  mkDailyRecord 1 jan5 10000 8000 5000 0 0 0 0 1000 50.

(** Bodies of POST /api/records for noon of 5 and of 6 January 2026. *)
Definition body_of (t : Z) : Records.Body :=
  Records.mkBody (Records.DateString (Some t)) (Some 11000%float)
    (Some 9000%float) (Some 6000%float) (Some 1200%float) (Some 700%float)
    (Some 600%float) (Some 60000%float) Records.Absent Records.Absent.
Definition body_jan5 : Records.Body := body_of (jan5 + 12 * 3600000).
Definition body_jan6 : Records.Body := body_of (jan5 + 36 * 3600000).

(** A summary with the given sales, ROI and funnel counts and no records. *)
Definition summary_of (sale roi vis cust : number) : AutoAnalysis.SummaryData :=
  AutoAnalysis.mkSummaryData sale 0 roi 0 0 0 0 [] (Some vis) (Some cust).

(** The comparison summary of the diagnosis runs. *)
Definition previous0 : AutoAnalysis.SummaryData := summary_of 1000 2 1000 100.

End Scenario.

(* ================================================================= *)
(** * Vocabulary of the further properties *)

(** *** Months *)

Module CalendarSpec.
Import JsDate.

(** The day number of the first day of month [m] (1..12) of year [y]. *)
Definition first_of_month (y m : Z) : Z := days_from_civil y m 1.

(** The month after month [m] of year [y]. *)
Definition next_month (y m : Z) : Z * Z :=
  if m =? 12 then (y + 1, 1) else (y, m + 1).

(** The number of days of month [m] of year [y]. *)
Definition days_in_month (y m : Z) : Z :=
  let '(y', m') := next_month y m in
  first_of_month y' m' - first_of_month y m.

(** Months counted from year 0: month [m] of year [y] is month
    [12 * y + (m - 1)]. *)
Definition month_index (y m : Z) : Z := 12 * y + (m - 1).

(** The first day of the month of index [k]. *)
Definition first_of_index (k : Z) : Z :=
  first_of_month (k / 12) (k mod 12 + 1).

(** What [civil_of_doe] must satisfy on one day of the 400-year cycle,
    besides [doe_ok]: the day lies before the first day of the next
    month. *)
Definition month_end_ok (doe : Z) : bool :=
  let '(y, m, d) := civil_of_doe 0 doe in
  let '(y', m') := next_month y m in
  doe - 719468 <? first_of_month y' m'.

(** [month_end_ok] on the [n] days from [z] on. *)
Fixpoint all_month_ends (n : nat) (z : Z) : bool :=
  match n with
  | O => true
  | S n' => month_end_ok z && all_month_ends n' (z + 1)
  end.

End CalendarSpec.

(** *** Tables *)

Module TableSpec.
Import JsNumber JsDate Prisma.

(** Every stored id is below the auto-increment counter. *)
Definition ids_below (t : Table) : Prop :=
  Forall (fun r => id r < nextId t) (rows t).

(** The primary key: no two rows share an id. *)
Definition ids_unique (t : Table) : Prop := NoDup (map id (rows t)).

(** The unique index on [date]: no two rows share a date. *)
Definition dates_unique (t : Table) : Prop := NoDup (map date (rows t)).

(** A table as the database keeps it. *)
Definition wf_table (t : Table) : Prop :=
  ids_below t /\ ids_unique t /\ dates_unique t.

(** The ids a backup lists are ids the table has handed out. *)
Definition backup_ids_below (s : BulkImport.State) : Prop :=
  match BulkImport.lastImportBackup s with
  | Some b =>
      Forall (fun i => i < nextId (BulkImport.table s))
        (BulkImport.importedIds b)
  | None => True
  end.

(** A server state as the handlers keep it. *)
Definition wf_state (s : BulkImport.State) : Prop :=
  wf_table (BulkImport.table s) /\ backup_ids_below s.

(** The sales and ads inequalities every writer checks. *)
Definition sales_consistent (r : DailyRecord) : Prop :=
  JsNumber.ge (totalSale r) (totalSaleGmv r) = true
  /\ JsNumber.ge (totalSaleGmv r) (gmvSaleLive r) = true
  /\ JsNumber.ge (gmvAdsSpend r) (gmvLiveAdsSpend r) = true.

End TableSpec.

(** *** Preview *)

Module PreviewSpec.
Import JsDate BulkImport.

(** The UTC dates of the rows the preview counts as valid. *)
Definition valid_dates (validRows : list ParsedRow) : list Z :=
  map (fun r => isoDateKey (date r)) validRows.

(** The number of different dates among them. *)
Definition distinct_dates (validRows : list ParsedRow) : nat :=
  List.length (nodup Z.eq_dec (valid_dates validRows)).

(** The date was not seen before. *)
Definition fresh (dateSet : list Z) (k : Z) : bool :=
  negb (existsb (Z.eqb k) dateSet).

End PreviewSpec.

(** *** Stored values *)

Module RecordSpec.
Import JsNumber JsDate Prisma BulkImport TableSpec.

(** Every record of the table, and every record kept for an undo, has
    consistent sales and ads figures. *)
Definition consistent_table (t : Table) : Prop :=
  Forall sales_consistent (rows t).

Definition consistent_state (s : State) : Prop :=
  consistent_table (table s)
  /\ match lastImportBackup s with
     | Some b => Forall sales_consistent (records b)
     | None => True
     end.

(** Every stored date, and every date kept for an undo, is midnight UTC. *)
Definition at_midnight (r : DailyRecord) : Prop :=
  Prisma.date r mod msPerDay = 0.

Definition midnight_table (t : Table) : Prop := Forall at_midnight (rows t).

Definition midnight_state (s : State) : Prop :=
  midnight_table (table s)
  /\ match lastImportBackup s with
     | Some b => Forall at_midnight (records b)
     | None => True
     end.

(** The record falls on one of the UTC days [first] to [last]. *)
Definition on_days (first last : Z) (r : DailyRecord) : bool :=
  (first <=? Day (Prisma.date r)) && (Day (Prisma.date r) <=? last).

End RecordSpec.

(** *** Requests *)

Module RequestSpec.
Import Records.

(** The body with another [date]. *)
Definition with_date (d : DateField) (b : Body) : Body :=
  mkBody d (b_totalSale b) (b_totalSaleGmv b) (b_gmvSaleLive b)
    (b_gmvAdsSpend b) (b_gmvLiveAdsSpend b) (b_ttamSpendAds b)
    (b_ttamImpressions b) (b_visitor b) (b_customers b).

(** The record a successful POST answers with. *)
Definition saved (response : Records.Response) : option Metrics.t :=
  match response with
  | Records.Success _ data => Some data
  | _ => None
  end.

End RequestSpec.

(** *** Numerals *)

Module NumeralSpec.
Import Template.

(** A non-empty string of decimal digits. *)
Inductive numeral : string -> Prop :=
| numeral_digit (d : Z) :
    0 <= d < 10 -> numeral (String (digit_char d) EmptyString)
| numeral_more (d : Z) (s : string) :
    0 <= d < 10 -> numeral s -> numeral (String (digit_char d) s).

End NumeralSpec.

(** *** Listings *)

Module ListingSpec.
Import JsDate Prisma Spec.

(** The record is dated in month [m] (1..12) of year [y], in UTC. *)
Definition in_utc_month (y m : Z) (r : DailyRecord) : bool :=
  let '(y', m', _) := civil_from_days (utc_day r) in
  (y' =? y) && (m' =? m).

(** Latest first: no record is dated after one that precedes it. *)
Fixpoint latest_first (l : list DailyRecord) : Prop :=
  match l with
  | [] => True
  | a :: l' => Forall (fun b => date b <= date a) l' /\ latest_first l'
  end.

End ListingSpec.

(** *** The data-entry form *)

Module FormSpec.
Import JsNumber DataEntry.

(** A number the server takes: not negative, and finite, so that JSON
    carries it. *)
Definition sendable (x : number) : Prop :=
  ge x 0 = true /\ PrimFloat.is_infinity x = false.

(** The seven sales and ads fields of the form are sendable. *)
Definition sendable_form (f : FormData) : Prop :=
  sendable (totalSale f) /\ sendable (totalSaleGmv f)
  /\ sendable (gmvSaleLive f) /\ sendable (gmvAdsSpend f)
  /\ sendable (gmvLiveAdsSpend f) /\ sendable (ttamSpendAds f)
  /\ sendable (ttamImpressions f).

(** A form as the page shows it for a day with funnel counts. *)
Definition form0 : FormData :=
  mkFormData 11000 9000 6000 1200 700 600 60000 1000 50.

End FormSpec.


(* ================================================================= *)
(** * Properties *)

(** ** Calendar arithmetic *)

Module DateFacts.
Import JsDate Spec.

Lemma all_from_spec (n : nat) :
  forall z k, all_from n z = true -> z <= k < z + Z.of_nat n -> doe_ok k = true.
Proof.
  induction n as [|n IH]; intros z k H Hk; [lia|].
  cbn [all_from] in H. apply andb_true_iff in H as [H0 H1].
  destruct (Z.eq_dec k z) as [->|Hne]; [exact H0|].
  apply (IH (z + 1)); [exact H1|lia].
Qed.

(** Every day of the 400-year cycle, by evaluation. *)
Lemma all_doe_ok : all_from (Z.to_nat 146097) 0 = true.
Proof. vm_compute. reflexivity. Qed.

Lemma doe_ok_cycle (doe : Z) : 0 <= doe < 146097 -> doe_ok doe = true.
Proof.
  intros H. apply (all_from_spec (Z.to_nat 146097) 0 doe all_doe_ok). lia.
Qed.

Lemma days_from_civil_shift (y m d e : Z) :
  days_from_civil (y + e * 400) m d = days_from_civil y m d + e * 146097.
Proof.
  unfold days_from_civil.
  set (y1 := if m <=? 2 then y - 1 else y).
  replace (if m <=? 2 then y + e * 400 - 1 else y + e * 400)
    with (y1 + e * 400) by (unfold y1; destruct (m <=? 2); lia).
  cbv zeta. rewrite Z.div_add by lia.
  replace (y1 + e * 400 - (y1 / 400 + e) * 400) with (y1 - y1 / 400 * 400)
    by lia.
  lia.
Qed.

Lemma civil_of_doe_era (era doe : Z) :
  civil_of_doe era doe =
  let '(y, m, d) := civil_of_doe 0 doe in (y + era * 400, m, d).
Proof.
  unfold civil_of_doe. cbv zeta.
  match goal with |- context [if ?b then _ else _] => destruct b end;
    f_equal; f_equal; lia.
Qed.

(** [civil_from_days] is inverted by [days_from_civil], and its month is a
    month. *)
Lemma civil_from_days_spec (z : Z) :
  forall y m d, civil_from_days z = (y, m, d) ->
  days_from_civil y m d = z /\ 1 <= m <= 12 /\ 1 <= d.
Proof.
  intros y m d. unfold civil_from_days. cbv zeta.
  set (era := (z + 719468) / 146097).
  set (doe := z + 719468 - era * 146097).
  assert (Hdoe : 0 <= doe < 146097).
  { unfold doe, era. pose proof (Z.mod_pos_bound (z + 719468) 146097).
    pose proof (Z.div_mod (z + 719468) 146097). lia. }
  pose proof (doe_ok_cycle doe Hdoe) as Hok.
  rewrite civil_of_doe_era. unfold doe_ok in Hok.
  destruct (civil_of_doe 0 doe) as [[y0 m0] d0].
  intros E. injection E as <- <- <-.
  repeat (apply andb_true_iff in Hok as [Hok ?]).
  rewrite days_from_civil_shift.
  unfold doe in *. repeat split; lia.
Qed.

(** [MakeDay] on the year and month of a day lands in that month. *)
Lemma MakeDay_of_civil (z y m d dt : Z) :
  civil_from_days z = (y, m, d) -> MakeDay y (m - 1) dt = z - d + dt.
Proof.
  intros E. destruct (civil_from_days_spec z y m d E) as (Hz & Hm & _).
  unfold MakeDay. cbv zeta.
  rewrite Z.div_small, Z.mod_small by lia.
  replace (y + 0) with y by lia. replace (m - 1 + 1) with m by lia.
  assert (Hlin : days_from_civil y m 1 = days_from_civil y m d - d + 1).
  { unfold days_from_civil. cbv zeta. lia. }
  lia.
Qed.

Section LocalTime.
Variable tz : Z.

(** [d.setDate(d.getDate() + k)] moves a date by [k] days. *)
Lemma setDate_getDate (t k : Z) :
  setDate tz t (getDate tz t + k) = t + k * msPerDay.
Proof.
  unfold setDate, getDate. cbv zeta.
  destruct (civil_from_days (Day (LocalTime tz t))) as [[y m] d] eqn:E.
  rewrite (MakeDay_of_civil _ _ _ _ _ E).
  unfold UTC, LocalTime, Day, TimeWithinDay, msPerDay in *.
  pose proof (Z.div_mod (t + tz) 86400000). lia.
Qed.

Lemma setHours_start (t : Z) :
  setHours tz t 0 0 0 0 = startOfDay tz (localDay tz t).
Proof. unfold setHours, startOfDay, localDay. f_equal. lia. Qed.

Lemma setHours_end (t : Z) :
  setHours tz t 23 59 59 999 = endOfDay tz (localDay tz t).
Proof. unfold setHours, endOfDay, localDay, msPerDay. f_equal. Qed.

Lemma localDay_startOfDay (n : Z) : localDay tz (startOfDay tz n) = n.
Proof.
  unfold localDay, startOfDay, Day, LocalTime, UTC, msPerDay.
  replace (n * 86400000 - tz + tz) with (n * 86400000) by lia.
  apply Z.div_mul. lia.
Qed.

Lemma localDay_endOfDay (n : Z) : localDay tz (endOfDay tz n) = n.
Proof.
  unfold localDay, endOfDay, Day, LocalTime, UTC, msPerDay.
  replace (n * 86400000 + (86400000 - 1) - tz + tz)
    with (86399999 + n * 86400000) by lia.
  rewrite Z.div_add by lia. reflexivity.
Qed.

Lemma localDay_add_days (t k : Z) :
  localDay tz (t + k * msPerDay) = localDay tz t + k.
Proof.
  unfold localDay, Day, LocalTime, msPerDay.
  replace (t + k * 86400000 + tz) with (t + tz + k * 86400000) by lia.
  apply Z.div_add. lia.
Qed.

End LocalTime.

End DateFacts.

(** ** The comparison period *)

Module PeriodFacts.
Import JsDate Spec DateFacts Scenario.

Lemma Math_round_div_days (k : Z) :
  Funnel.Math_round_div (k * msPerDay) (1000 * 60 * 60 * 24) = k.
Proof.
  unfold Funnel.Math_round_div, msPerDay.
  replace (2 * (k * 86400000) + 1000 * 60 * 60 * 24)
    with (86400000 + k * (2 * (1000 * 60 * 60 * 24))) by lia.
  rewrite Z.div_add by lia. reflexivity.
Qed.

Section Zone.
Variable tz : Z.

(** [rangeDays] of GET /api/funnel-metrics is the number of local calendar
    days from [start] to [end]. *)
Lemma rangeDays_spec (start end0 : Z) :
  Funnel.rangeDays tz start end0
  = localDay tz end0 - localDay tz start + 1.
Proof.
  unfold Funnel.rangeDays. cbv zeta.
  rewrite !setHours_start, setHours_end, localDay_endOfDay.
  replace (startOfDay tz (localDay tz end0)
           - startOfDay tz (localDay tz start))
    with ((localDay tz end0 - localDay tz start) * msPerDay)
    by (unfold startOfDay, UTC; lia).
  rewrite Math_round_div_days. reflexivity.
Qed.

(** The previous period of GET /api/funnel-metrics runs from the start of
    the day [rangeDays] days before [start] to the end of the day before
    [start]. *)
Lemma previous_period_spec (start end0 : Z) :
  Funnel.previous_period tz start end0
  = (startOfDay tz (localDay tz start - Funnel.rangeDays tz start end0),
     endOfDay tz (localDay tz start - 1)).
Proof.
  unfold Funnel.previous_period. cbv zeta.
  set (n := Funnel.rangeDays tz start end0).
  rewrite (setHours_start tz start).
  replace (getDate tz (startOfDay tz (localDay tz start)) - 1)
    with (getDate tz (startOfDay tz (localDay tz start)) + (-1)) by lia.
  rewrite setDate_getDate, setHours_end, localDay_add_days, localDay_startOfDay.
  replace (getDate tz (endOfDay tz (localDay tz start + -1)) - n + 1)
    with (getDate tz (endOfDay tz (localDay tz start + -1)) + (1 - n)) by lia.
  rewrite setDate_getDate, setHours_start, localDay_add_days, localDay_endOfDay.
  f_equal; f_equal; lia.
Qed.

(** On the page, for a range of whole days [a]..[b], the comparison range
    starts one millisecond after the start of the day [b - a + 2] days
    before [a]: one day more than the range has. *)
Lemma comparison_period_spec (a b : Z) :
  AutoAnalysis.comparison_period (startOfDay tz a) (endOfDay tz b)
  = (startOfDay tz (a - (b - a + 1) - 1) + 1, startOfDay tz (a - 1)).
Proof.
  unfold AutoAnalysis.comparison_period, startOfDay, endOfDay, UTC, msPerDay.
  f_equal; lia.
Qed.

End Zone.

(** C4. The comparison period spans the requested number of days and ends
    the day before the range starts. GET /api/funnel-metrics computes that
    period ([previous_period_spec]); the auto-analysis page does not: on
    14 January 2026 its initial range is 8 to 14 January, seven days, for
    which the server's previous period is 1 to 7 January, while the page
    requests the comparison summary for 31 December to 7 January, eight
    days. *)
Theorem C4_page_comparison_period_one_day_longer :
  let '(start, end_) := AutoAnalysis.initial_dateRange gmt8 now0 in
  AutoAnalysis.fetchData_queries gmt8 start end_
  = (((2026, 1, 8), (2026, 1, 14)), ((2025, 12, 31), (2026, 1, 7)))
  /\ Funnel.rangeDays gmt8 start end_ = 7
  /\ (let '(pStart, pEnd) := Funnel.previous_period gmt8 start end_ in
      (AutoAnalysis.toStr gmt8 pStart, AutoAnalysis.toStr gmt8 pEnd))
     = ((2026, 1, 1), (2026, 1, 7)).
Proof. vm_compute. auto. Qed.

End PeriodFacts.

(** ** Metric derivation and aggregation *)

Module MetricFacts.
Import JsNumber Prisma Formulas Spec Scenario.

(** C3. [calculateMetrics] returns the columns of its record unchanged,
    with gmvSaleProduct = totalSaleGmv - gmvSaleLive, directShopSale =
    totalSale - totalSaleGmv, gmvProductAdsSpend = gmvAdsSpend -
    gmvLiveAdsSpend, totalAdsSpend = gmvAdsSpend + ttamSpendAds, cpm =
    ttamSpendAds / ttamImpressions * 1000 when ttamImpressions > 0 and 0
    otherwise, and roiTotal = totalSale / totalAdsSpend and roiGmv =
    totalSaleGmv / totalAdsSpend when totalAdsSpend > 0 and 0 otherwise. *)
Theorem C3_calculateMetrics_formulas (record : DailyRecord) :
  let m := calculateMetrics record in
  (Metrics.id m = id record /\ Metrics.date m = date record
   /\ Metrics.totalSale m = totalSale record
   /\ Metrics.totalSaleGmv m = totalSaleGmv record
   /\ Metrics.gmvSaleLive m = gmvSaleLive record
   /\ Metrics.gmvAdsSpend m = gmvAdsSpend record
   /\ Metrics.gmvLiveAdsSpend m = gmvLiveAdsSpend record
   /\ Metrics.ttamSpendAds m = ttamSpendAds record
   /\ Metrics.ttamImpressions m = ttamImpressions record
   /\ Metrics.visitor m = visitor record
   /\ Metrics.customers m = customers record)
  /\ Metrics.gmvSaleProduct m = (totalSaleGmv record - gmvSaleLive record)%float
  /\ Metrics.directShopSale m = (totalSale record - totalSaleGmv record)%float
  /\ Metrics.gmvProductAdsSpend m
     = (gmvAdsSpend record - gmvLiveAdsSpend record)%float
  /\ Metrics.totalAdsSpend m = (gmvAdsSpend record + ttamSpendAds record)%float
  /\ Metrics.cpm m
     = (if gt (ttamImpressions record) 0
        then (ttamSpendAds record / ttamImpressions record * 1000)%float
        else 0%float)
  /\ Metrics.roiTotal m
     = ratio_or_zero (totalSale record) (Metrics.totalAdsSpend m)
  /\ Metrics.roiGmv m
     = ratio_or_zero (totalSaleGmv record) (Metrics.totalAdsSpend m).
Proof.
  cbv zeta. unfold ratio_or_zero.
  repeat split.
Qed.

(** The worker variant computes the same object from the row with its
    null columns read as 0. *)
Lemma worker_calculateMetrics_coalesce (r : Worker.Row) :
  Worker.calculateMetrics r = calculateMetrics (coalesce r).
Proof. reflexivity. Qed.

(** The five running totals are five sums. *)
Lemma fold_accumulate (rs : list DailyRecord) :
  forall acc,
    fold_left Summary.accumulate rs acc
    = Summary.mkTotals
        (fold_left (fun a m => (a + Metrics.totalSale m)%float)
           (map calculateMetrics rs) (Summary.totalSale acc))
        (fold_left (fun a m => (a + Metrics.totalAdsSpend m)%float)
           (map calculateMetrics rs) (Summary.totalAdsSpend acc))
        (fold_left (fun a m => (a + Metrics.totalSaleGmv m)%float)
           (map calculateMetrics rs) (Summary.totalSaleGmv acc))
        (fold_left (fun a m => (a + Metrics.gmvSaleLive m)%float)
           (map calculateMetrics rs) (Summary.totalLiveGmv acc))
        (fold_left (fun a m => (a + Metrics.directShopSale m)%float)
           (map calculateMetrics rs) (Summary.totalDirectShop acc)).
Proof.
  induction rs as [|r rs IH]; intros acc.
  - destruct acc; reflexivity.
  - cbn [fold_left map]. rewrite IH. reflexivity.
Qed.

(** C7. GET /api/summary answers, for the records of the requested range,
    the sums of the derived totalSale, totalAdsSpend, totalSaleGmv,
    gmvSaleLive and directShopSale, and as roiTotal and roiGmv the ratio of
    the summed totalSale, respectively totalSaleGmv, to the summed
    totalAdsSpend when that sum is positive and 0 otherwise. *)
Theorem C7_summary_ratio_of_sums (tz start end_ : Z) (table : Table) :
  let records :=
    filter (date_gte_lt start
              (JsDate.setDate tz end_ (JsDate.getDate tz end_ + 1)))
      (rows table) in
  let ms := map calculateMetrics records in
  exists b,
    Summary.summary tz (Some start) (Some end_) table = Summary.Json b
    /\ Summary.b_records b = ms
    /\ Summary.b_totalSale b = sum_of Metrics.totalSale ms
    /\ Summary.b_totalAdsSpend b = sum_of Metrics.totalAdsSpend ms
    /\ Summary.b_totalSaleGmv b = sum_of Metrics.totalSaleGmv ms
    /\ Summary.b_totalLiveGmv b = sum_of Metrics.gmvSaleLive ms
    /\ Summary.b_totalDirectShop b = sum_of Metrics.directShopSale ms
    /\ Summary.b_roiTotal b
       = ratio_or_zero (sum_of Metrics.totalSale ms)
           (sum_of Metrics.totalAdsSpend ms)
    /\ Summary.b_roiGmv b
       = ratio_or_zero (sum_of Metrics.totalSaleGmv ms)
           (sum_of Metrics.totalAdsSpend ms).
Proof.
  cbv zeta. eexists. split; [reflexivity|].
  unfold Summary.aggregate. rewrite fold_accumulate.
  unfold ratio_or_zero, sum_of. cbn.
  repeat split.
Qed.

(** C9. The ratios are guarded: cpm is 0 when ttamImpressions is not
    positive, roiTotal and roiGmv of a record are 0 when its totalAdsSpend
    is not positive, and roiTotal and roiGmv of a summary are 0 when the
    summed ads spend is not positive. *)
Theorem C9_ratios_guarded (record : DailyRecord) (records : list DailyRecord) :
  let m := calculateMetrics record in
  let b := Summary.aggregate records in
  (gt (ttamImpressions record) 0 = false -> Metrics.cpm m = 0%float)
  /\ (gt (Metrics.totalAdsSpend m) 0 = false ->
      Metrics.roiTotal m = 0%float /\ Metrics.roiGmv m = 0%float)
  /\ (gt (Summary.b_totalAdsSpend b) 0 = false ->
      Summary.b_roiTotal b = 0%float /\ Summary.b_roiGmv b = 0%float).
Proof.
  cbv zeta. unfold Summary.aggregate, calculateMetrics. cbn.
  split; [|split]; intros H; rewrite H; auto.
Qed.

Lemma C9_ratios_guarded_witness :
  Metrics.cpm (calculateMetrics unadvertised) = 0%float
  /\ (Metrics.roiTotal (calculateMetrics unadvertised) = 0%float
      /\ Metrics.roiGmv (calculateMetrics unadvertised) = 0%float)
  /\ (Summary.b_roiTotal (Summary.aggregate [unadvertised]) = 0%float
      /\ Summary.b_roiGmv (Summary.aggregate [unadvertised]) = 0%float).
Proof.
  destruct (C9_ratios_guarded unadvertised [unadvertised]) as (H1 & H2 & H3).
  split; [apply H1; reflexivity|].
  split; [apply H2; reflexivity|apply H3; reflexivity].
Defined.

End MetricFacts.

(** ** The sale diagnosis *)

Module DiagnosisFacts.
Import JsNumber AutoAnalysis Spec Scenario.

Lemma sale_texts_distinct : NoDup sale_texts.
Proof.
  unfold sale_texts.
  repeat (apply NoDup_cons; [cbn; intuition discriminate|]).
  apply NoDup_nil.
Qed.

(** C6. The sale diagnosis picks one of the seven canned texts: with a
    negative sales change, the traffic text when the visitor change is
    below -10, otherwise the conversion text when the conversion-rate
    change is below -10, otherwise the basket-value text when the AOV
    change is below -10, otherwise the ads-efficiency text when the ROI
    change is negative, otherwise the generic-decline text; with a sales
    change that is not negative, the scaling text when the ROI change is
    positive and the buying-sales text otherwise. *)
Theorem C6_sale_diagnosis_priority (c p : SummaryData) :
  let d := sale_diagnosis c p in
  In d sale_texts
  /\ (lt (saleChange c p) 0 = true ->
        (lt (visChange c p) (-10) = true -> d = traffic_issue)
        /\ (lt (visChange c p) (-10) = false ->
            lt (crChange c p) (-10) = true -> d = conversion_issue)
        /\ (lt (visChange c p) (-10) = false ->
            lt (crChange c p) (-10) = false ->
            lt (aovChange c p) (-10) = true -> d = basket_value_issue)
        /\ (lt (visChange c p) (-10) = false ->
            lt (crChange c p) (-10) = false ->
            lt (aovChange c p) (-10) = false ->
            lt (roiChange c p) 0 = true -> d = ads_efficiency)
        /\ (lt (visChange c p) (-10) = false ->
            lt (crChange c p) (-10) = false ->
            lt (aovChange c p) (-10) = false ->
            lt (roiChange c p) 0 = false -> d = generic_decline))
  /\ (lt (saleChange c p) 0 = false ->
        (gt (roiChange c p) 0 = true -> d = scaling)
        /\ (gt (roiChange c p) 0 = false -> d = buying_sales)).
Proof.
  cbv zeta. unfold sale_diagnosis.
  split; [|split].
  - unfold sale_texts.
    destruct (lt (saleChange c p) 0), (lt (visChange c p) (-10)),
      (lt (crChange c p) (-10)), (lt (aovChange c p) (-10)),
      (lt (roiChange c p) 0), (gt (roiChange c p) 0); cbn; tauto.
  - intros ->. repeat split; intros;
      repeat match goal with H : _ = _ |- _ => rewrite H; clear H end;
      reflexivity.
  - intros ->. split; intros ->; reflexivity.
Qed.

Lemma C6_sale_diagnosis_witness :
  sale_diagnosis (summary_of 800 2 800 100) previous0 = traffic_issue
  /\ sale_diagnosis (summary_of 800 2 1000 80) previous0 = conversion_issue
  /\ sale_diagnosis (summary_of 800 2 1000 100) previous0 = basket_value_issue
  /\ sale_diagnosis (summary_of 950 1.5 1000 100) previous0 = ads_efficiency
  /\ sale_diagnosis (summary_of 950 2 1000 100) previous0 = generic_decline
  /\ sale_diagnosis (summary_of 1200 2.5 1000 100) previous0 = scaling
  /\ sale_diagnosis (summary_of 1200 1.5 1000 100) previous0 = buying_sales.
Proof.
  refine (conj _ (conj _ (conj _ (conj _ (conj _ (conj _ _)))))).
  - destruct (C6_sale_diagnosis_priority (summary_of 800 2 800 100) previous0)
      as (_ & Hneg & _).
    destruct (Hneg eq_refl) as (H & _). apply H. reflexivity.
  - destruct (C6_sale_diagnosis_priority (summary_of 800 2 1000 80) previous0)
      as (_ & Hneg & _).
    destruct (Hneg eq_refl) as (_ & H & _). apply H; reflexivity.
  - destruct (C6_sale_diagnosis_priority (summary_of 800 2 1000 100) previous0)
      as (_ & Hneg & _).
    destruct (Hneg eq_refl) as (_ & _ & H & _). apply H; reflexivity.
  - destruct (C6_sale_diagnosis_priority (summary_of 950 1.5 1000 100)
                previous0) as (_ & Hneg & _).
    destruct (Hneg eq_refl) as (_ & _ & _ & H & _). apply H; reflexivity.
  - destruct (C6_sale_diagnosis_priority (summary_of 950 2 1000 100) previous0)
      as (_ & Hneg & _).
    destruct (Hneg eq_refl) as (_ & _ & _ & _ & H). apply H; reflexivity.
  - destruct (C6_sale_diagnosis_priority (summary_of 1200 2.5 1000 100)
                previous0) as (_ & _ & Hpos).
    destruct (Hpos eq_refl) as (H & _). apply H; reflexivity.
  - destruct (C6_sale_diagnosis_priority (summary_of 1200 1.5 1000 100)
                previous0) as (_ & _ & Hpos).
    destruct (Hpos eq_refl) as (_ & H). apply H; reflexivity.
Defined.

End DiagnosisFacts.

(** ** JavaScript comparisons *)

Module NumberFacts.
Import JsNumber.

Lemma SFcompare_antisym (a b : spec_float) :
  SFcompare b a = option_map CompOpp (SFcompare a b).
Proof.
  destruct a as [sa|sa| |sa ma ea], b as [sb|sb| |sb mb eb]; cbn;
    try reflexivity;
    try (destruct sa; reflexivity); try (destruct sb; reflexivity);
    try (destruct sa, sb; reflexivity).
  assert (Hm : Pos.compare_cont Eq mb ma
               = CompOpp (Pos.compare_cont Eq ma mb))
    by (rewrite Pos.compare_cont_antisym; reflexivity).
  rewrite Hm, (Z.compare_antisym ea eb).
  destruct sa, sb, (ea ?= eb), (Pos.compare_cont Eq ma mb); reflexivity.
Qed.

(** [x >= y] is the negation of [x < y] on numbers that are not NaN. *)
Lemma ge_negb_lt (x y : number) :
  isNaN x = false -> isNaN y = false -> ge x y = negb (lt x y).
Proof.
  unfold isNaN, ge, lt. intros Hx Hy.
  apply negb_false_iff in Hx, Hy.
  rewrite eqb_spec in Hx, Hy. rewrite leb_spec, ltb_spec.
  unfold SFeqb, SFleb, SFltb in *.
  rewrite (SFcompare_antisym (Prim2SF x) (Prim2SF y)).
  destruct (SFcompare (Prim2SF x) (Prim2SF y)) as [[]|] eqn:Ec;
    try reflexivity.
  destruct (Prim2SF x) as [sx|sx| |sx mx ex]; try discriminate;
    destruct (Prim2SF y) as [sy|sy| |sy my ey]; discriminate.
Qed.

(** [x || 0] is never NaN. *)
Lemma or0_not_NaN (x : number) : isNaN (or0 x) = false.
Proof.
  unfold or0, truthy. destruct (isNaN x) eqn:E; cbn.
  - rewrite andb_false_r. reflexivity.
  - rewrite andb_true_r. destruct (negb _); [exact E|reflexivity].
Qed.

End NumberFacts.

(** ** Validation of imported rows *)

Module ValidationFacts.
Import JsNumber JsDate Async Prisma BulkImport Spec NumberFacts.

Section Zone.
Variable tz : Z.

(** The sales and ads checks of the import are those of the preview. *)
Lemma confirm_checks (t : Z) (row : SheetRow) :
  let r := parse_numbers t row in
  ge (totalSale r) (totalSaleGmv r) && ge (totalSaleGmv r) (gmvSaleLive r)
  && ge (gmvAdsSpend r) (gmvLiveAdsSpend r)
  = negb (lt (totalSale r) (totalSaleGmv r))
    && negb (lt (totalSaleGmv r) (gmvSaleLive r))
    && negb (lt (gmvAdsSpend r) (gmvLiveAdsSpend r)).
Proof.
  cbv zeta. cbn [parse_numbers totalSale totalSaleGmv gmvSaleLive gmvAdsSpend
                  gmvLiveAdsSpend].
  rewrite !ge_negb_lt by apply or0_not_NaN. reflexivity.
Qed.

(** A row is valid for the preview exactly when the import takes it and
    its customers do not exceed its visitors. *)
Lemma preview_row_confirm_row (month : Month) (row : SheetRow) :
  match preview_row tz month row with
  | inl r =>
      confirm_row tz month row = Some r /\ customers_within_visitor r = true
  | inr _ =>
      match confirm_row tz month row with
      | Some r => customers_within_visitor r = false
      | None => True
      end
  end.
Proof.
  unfold preview_row, confirm_row, customers_within_visitor.
  destruct (parseExcelDate (cell0 row)) as [[t|]|]; try exact I.
  destruct (month_mismatch tz month (Some t)); try exact I.
  cbv zeta. rewrite confirm_checks. set (r := parse_numbers t row).
  destruct (lt (totalSale r) (totalSaleGmv r)); cbn [negb andb];
    try exact I.
  destruct (lt (totalSaleGmv r) (gmvSaleLive r)); cbn [negb andb];
    try exact I.
  destruct (lt (gmvAdsSpend r) (gmvLiveAdsSpend r)); cbn [negb andb];
    try exact I.
  destruct (gt (customers r) (visitor r)) eqn:Eg; cbn [negb];
    rewrite ?Eg; auto.
Qed.

Lemma confirm_rows_acc (month : Month) (rows : list SheetRow) :
  forall acc,
    fold_left
      (fun validRows row =>
         match confirm_row tz month row with
         | Some r => validRows ++ [r]
         | None => validRows
         end)
      rows acc
    = acc ++ confirm_rows tz month rows.
Proof.
  unfold confirm_rows.
  induction rows as [|row rows IH]; intros acc; cbn [fold_left].
  - rewrite app_nil_r. reflexivity.
  - rewrite IH. rewrite (IH (match confirm_row tz month row with
                              | Some r => [] ++ [r] | None => [] end)).
    destruct (confirm_row tz month row); cbn; [|reflexivity].
    rewrite <- app_assoc. reflexivity.
Qed.

Lemma confirm_rows_cons (month : Month) (row : SheetRow)
    (rows : list SheetRow) :
  confirm_rows tz month (row :: rows)
  = match confirm_row tz month row with
    | Some r => r :: confirm_rows tz month rows
    | None => confirm_rows tz month rows
    end.
Proof.
  unfold confirm_rows at 1. cbn [fold_left]. rewrite confirm_rows_acc.
  destruct (confirm_row tz month row); reflexivity.
Qed.

(** The valid rows of the preview are the rows of the import whose
    customers do not exceed their visitors. *)
Lemma preview_rows_valid (month : Month) (rows : list SheetRow) :
  forall index validRows invalidRows,
    fst (preview_rows tz month rows index validRows invalidRows)
    = validRows
      ++ filter customers_within_visitor (confirm_rows tz month rows).
Proof.
  induction rows as [|row rows IH]; intros index validRows invalidRows.
  - cbn. rewrite app_nil_r. reflexivity.
  - cbn [preview_rows]. rewrite confirm_rows_cons.
    pose proof (preview_row_confirm_row month row) as H.
    destruct (preview_row tz month row) as [r|reason].
    + destruct H as [-> Hc]. rewrite IH. cbn [filter]. rewrite Hc.
      rewrite <- app_assoc. reflexivity.
    + rewrite IH. destruct (confirm_row tz month row) as [r|];
        [|reflexivity].
      cbn [filter]. rewrite H. reflexivity.
Qed.

(** The [validRows] count of a preview: the rows the import would insert,
    less those with more customers than visitors. *)
Lemma preview_validRows_count (month : Month) (rawData : list SheetRow)
    (s : State) (p : Preview) (s' : State) :
  preview tz (mkRequest (Some month) (Some rawData)) s
  = (PreviewSuccess p, s') ->
  validRows p
  = List.length
      (filter customers_within_visitor
         (confirm_rows tz month (dataRows rawData))).
Proof.
  unfold preview, try_catch, preview_body. cbn [req_month req_file].
  pose proof (preview_rows_valid month (dataRows rawData) 0 [] []) as Hv.
  destruct (preview_rows tz month (dataRows rawData) 0 [] [])
    as [valid invalid].
  cbn [fst app] in Hv. subst valid.
  unfold month_range.
  destruct (new_Date tz (targetYear month) (targetMonth month - 1) 1);
    [|cbn; discriminate].
  destruct (new_Date tz (targetYear month) (targetMonth month) 1);
    [|cbn; discriminate].
  cbn. intros H. injection H as <- _. reflexivity.
Qed.

End Zone.
End ValidationFacts.

(** ** POST /api/records *)

Module UpsertFacts.
Import JsNumber JsDate Async Prisma Records Spec Scenario.

(** The 24-hour window queried for [date0] is its UTC day. *)
Lemma window_is_utc_day (date0 : Z) (r : DailyRecord) :
  date_gte_lt (setUTCHours0 date0)
    (setUTCHours0 date0 + 24 * 60 * 60 * 1000) r = true
  <-> utc_day r = Day date0.
Proof.
  unfold date_gte_lt, setUTCHours0, utc_day, Day, msPerDay.
  rewrite andb_true_iff, Z.leb_le, Z.ltb_lt.
  split; intros H.
  - symmetry.
    apply (Z.div_unique_pos _ _ _ (date r - date0 / 86400000 * 86400000));
      lia.
  - rewrite <- H. pose proof (Z.div_mod (date r) 86400000).
    pose proof (Z.mod_pos_bound (date r) 86400000). lia.
Qed.

Lemma utc_day_setUTCHours0 (date0 : Z) :
  Day (setUTCHours0 date0) = Day date0.
Proof.
  unfold setUTCHours0, Day, msPerDay. rewrite Z.div_mul by lia. reflexivity.
Qed.

Lemma map_utc_day_update (i : Z) (u : UpdateData) (l : list DailyRecord) :
  map utc_day (map (fun x => if id x =? i then set_data u x else x) l)
  = map utc_day l.
Proof.
  rewrite map_map. apply map_ext. intros x. destruct (id x =? i); reflexivity.
Qed.

Lemma NoDup_snoc {A} (l : list A) (x : A) :
  NoDup l -> ~ In x l -> NoDup (l ++ [x]).
Proof.
  intros Hl Hx. apply (NoDup_Add (a := x) (l := l)).
  - rewrite <- (app_nil_r l) at 1. apply Add_app.
  - split; assumption.
Qed.

Lemma find_same_id (f : DailyRecord -> bool) (l : list DailyRecord)
    (x : DailyRecord) :
  find f l = Some x -> exists y, find (fun r => id r =? id x) l = Some y.
Proof.
  intros H. apply find_some in H as [Hin _].
  destruct (find (fun r => id r =? id x) l) as [y|] eqn:E; [eauto|].
  pose proof (find_none _ _ E x Hin) as Hn. cbn in Hn.
  rewrite Z.eqb_refl in Hn. discriminate.
Qed.

(** POST /api/records keeps at most one record per UTC calendar day, and
    its response tells what it did ([upsert_outcome]). *)
Lemma one_record_per_day_preserved
    (visitorDefault customersDefault : number) (body : Body) (table : Table) :
  one_record_per_day table ->
  let '(response, table') :=
    post_records visitorDefault customersDefault body table in
  one_record_per_day table' /\ upsert_outcome body table response table'.
Proof.
  intros Hinv.
  unfold post_records, try_catch, post_records_body, upsert_outcome.
  destruct (recordSchema_parse body) as [v|] eqn:Eparse;
    [|cbn; split; [assumption|reflexivity]].
  assert (Hdate : b_date body = DateString (v_date v)).
  { unfold recordSchema_parse in Eparse.
    destruct (b_date body); [discriminate|].
    repeat match type of Eparse with
           | match ?o with _ => _ end = _ => destruct o; try discriminate
           end.
    injection Eparse as <-. reflexivity. }
  destruct (v_date v) as [date0|]; [|cbn; split; [assumption|reflexivity]].
  unfold bind, findFirst.
  destruct (find _ (rows table)) as [existing|] eqn:Efind.
  - destruct (find_same_id _ _ _ Efind) as [y Ey].
    unfold update. rewrite Ey. cbn.
    apply find_some in Efind as [Hin Hwin].
    apply window_is_utc_day in Hwin.
    split.
    + unfold one_record_per_day. cbn. rewrite map_utc_day_update. exact Hinv.
    + exists date0, existing. repeat split; try assumption.
      * rewrite map_map. apply map_ext. intros x.
        destruct (id x =? id existing); reflexivity.
      * rewrite map_map. apply map_ext. intros x.
        destruct (id x =? id existing); reflexivity.
  - assert (Hfree : forall r, In r (rows table) -> utc_day r <> Day date0).
    { intros r Hr Hday. apply window_is_utc_day in Hday.
      rewrite (find_none _ _ Efind r Hr) in Hday. discriminate. }
    unfold create.
    destruct (existsb _ (rows table)) eqn:Eex.
    + exfalso. apply existsb_exists in Eex as (r & Hr & Hd).
      apply Z.eqb_eq in Hd. cbn in Hd. apply (Hfree r Hr).
      unfold utc_day. rewrite Hd. apply utc_day_setUTCHours0.
    + cbn. split.
      * unfold one_record_per_day. cbn. rewrite map_app. cbn.
        apply NoDup_snoc; [exact Hinv|].
        intros Hin. apply in_map_iff in Hin as (r & Hd & Hr).
        apply (Hfree r Hr). rewrite Hd. unfold utc_day. cbn.
        apply utc_day_setUTCHours0.
      * exists date0. repeat split; try assumption.
        eexists. split; [|reflexivity]. reflexivity.
Qed.

Lemma table0_one_record_per_day : one_record_per_day table0.
Proof.
  unfold one_record_per_day. cbn.
  apply NoDup_cons; [intros []|apply NoDup_nil].
Defined.

(** Posting for a stored day is an update, for another day a creation. *)
Lemma upsert_modes :
  (exists data, fst (post_records 0 0 body_jan5 table0)
                = Success update_ data)
  /\ (exists data, fst (post_records 0 0 body_jan6 table0)
                   = Success create_ data).
Proof. split; eexists; vm_compute; reflexivity. Qed.

End UpsertFacts.

(** ** Bulk import and undo *)

Module ImportFacts.
Import JsNumber JsDate Async Async.Notations Prisma BulkImport Spec Scenario.

Section Schema.
Variables visitorDefault customersDefault : number.

Lemma length_number_rows (ds : list CreateData) :
  forall i,
    List.length (number_rows visitorDefault customersDefault i ds)
    = List.length ds.
Proof.
  induction ds as [|d ds IH]; intros i; [reflexivity|].
  cbn. f_equal. apply IH.
Qed.

Lemma appended_nil (t : Table) :
  appended visitorDefault customersDefault t [] = t.
Proof.
  destruct t as [rs n]. unfold appended. cbn. rewrite app_nil_r.
  f_equal. lia.
Qed.

Lemma appended_cons (t : Table) (d : CreateData) (ds : list CreateData) :
  appended visitorDefault customersDefault
    (appended visitorDefault customersDefault t [d]) ds
  = appended visitorDefault customersDefault t (d :: ds).
Proof.
  unfold appended. cbn [rows nextId number_rows List.length].
  rewrite <- app_assoc. cbn [app]. f_equal. lia.
Qed.

(** [create] appends the row, or throws and leaves the table. *)
Lemma create_cases (d : CreateData) (t : Table) :
  create visitorDefault customersDefault d t
  = (Ok (new_row visitorDefault customersDefault (nextId t) d),
     appended visitorDefault customersDefault t [d])
  \/ create visitorDefault customersDefault d t = (Throw, t).
Proof.
  unfold create, appended. destruct (existsb _ (rows t)); [right|left];
    reflexivity.
Qed.

(** The loop over [create]: it stops after [k] rows; all of them when it
    returns, fewer when it throws; the backup is not touched. *)
Lemma for_of_create {A B} (f : A -> io State B) (data : A -> CreateData)
    (result : DailyRecord -> B) (xs : list A) :
  creates_one visitorDefault customersDefault f data result ->
  forall (acc : list B) (s : State),
  exists k : nat,
    (k <= List.length xs)%nat
    /\ snd (for_of f xs acc s)
       = mkState (appended visitorDefault customersDefault (table s)
                    (firstn k (map data xs)))
           (lastImportBackup s)
    /\ match fst (for_of f xs acc s) with
       | Ok ys =>
           k = List.length xs
           /\ ys = acc ++ map result
                             (number_rows visitorDefault customersDefault
                                (nextId (table s)) (map data xs))
       | Throw => (k < List.length xs)%nat
       end.
Proof.
  intros Hf. induction xs as [|x xs IH]; intros acc s.
  - exists 0%nat. cbn. rewrite appended_nil, app_nil_r. destruct s; auto.
  - cbn [for_of]. unfold bind. rewrite Hf.
    destruct (create_cases (data x) (table s)) as [E|E]; rewrite E;
      cbv beta iota.
    + destruct (IH (acc ++ [result (new_row visitorDefault customersDefault
                                      (nextId (table s)) (data x))])
                  (mkState (appended visitorDefault customersDefault
                              (table s) [data x])
                     (lastImportBackup s)))
        as (k & Hk & Hs & Hr).
      match type of Hs with snd ?r = _ => set (res := r) in * end.
      exists (S k). cbn [List.length map firstn].
      split; [lia|]. split.
      * rewrite Hs. cbn [table lastImportBackup]. rewrite appended_cons.
        reflexivity.
      * destruct (fst res) as [ys|]; [|lia].
        destruct Hr as [-> ->]. split; [reflexivity|].
        cbn [table appended nextId number_rows map List.length].
        rewrite <- app_assoc. reflexivity.
    + exists 0%nat. cbn. rewrite appended_nil. split; [lia|].
      split; [destruct s; reflexivity|lia].
Qed.

Lemma confirm_creates_one :
  creates_one visitorDefault customersDefault
    (fun row : ParsedRow =>
       bind (on_table (create visitorDefault customersDefault (row_data row)))
         (fun record => ret (id record)))
    row_data id.
Proof.
  intros x s. unfold bind, on_table, zoom, ret.
  destruct (create _ _ _ (table s)) as [[r|] t']; reflexivity.
Qed.

Lemma undo_creates_one :
  creates_one visitorDefault customersDefault
    (fun record : DailyRecord =>
       on_table (create visitorDefault customersDefault (restore_data record)))
    restore_data (fun r => r).
Proof.
  intros x s. unfold on_table, zoom.
  destruct (create _ _ _ (table s)) as [[r|] t']; reflexivity.
Qed.

Section Zone.
Variable tz : Z.

(** What one run of POST /api/import/confirm does with a month and a
    file. *)
Lemma confirm_cases (month : Month) (rawData : list SheetRow) (now : Z)
    (s : State) :
  let validRows := confirm_rows tz month (dataRows rawData) in
  let '(response, s') :=
    confirm tz visitorDefault customersDefault
      (mkRequest (Some month) (Some rawData)) now s in
  match month_bounds tz month with
  | None => response = Status500 "Failed to import records" /\ s' = s
  | Some (startDate, endDate) =>
      let in_month := date_gte_lt startDate endDate in
      let old := filter in_month (rows (table s)) in
      let kept := without in_month (table s) in
      exists k : nat,
        (k <= List.length validRows)%nat
        /\ table s'
           = appended visitorDefault customersDefault kept
               (firstn k (map row_data validRows))
        /\ ((k = List.length validRows
             /\ response
                = ImportSuccess
                    (mkImportResult (month_string month) (List.length old)
                       (List.length validRows)
                       (Z.of_nat (List.length (dataRows rawData))
                        - Z.of_nat (List.length validRows)))
             /\ lastImportBackup s'
                = Some (mkBackup (month_string month) old
                          (map id
                             (number_rows visitorDefault customersDefault
                                (nextId (table s)) (map row_data validRows)))
                          now))
            \/ ((k < List.length validRows)%nat
                /\ response = Status500 "Failed to import records"
                /\ lastImportBackup s' = lastImportBackup s))
  end.
Proof.
  cbv zeta. unfold confirm, try_catch, confirm_body, month_range, month_bounds.
  cbn [req_month req_file].
  destruct (new_Date tz (targetYear month) (targetMonth month - 1) 1)
    as [startDate|]; [|cbn; auto].
  destruct (new_Date tz (targetYear month) (targetMonth month) 1)
    as [endDate|]; [|cbn; auto].
  set (f := fun row : ParsedRow => _).
  set (in_month := date_gte_lt startDate endDate).
  set (validRows := confirm_rows tz month (dataRows rawData)).
  unfold bind, on_table, zoom, findMany, deleteMany, ret,
    set_lastImportBackup.
  cbn [fst snd table lastImportBackup rows nextId].
  match goal with
  | |- context [for_of f validRows [] ?st] => set (s1 := st)
  end.
  destruct (for_of_create f row_data id validRows confirm_creates_one [] s1)
    as (k & Hk & Hs & Hr).
  destruct (for_of f validRows [] s1) as [[ids|] s2].
  - cbn [fst snd] in Hs, Hr. destruct Hr as [-> ->]. subst s2.
    exists (List.length validRows). split; [lia|].
    cbn. split; [reflexivity|]. left.
    rewrite length_map, length_number_rows, length_map. auto.
  - cbn [fst snd] in Hs, Hr. subst s2. exists k. split; [lia|].
    cbn. split; [reflexivity|]. right. auto.
Qed.

End Zone.

(** What one run of POST /api/import/undo does. *)
Lemma undo_cases (s : State) :
  let '(response, s') := undo visitorDefault customersDefault s in
  match lastImportBackup s with
  | None => response = no_import_to_undo /\ s' = s
  | Some backup =>
      let kept := without (id_in (importedIds backup)) (table s) in
      exists k : nat,
        (k <= List.length (records backup))%nat
        /\ table s'
           = appended visitorDefault customersDefault kept
               (firstn k (map restore_data (records backup)))
        /\ ((k = List.length (records backup)
             /\ response
                = UndoSuccess
                    (mkUndoResult (month backup)
                       (List.length (records backup))
                       (List.length (importedIds backup)))
             /\ lastImportBackup s' = None)
            \/ ((k < List.length (records backup))%nat
                /\ response = Status500 "Failed to undo import"
                /\ lastImportBackup s' = Some backup))
  end.
Proof.
  unfold undo, try_catch, undo_body, no_import_to_undo.
  set (f := fun record : DailyRecord => _).
  unfold bind, get, on_table, zoom, deleteMany, ret, set_lastImportBackup.
  destruct (lastImportBackup s) as [backup|] eqn:Eb; [|cbn; auto].
  cbn [fst snd table lastImportBackup rows nextId].
  match goal with
  | |- context [for_of _ (records backup) [] ?st] => set (s1 := st)
  end.
  destruct (for_of_create f restore_data (fun r => r) (records backup)
              undo_creates_one [] s1) as (k & Hk & Hs & Hr).
  destruct (for_of f (records backup) [] s1) as [[ys|] s2].
  - cbn [fst snd] in Hs, Hr. destruct Hr as [-> _]. subst s2.
    exists (List.length (records backup)). split; [lia|].
    cbn. split; [reflexivity|]. left. auto.
  - cbn [fst snd] in Hs, Hr. subst s2. exists k. split; [lia|].
    cbn. split; [reflexivity|]. right. rewrite Eb. auto.
Qed.

(** A successful undo removes the rows whose ids the backup lists and
    puts back each record of the backup without its [visitor] and
    [customers]. *)
Lemma undo_restores_all_but_funnel_counts (s : State) (result : UndoResult)
    (s' : State) :
  undo visitorDefault customersDefault s = (UndoSuccess result, s') ->
  exists backup restored,
    lastImportBackup s = Some backup
    /\ rows (table s')
       = filter (fun r => negb (id_in (importedIds backup) r))
           (rows (table s)) ++ restored
    /\ Forall2 (restored_from visitorDefault customersDefault)
         (records backup) restored.
Proof.
  intros H. pose proof (undo_cases s) as Hu. rewrite H in Hu.
  destruct (lastImportBackup s) as [backup|];
    [|destruct Hu; discriminate].
  destruct Hu as (k & _ & Ht & [(-> & _ & _)|(_ & Hr & _)]); [|discriminate].
  rewrite firstn_all2 in Ht by (rewrite length_map; lia).
  exists backup. eexists. split; [reflexivity|].
  rewrite Ht. cbn [appended rows without]. split; [reflexivity|].
  clear H Ht.
  generalize (nextId (without (id_in (importedIds backup)) (table s))).
  induction (records backup) as [|x xs IH]; intros i; cbn; constructor.
  - unfold restored_from. cbn. repeat split.
  - apply IH.
Qed.

End Schema.

(** C2, as the handler is written. POST /api/import/confirm replaces a
    month's data step by step, without a transaction. When it answers
    success, the records of the month have been deleted, every row of the
    file that passes its validation has been inserted, and the deleted
    records are the undo backup. When an insert is rejected it answers
    HTTP 500 and nothing is rolled back: the records of the month stay
    deleted, the rows inserted before the rejected one stay stored, and
    the undo backup is left as it was. When the request lacks the month or
    the file, or when the bounds of the month are not valid dates, the
    state is left as it was. *)
Theorem C2_confirm_without_rollback (tz : Z)
    (visitorDefault customersDefault : number) (req : Request) (now : Z)
    (s : State) :
  let '(response, s') :=
    confirm tz visitorDefault customersDefault req now s in
  match req_month req, req_file req with
  | Some month, Some rawData =>
      let validRows := confirm_rows tz month (dataRows rawData) in
      match month_bounds tz month with
      | None => response = Status500 "Failed to import records" /\ s' = s
      | Some (startDate, endDate) =>
          let in_month := date_gte_lt startDate endDate in
          let old := filter in_month (rows (table s)) in
          let kept := without in_month (table s) in
          exists k : nat,
            (k <= List.length validRows)%nat
            /\ table s'
               = appended visitorDefault customersDefault kept
                   (firstn k (map row_data validRows))
            /\ ((k = List.length validRows
                 /\ response
                    = ImportSuccess
                        (mkImportResult (month_string month)
                           (List.length old) (List.length validRows)
                           (Z.of_nat (List.length (dataRows rawData))
                            - Z.of_nat (List.length validRows)))
                 /\ lastImportBackup s'
                    = Some (mkBackup (month_string month) old
                              (map id
                                 (number_rows visitorDefault customersDefault
                                    (nextId (table s))
                                    (map row_data validRows)))
                              now))
                \/ ((k < List.length validRows)%nat
                    /\ response = Status500 "Failed to import records"
                    /\ lastImportBackup s' = lastImportBackup s))
      end
  | _, _ => response = Status400 "Month and file are required" /\ s' = s
  end.
Proof.
  destruct req as [[month|] [rawData|]]; cbn [req_month req_file];
    try (cbn; auto; fail).
  apply confirm_cases.
Qed.

(** C2 fails as stated: importing a file whose two rows carry the same
    date answers HTTP 500 after the record of the month was deleted and
    the first row inserted. *)
Lemma C2_confirm_not_transactional :
  let '(response, s') :=
    confirm gmt8 0 0 (request file_duplicate) now0 state0 in
  response = Status500 "Failed to import records"
  /\ rows (table state0) = [stored]
  /\ rows (table s')
     = [mkDailyRecord 2 1767657600000 12000 9000 6000 1200 700 600 60000
          1200 60]
  /\ rows (table s') <> rows (table state0)
  /\ lastImportBackup s' = None.
Proof.
  vm_compute. repeat split; try reflexivity.
  intros H. discriminate H.
Qed.

(** C8. One backup is kept and undo applies to the most recent import:
    without a backup, undo answers HTTP 400 and leaves the state as it is;
    a successful import sets the backup to the records it deleted,
    whatever the backup was; a successful undo clears the backup, so that
    undoing again answers the same HTTP 400. *)
Theorem C8_one_backup_most_recent_import (tz : Z)
    (visitorDefault customersDefault : number) :
  (forall s,
      lastImportBackup s = None ->
      undo visitorDefault customersDefault s = (no_import_to_undo, s))
  /\ (forall req now s result s',
         confirm tz visitorDefault customersDefault req now s
         = (ImportSuccess result, s') ->
         exists month startDate endDate ids,
           req_month req = Some month
           /\ month_bounds tz month = Some (startDate, endDate)
           /\ lastImportBackup s'
              = Some (mkBackup (month_string month)
                        (filter (date_gte_lt startDate endDate)
                           (rows (table s)))
                        ids now))
  /\ (forall s result s',
         undo visitorDefault customersDefault s = (UndoSuccess result, s') ->
         lastImportBackup s' = None
         /\ undo visitorDefault customersDefault s' = (no_import_to_undo, s')).
Proof.
  assert (Hnone : forall s, lastImportBackup s = None ->
            undo visitorDefault customersDefault s = (no_import_to_undo, s)).
  { intros s Hs. pose proof (undo_cases visitorDefault customersDefault s) as H.
    destruct (undo visitorDefault customersDefault s) as [r s'].
    rewrite Hs in H. destruct H as [-> ->]. reflexivity. }
  split; [exact Hnone|]. split.
  - intros [[month|] [rawData|]] now s result s' H;
      try (cbn in H; discriminate).
    pose proof (confirm_cases visitorDefault customersDefault tz month rawData
                  now s) as Hc.
    cbv zeta in Hc. rewrite H in Hc.
    destruct (month_bounds tz month) as [[startDate endDate]|] eqn:Em;
      [|destruct Hc; discriminate].
    destruct Hc as (k & _ & _ & [(_ & _ & Hb)|(_ & Hr & _)]);
      [|discriminate].
    exists month, startDate, endDate. eexists.
    split; [reflexivity|]. split; [exact Em|]. exact Hb.
  - intros s result s' H.
    pose proof (undo_cases visitorDefault customersDefault s) as Hu.
    rewrite H in Hu.
    destruct (lastImportBackup s) as [backup|]; [|destruct Hu; discriminate].
    destruct Hu as (k & _ & _ & [(_ & _ & Hb)|(_ & Hr & _)]); [|discriminate].
    split; [exact Hb|]. apply Hnone. exact Hb.
Qed.

Lemma C8_one_backup_witness :
  undo 0 0 state0 = (no_import_to_undo, state0)
  /\ (exists month startDate endDate ids,
         req_month (request file_one) = Some month
         /\ month_bounds gmt8 month = Some (startDate, endDate)
         /\ lastImportBackup imported_state
            = Some (mkBackup (month_string month)
                      (filter (date_gte_lt startDate endDate)
                         (rows (table state0)))
                      ids now0))
  /\ (lastImportBackup undone_state = None
      /\ undo 0 0 undone_state = (no_import_to_undo, undone_state)).
Proof.
  destruct (C8_one_backup_most_recent_import gmt8 0 0) as (Ha & Hb & Hc).
  split; [apply Ha; reflexivity|]. split.
  - apply (Hb (request file_one) now0 state0
             (mkImportResult "2026-01" 1 1 0)).
    vm_compute. reflexivity.
  - apply (Hc imported_state (mkUndoResult "2026-01" 1 1)).
    vm_compute. reflexivity.
Defined.

(** C1. Import followed by undo is to restore the records of the month,
    [visitor] and [customers] included. The undo handler leaves both
    columns out of the [create] that restores a record: after importing
    [file_one] over the record of 5 January and undoing, the record is back
    with a new id and with the table's defaults in place of its 1000
    visitors and 50 customers. *)
Theorem C1_undo_loses_visitor_and_customers
    (visitorDefault customersDefault : number) :
  let '(imported, s1) :=
    confirm gmt8 visitorDefault customersDefault (request file_one) now0
      state0 in
  let '(undone, s2) := undo visitorDefault customersDefault s1 in
  imported = ImportSuccess (mkImportResult "2026-01" 1 1 0)
  /\ undone = UndoSuccess (mkUndoResult "2026-01" 1 1)
  /\ rows (table state0)
     = [mkDailyRecord 1 jan5 10000 8000 5000 1000 600 500 50000 1000 50]
  /\ rows (table s2)
     = [mkDailyRecord 3 jan5 10000 8000 5000 1000 600 500 50000
          visitorDefault customersDefault].
Proof. vm_compute. auto. Qed.

(** C5. The preview and the import are to accept the same rows. The
    import does not check customers against visitor: for a file whose only
    row has 60 customers and 50 visitors the preview counts no valid row
    and one invalid row, and the import inserts the row. *)
Theorem C5_confirm_imports_row_preview_rejects :
  let '(previewed, _) := preview gmt8 (request file_customers) state0 in
  let '(imported, s') :=
    confirm gmt8 0 0 (request file_customers) now0 state0 in
  previewed
  = PreviewSuccess
      (mkPreview "2026-01" 1 0 1 1
         [(2, "Customers cannot be > Visitor"%string)])
  /\ imported = ImportSuccess (mkImportResult "2026-01" 1 1 0)
  /\ rows (table s')
     = [mkDailyRecord 2 1767744000000 12000 9000 6000 1200 700 600 60000
          50 60].
Proof. vm_compute. auto. Qed.

End ImportFacts.

(* ================================================================= *)
(** * Further properties *)

(** ** Months of the calendar *)

Module CalendarFacts.
Import JsDate Spec CalendarSpec DateFacts.

Lemma all_month_ends_spec (n : nat) :
  forall z k,
    all_month_ends n z = true -> z <= k < z + Z.of_nat n ->
    month_end_ok k = true.
Proof.
  induction n as [|n IH]; intros z k H Hk; [lia|].
  cbn [all_month_ends] in H. apply andb_true_iff in H as [H0 H1].
  destruct (Z.eq_dec k z) as [->|Hne]; [exact H0|].
  apply (IH (z + 1)); [exact H1|lia].
Qed.

(** Every day of the 400-year cycle, by evaluation. *)
Lemma all_month_ends_cycle : all_month_ends (Z.to_nat 146097) 0 = true.
Proof. vm_compute. reflexivity. Qed.

Lemma next_month_shift (y m e : Z) :
  next_month (y + e * 400) m
  = let '(y', m') := next_month y m in (y' + e * 400, m').
Proof. unfold next_month. destruct (m =? 12); f_equal; lia. Qed.

(** A day lies in the month [civil_from_days] gives it: from the first of
    that month up to the day before the first of the next, and its day of
    month counts from that first. *)
Lemma civil_from_days_month (z y m d : Z) :
  civil_from_days z = (y, m, d) ->
  1 <= m <= 12
  /\ d = z - first_of_month y m + 1
  /\ first_of_month y m <= z
  /\ z < (let '(y', m') := next_month y m in first_of_month y' m').
Proof.
  intros E. destruct (civil_from_days_spec z y m d E) as (Hz & Hm & Hd).
  assert (Hlin : first_of_month y m = days_from_civil y m d - d + 1).
  { unfold first_of_month, days_from_civil. cbv zeta. lia. }
  split; [exact Hm|]. split; [lia|]. split; [lia|].
  revert E. unfold civil_from_days. cbv zeta.
  set (era := (z + 719468) / 146097).
  set (doe := z + 719468 - era * 146097).
  assert (Hdoe : 0 <= doe < 146097).
  { unfold doe, era. pose proof (Z.mod_pos_bound (z + 719468) 146097).
    pose proof (Z.div_mod (z + 719468) 146097). lia. }
  pose proof (all_month_ends_spec (Z.to_nat 146097) 0 doe
                all_month_ends_cycle ltac:(lia)) as Hok.
  rewrite civil_of_doe_era. unfold month_end_ok in Hok.
  destruct (civil_of_doe 0 doe) as [[y0 m0] d0].
  intros E. injection E as <- <- <-.
  rewrite next_month_shift.
  destruct (next_month y0 m0) as [y1 m1].
  unfold first_of_month in *. rewrite days_from_civil_shift.
  apply Z.ltb_lt in Hok. unfold doe in *. lia.
Qed.

(** Every month has at least 28 days. *)
Lemma days_in_month_ge_28 (y m : Z) : 1 <= m <= 12 -> 28 <= days_in_month y m.
Proof.
  intros Hm. unfold days_in_month, next_month, first_of_month.
  assert (Hc : m = 1 \/ m = 2 \/ m = 3 \/ m = 4 \/ m = 5 \/ m = 6 \/ m = 7
               \/ m = 8 \/ m = 9 \/ m = 10 \/ m = 11 \/ m = 12) by lia.
  unfold days_from_civil.
  repeat (destruct Hc as [->|Hc]; [cbn; Z.div_mod_to_equations; lia|]).
  subst m. cbn. Z.div_mod_to_equations. lia.
Qed.


Lemma month_index_inv (y m : Z) :
  1 <= m <= 12 ->
  month_index y m / 12 = y /\ month_index y m mod 12 + 1 = m.
Proof.
  intros Hm. unfold month_index.
  pose proof (Z.div_mod (12 * y + (m - 1)) 12).
  pose proof (Z.mod_pos_bound (12 * y + (m - 1)) 12). lia.
Qed.

Lemma first_of_index_month (y m : Z) :
  1 <= m <= 12 -> first_of_index (month_index y m) = first_of_month y m.
Proof.
  intros Hm. unfold first_of_index.
  destruct (month_index_inv y m Hm) as [-> ->]. reflexivity.
Qed.

Lemma next_month_index (y m : Z) :
  1 <= m <= 12 ->
  (let '(y', m') := next_month y m in first_of_month y' m')
  = first_of_index (month_index y m + 1).
Proof.
  intros Hm. unfold next_month.
  destruct (Z.eqb_spec m 12) as [->|Hne].
  - replace (month_index y 12 + 1) with (month_index (y + 1) 1)
      by (unfold month_index; lia).
    rewrite first_of_index_month by lia. reflexivity.
  - replace (month_index y m + 1) with (month_index y (m + 1))
      by (unfold month_index; lia).
    rewrite first_of_index_month by lia. reflexivity.
Qed.

Lemma first_of_index_step (k : Z) :
  first_of_index k + 28 <= first_of_index (k + 1).
Proof.
  pose proof (Z.mod_pos_bound k 12 ltac:(lia)) as Hb.
  pose proof (days_in_month_ge_28 (k / 12) (k mod 12 + 1) ltac:(lia)) as H.
  unfold days_in_month in H.
  pose proof (next_month_index (k / 12) (k mod 12 + 1) ltac:(lia)) as Hn.
  replace (month_index (k / 12) (k mod 12 + 1)) with k in Hn
    by (unfold month_index; pose proof (Z.div_mod k 12); lia).
  destruct (next_month (k / 12) (k mod 12 + 1)) as [y' m'].
  unfold first_of_index at 1. lia.
Qed.

(** Later months start later. *)
Lemma first_of_index_lt (k k' : Z) :
  k < k' -> first_of_index k < first_of_index k'.
Proof.
  intros H. replace k' with (k + 1 + (k' - k - 1)) by lia.
  assert (Hn : 0 <= k' - k - 1) by lia.
  revert Hn. generalize (k' - k - 1). clear.
  apply natlike_ind.
  - rewrite Z.add_0_r. pose proof (first_of_index_step k). lia.
  - intros x Hx IH. pose proof (first_of_index_step (k + 1 + x)).
    replace (k + 1 + Z.succ x) with (k + 1 + x + 1) by lia. lia.
Qed.

(** A day lies in one month only. *)
Lemma month_of_day_unique (z k k' : Z) :
  first_of_index k <= z < first_of_index (k + 1) ->
  first_of_index k' <= z < first_of_index (k' + 1) ->
  k = k'.
Proof.
  intros H H'.
  destruct (Z.lt_trichotomy k k') as [Hlt|[Heq|Hgt]]; [|exact Heq|].
  - destruct (Z.eq_dec (k + 1) k') as [E|E].
    + subst. lia.
    + pose proof (first_of_index_lt (k + 1) k' ltac:(lia)). lia.
  - destruct (Z.eq_dec (k' + 1) k) as [E|E].
    + subst. lia.
    + pose proof (first_of_index_lt (k' + 1) k ltac:(lia)). lia.
Qed.

(** [civil_from_days] inverts [days_from_civil] on the dates of the
    calendar. *)
Lemma civil_from_days_of_civil (y m d : Z) :
  1 <= m <= 12 -> 1 <= d <= days_in_month y m ->
  civil_from_days (days_from_civil y m d) = (y, m, d).
Proof.
  intros Hm Hd.
  assert (Hz : days_from_civil y m d = first_of_month y m + d - 1).
  { unfold first_of_month, days_from_civil. cbv zeta. lia. }
  destruct (civil_from_days (days_from_civil y m d)) as [[y' m'] d'] eqn:E.
  destruct (civil_from_days_month _ _ _ _ E) as (Hm' & Hd' & Hlo & Hhi).
  rewrite (next_month_index y' m' Hm') in Hhi.
  rewrite <- (first_of_index_month y' m' Hm') in Hlo.
  assert (Hk : month_index y m = month_index y' m').
  { apply (month_of_day_unique (days_from_civil y m d)); [|lia].
    rewrite <- next_month_index by exact Hm.
    rewrite first_of_index_month by exact Hm.
    unfold days_in_month in Hd.
    destruct (next_month y m) as [y1 m1]. lia. }
  assert (y' = y /\ m' = m) as [-> ->].
  { destruct (month_index_inv y m Hm) as [Hy Hmm].
    destruct (month_index_inv y' m' Hm') as [Hy' Hmm'].
    rewrite Hk in Hy, Hmm. lia. }
  f_equal. lia.
Qed.

(** [MakeDay] on a month of the calendar. *)
Lemma MakeDay_month (y m d : Z) :
  1 <= m <= 12 -> MakeDay y (m - 1) d = first_of_month y m + d - 1.
Proof.
  intros Hm. unfold MakeDay, first_of_month. cbv zeta.
  rewrite Z.div_small, Z.mod_small by lia.
  replace (y + 0) with y by lia. replace (m - 1 + 1) with m by lia.
  reflexivity.
Qed.

(** [MakeDay y m 1], with the 0-based month [m] one past month [m] of the
    calendar, is the first day of the next month. *)
Lemma MakeDay_next_month (y m : Z) :
  1 <= m <= 12 ->
  MakeDay y m 1 = (let '(y', m') := next_month y m in first_of_month y' m').
Proof.
  intros Hm. unfold MakeDay, next_month, first_of_month. cbv zeta.
  destruct (Z.eqb_spec m 12) as [->|Hne].
  - cbn. f_equal; lia.
  - rewrite Z.div_small, Z.mod_small by lia.
    replace (y + 0) with y by lia. lia.
Qed.

End CalendarFacts.

(** ** Tables the handlers keep *)

Module TableFacts.
Import JsNumber JsDate Async Async.Notations BulkImport Prisma Spec TableSpec
  ImportFacts.

(** A key that is unique in the table is unique among the rows a query
    selects. *)
Lemma NoDup_map_filter {K} (key : DailyRecord -> K)
    (where_ : DailyRecord -> bool) (rs : list DailyRecord) :
  NoDup (map key rs) -> NoDup (map key (filter where_ rs)).
Proof.
  intros Hnd. induction rs as [|r rs IH]; [constructor|].
  cbn [map] in Hnd. apply NoDup_cons_iff in Hnd as [Hr Hnd].
  cbn [filter]. destruct (where_ r); [|exact (IH Hnd)].
  cbn [map]. constructor; [|exact (IH Hnd)].
  intros Hin. apply Hr. apply in_map_iff in Hin as (y & Hy & Hyin).
  apply filter_In in Hyin as [Hyin _]. apply in_map_iff. eauto.
Qed.

Lemma filter_all_false {A} (p : A -> bool) (l : list A) :
  (forall x, In x l -> p x = false) -> filter p l = [].
Proof.
  induction l as [|x l IH]; intros H; [reflexivity|].
  cbn. rewrite (H x (or_introl eq_refl)). apply IH.
  intros y Hy. apply H. right. exact Hy.
Qed.

Lemma wf_without (where_ : DailyRecord -> bool) (t : Table) :
  wf_table t -> wf_table (without where_ t).
Proof.
  intros (Hb & Hi & Hd). unfold wf_table, ids_below, ids_unique, dates_unique,
    without in *. cbn [rows nextId].
  split; [|split].
  - apply Forall_forall. intros r Hr. apply filter_In in Hr as [Hr _].
    exact (proj1 (Forall_forall _ _) Hb r Hr).
  - apply NoDup_map_filter. exact Hi.
  - apply NoDup_map_filter. exact Hd.
Qed.

Section Schema.
Variables visitorDefault customersDefault : number.

Lemma date_new_row (i : Z) (d : CreateData) :
  date (new_row visitorDefault customersDefault i d) = c_date d.
Proof. reflexivity. Qed.

(** [create] keeps a table well formed, whether it inserts or throws. *)
Lemma wf_create (d : CreateData) (t : Table) :
  wf_table t ->
  wf_table (snd (create visitorDefault customersDefault d t)).
Proof.
  intros (Hb & Hi & Hd). unfold create.
  destruct (existsb _ (rows t)) eqn:E; [repeat split; assumption|].
  cbn [snd]. unfold wf_table, ids_below, ids_unique, dates_unique.
  cbn [rows nextId].
  assert (Hfresh : forall r, In r (rows t) -> date r <> c_date d).
  { intros r Hr Heq.
    assert (existsb (fun r => date r =? c_date d) (rows t) = true)
      by (apply existsb_exists; exists r; split; [exact Hr|lia]).
    congruence. }
  split; [|split].
  - apply Forall_app. split.
    + apply Forall_forall. intros r Hr.
      pose proof (proj1 (Forall_forall _ _) Hb r Hr). cbn in *. lia.
    + constructor; [cbn; lia|constructor].
  - rewrite map_app. cbn. apply UpsertFacts.NoDup_snoc; [exact Hi|].
    intros Hin. apply in_map_iff in Hin as (r & Hr & Hrin).
    pose proof (proj1 (Forall_forall _ _) Hb r Hrin). cbn in *. lia.
  - rewrite map_app. cbn. apply UpsertFacts.NoDup_snoc; [exact Hd|].
    intros Hin. apply in_map_iff in Hin as (r & Hr & Hrin).
    exact (Hfresh r Hrin Hr).
Qed.

(** The counter never goes back. *)
Lemma nextId_create (d : CreateData) (t : Table) :
  nextId t <= nextId (snd (create visitorDefault customersDefault d t)).
Proof.
  unfold create. destruct (existsb _ (rows t)); cbn; lia.
Qed.

(** A loop over [create] keeps the table well formed and the counter from
    going back. *)
Lemma for_of_create_wf {A B} (f : A -> io State B) (data : A -> CreateData)
    (result : DailyRecord -> B) (xs : list A) :
  creates_one visitorDefault customersDefault f data result ->
  forall (acc : list B) (s : State),
    wf_table (table s) ->
    wf_table (table (snd (for_of f xs acc s)))
    /\ nextId (table s) <= nextId (table (snd (for_of f xs acc s)))
    /\ lastImportBackup (snd (for_of f xs acc s)) = lastImportBackup s.
Proof.
  intros Hf. induction xs as [|x xs IH]; intros acc s Hwf.
  - cbn. split; [exact Hwf|]. split; [lia|reflexivity].
  - cbn [for_of]. unfold bind. rewrite Hf.
    pose proof (wf_create (data x) (table s) Hwf) as Hc.
    pose proof (nextId_create (data x) (table s)) as Hn.
    destruct (create visitorDefault customersDefault (data x) (table s))
      as [[r|] t']; cbn [snd] in Hc, Hn.
    + destruct (IH (acc ++ [result r]) (mkState t' (lastImportBackup s)) Hc)
        as (H1 & H2 & H3).
      cbn [table lastImportBackup] in *. split; [exact H1|].
      split; [lia|exact H3].
    + cbn. split; [exact Hc|]. split; [lia|reflexivity].
Qed.

(** A loop over [create] goes through when the dates are new to the
    table and differ from one another. *)
Lemma for_of_create_ok {A B} (f : A -> io State B) (data : A -> CreateData)
    (result : DailyRecord -> B) (xs : list A) :
  creates_one visitorDefault customersDefault f data result ->
  forall (acc : list B) (s : State),
    NoDup (map (fun x => c_date (data x)) xs) ->
    (forall x r, In x xs -> In r (rows (table s)) ->
                 date r <> c_date (data x)) ->
    for_of f xs acc s
    = (Ok (acc ++ map result
                    (number_rows visitorDefault customersDefault
                       (nextId (table s)) (map data xs))),
       mkState (appended visitorDefault customersDefault (table s)
                  (map data xs))
         (lastImportBackup s)).
Proof.
  intros Hf. induction xs as [|x xs IH]; intros acc s Hnd Hfresh.
  - cbn. rewrite appended_nil, app_nil_r. destruct s; reflexivity.
  - cbn [for_of]. unfold bind. rewrite Hf.
    cbn [map] in Hnd. apply NoDup_cons_iff in Hnd as [Hx Hnd].
    unfold create at 1.
    destruct (existsb _ (rows (table s))) eqn:E.
    { exfalso. apply existsb_exists in E as (r & Hr & Hd).
      apply Z.eqb_eq in Hd. exact (Hfresh x r (or_introl eq_refl) Hr Hd). }
    rewrite IH.
    + cbn [table lastImportBackup rows nextId map number_rows].
      rewrite <- app_assoc. cbn [app].
      rewrite <- (appended_cons visitorDefault customersDefault (table s)
                    (data x) (map data xs)).
      unfold appended at 3. cbn [rows nextId number_rows List.length].
      reflexivity.
    + exact Hnd.
    + cbn [table rows]. intros y r Hy Hr.
      apply in_app_or in Hr as [Hr|[<-|[]]].
      * apply Hfresh; [right; exact Hy|exact Hr].
      * cbn. intros Heq. apply Hx. apply in_map_iff. exists y. split; auto.
Qed.


(** POST /api/import/confirm as one loop over [create], once the month's
    bounds are dates. *)
Lemma confirm_unfold (tz : Z) (month : Month) (rawData : list SheetRow)
    (now : Z) (s : State) (startDate endDate : Z) :
  month_bounds tz month = Some (startDate, endDate) ->
  confirm tz visitorDefault customersDefault
    (mkRequest (Some month) (Some rawData)) now s
  = match
      for_of
        (fun row : ParsedRow =>
           bind (on_table (create visitorDefault customersDefault
                             (row_data row)))
             (fun record => ret (id record)))
        (confirm_rows tz month (dataRows rawData)) []
        (mkState (without (date_gte_lt startDate endDate) (table s))
           (lastImportBackup s))
    with
    | (Ok importedIds, s2) =>
        (ImportSuccess
           (mkImportResult (month_string month)
              (List.length
                 (filter (date_gte_lt startDate endDate) (rows (table s))))
              (List.length importedIds)
              (Z.of_nat (List.length (dataRows rawData))
               - Z.of_nat
                   (List.length (confirm_rows tz month (dataRows rawData))))),
         mkState (table s2)
           (Some (mkBackup (month_string month)
                    (filter (date_gte_lt startDate endDate) (rows (table s)))
                    importedIds now)))
    | (Throw, s2) => (Status500 "Failed to import records", s2)
    end.
Proof.
  unfold month_bounds, confirm, try_catch, confirm_body, month_range.
  cbn [req_month req_file].
  destruct (new_Date tz (targetYear month) (targetMonth month - 1) 1)
    as [a|]; [|discriminate].
  destruct (new_Date tz (targetYear month) (targetMonth month) 1)
    as [b|]; [|discriminate].
  intros E. injection E as -> ->.
  set (f := fun row : ParsedRow => _).
  unfold bind, on_table, zoom, findMany, deleteMany, ret,
    set_lastImportBackup, without.
  cbn [fst snd table lastImportBackup rows nextId].
  destruct (for_of f _ [] _) as [[ids|] s2]; reflexivity.
Qed.

(** POST /api/import/undo as one loop over [create], when there is a
    backup. *)
Lemma undo_unfold (s : State) (backup : Backup) :
  lastImportBackup s = Some backup ->
  undo visitorDefault customersDefault s
  = match
      for_of
        (fun record : DailyRecord =>
           on_table (create visitorDefault customersDefault
                       (restore_data record)))
        (records backup) []
        (mkState (without (id_in (importedIds backup)) (table s))
           (Some backup))
    with
    | (Ok _, s2) =>
        (UndoSuccess
           (mkUndoResult (month backup) (List.length (records backup))
              (List.length (importedIds backup))),
         mkState (table s2) None)
    | (Throw, s2) => (Status500 "Failed to undo import", s2)
    end.
Proof.
  intros Eb. unfold undo, try_catch, undo_body.
  set (f := fun record : DailyRecord => _).
  unfold bind, get, on_table, zoom, deleteMany, ret, set_lastImportBackup,
    without.
  rewrite Eb. cbn [fst snd table lastImportBackup rows nextId].
  rewrite ?Eb.
  destruct (for_of f _ [] _) as [[ys|] s2]; reflexivity.
Qed.


Lemma ids_number_rows (ds : list CreateData) :
  forall i,
    Forall (fun r => i <= id r < i + Z.of_nat (List.length ds))
      (number_rows visitorDefault customersDefault i ds).
Proof.
  induction ds as [|d ds IH]; intros i; cbn [number_rows]; constructor.
  - cbn. lia.
  - eapply Forall_impl; [|apply IH]. cbn. intros r Hr. lia.
Qed.

Lemma restored_from_number_rows (old : list DailyRecord) :
  forall i,
    Forall2 (restored_from visitorDefault customersDefault) old
      (number_rows visitorDefault customersDefault i (map restore_data old)).
Proof.
  induction old as [|x xs IH]; intros i; cbn; constructor.
  - unfold restored_from. cbn. repeat split.
  - apply IH.
Qed.

(** Deleting the imported ids from the table an import left gives back
    the table the import started to fill. *)
Lemma without_imported (t : Table) (ds : list CreateData) :
  ids_below t ->
  rows (without
          (id_in (map id (number_rows visitorDefault customersDefault
                            (nextId t) ds)))
          (appended visitorDefault customersDefault t ds))
  = rows t.
Proof.
  intros Hb. unfold without, appended. cbn [rows nextId].
  rewrite filter_app.
  set (new := number_rows visitorDefault customersDefault (nextId t) ds).
  assert (H1 : filter (fun r => negb (id_in (map id new) r)) (rows t)
               = rows t).
  { apply forallb_filter_id. apply forallb_forall. intros r Hr.
    apply negb_true_iff. unfold id_in.
    destruct (existsb (Z.eqb (id r)) (map id new)) eqn:E; [|reflexivity].
    exfalso. apply existsb_exists in E as (i & Hi & He).
    apply Z.eqb_eq in He. subst i.
    apply in_map_iff in Hi as (x & Hx & Hxin).
    pose proof (proj1 (Forall_forall _ _) (ids_number_rows ds (nextId t))
                  x Hxin) as Hxb.
    pose proof (proj1 (Forall_forall _ _) Hb r Hr). cbn in *. lia. }
  assert (H2 : filter (fun r => negb (id_in (map id new) r)) new = []).
  { assert (Hall : forall r, In r new -> id_in (map id new) r = true).
    { intros r Hr. unfold id_in. apply existsb_exists. exists (id r).
      split; [apply in_map; exact Hr|apply Z.eqb_refl]. }
    apply filter_all_false. intros r Hr. rewrite (Hall r Hr).
    reflexivity. }
  rewrite H1, H2. apply app_nil_r.
Qed.

End Schema.

Lemma state0_wf : wf_state Scenario.state0.
Proof.
  split; [|exact I]. split; [|split].
  - constructor; [cbn; lia|constructor].
  - constructor; [intros []|constructor].
  - constructor; [intros []|constructor].
Defined.

End TableFacts.

(** ** Bulk import: what the handlers keep and how they compose *)

Module ImportMoreFacts.
Import JsNumber JsDate Async Async.Notations BulkImport Prisma Spec TableSpec
  CalendarSpec Scenario DateFacts CalendarFacts ImportFacts TableFacts.

Section Schema.
Variables visitorDefault customersDefault : number.
Variable tz : Z.

(** The import handler leaves a well-formed state well formed, whatever it
    answers. *)
Lemma confirm_wf (req : Request) (now : Z) (s : State) :
  wf_state s ->
  wf_state (snd (confirm tz visitorDefault customersDefault req now s)).
Proof.
  intros [Hwf Hbk].
  destruct req as [[month|] [rawData|]]; try (cbn; split; assumption).
  destruct (month_bounds tz month) as [[startDate endDate]|] eqn:Em.
  - rewrite (confirm_unfold _ _ tz month rawData now s _ _ Em).
    set (f := fun row : ParsedRow => _).
    set (s1 := mkState _ (lastImportBackup s)).
    pose proof (wf_without (date_gte_lt startDate endDate) (table s) Hwf)
      as Hk.
    destruct (for_of_create_wf visitorDefault customersDefault f row_data id
                (confirm_rows tz month (dataRows rawData))
                (confirm_creates_one _ _) [] s1 Hk) as (H1 & H2 & H3).
    destruct (for_of_create visitorDefault customersDefault f row_data id
                (confirm_rows tz month (dataRows rawData))
                (confirm_creates_one _ _) [] s1) as (k & Hkl & Hs & Hr).
    destruct (for_of f _ [] s1) as [[ids|] s2]; cbn [fst snd] in *.
    + destruct Hr as [-> ->]. split; [exact H1|].
      unfold backup_ids_below. cbn [lastImportBackup table importedIds app].
      rewrite Hs. cbn [table appended nextId].
      rewrite firstn_all2 by (rewrite length_map; lia).
      apply Forall_forall. intros i Hi.
      apply in_map_iff in Hi as (r & <- & Hrin).
      pose proof (proj1 (Forall_forall _ _)
                    (ids_number_rows visitorDefault customersDefault
                       (map row_data
                          (confirm_rows tz month (dataRows rawData)))
                       (nextId (table s1))) r Hrin).
      cbn in *. lia.
    + split; [exact H1|]. unfold backup_ids_below in *. rewrite H3.
      cbn [s1 lastImportBackup].
      destruct (lastImportBackup s) as [b|]; [|exact I].
      eapply Forall_impl; [|exact Hbk]. cbn. intros i Hi.
      cbn [s1 table without nextId] in H2. lia.
  - pose proof (confirm_cases visitorDefault customersDefault tz month
                  rawData now s) as Hc.
    cbv zeta in Hc. rewrite Em in Hc.
    destruct (confirm _ _ _ _ _ s) as [r s']. destruct Hc as [_ ->].
    split; assumption.
Qed.

(** So does the undo handler. *)
Lemma undo_wf (s : State) :
  wf_state s -> wf_state (snd (undo visitorDefault customersDefault s)).
Proof.
  intros [Hwf Hbk].
  destruct (lastImportBackup s) as [backup|] eqn:Eb.
  - rewrite (undo_unfold _ _ s backup Eb).
    set (f := fun record : DailyRecord => _).
    set (s1 := mkState _ (Some backup)).
    pose proof (wf_without (id_in (importedIds backup)) (table s) Hwf) as Hk.
    destruct (for_of_create_wf visitorDefault customersDefault f restore_data
                (fun r => r) (records backup) (undo_creates_one _ _) [] s1 Hk)
      as (H1 & H2 & H3).
    destruct (for_of f _ [] s1) as [[ys|] s2]; cbn [fst snd] in *.
    + split; [exact H1|exact I].
    + split; [exact H1|]. unfold backup_ids_below in *. rewrite H3.
      cbn [s1 lastImportBackup]. rewrite Eb in Hbk.
      eapply Forall_impl; [|exact Hbk]. cbn. intros i Hi.
      cbn [s1 table without nextId] in H2. lia.
  - pose proof (undo_cases visitorDefault customersDefault s) as Hu.
    rewrite Eb in Hu.
    destruct (undo _ _ s) as [r s']. destruct Hu as [_ ->].
    cbn [snd]. split; [exact Hwf|]. unfold backup_ids_below.
    rewrite Eb. exact I.
Qed.

(** X1. The preview is a dry run: whatever the request and whatever it
    answers, it leaves the table and the backup as they were. *)
Theorem preview_never_writes (req : Request) (s : State) :
  snd (preview tz req s) = s.
Proof.
  unfold preview, try_catch, preview_body.
  destruct (req_month req) as [month|]; [|reflexivity].
  destruct (req_file req) as [rawData|]; [|reflexivity].
  destruct (preview_rows tz month (dataRows rawData) 0 [] [])
    as [valid invalid].
  unfold month_range.
  destruct (new_Date tz (targetYear month) (targetMonth month - 1) 1);
    [|reflexivity].
  destruct (new_Date tz (targetYear month) (targetMonth month) 1);
    [|reflexivity].
  unfold bind, ret, on_table, zoom, count. cbn. destruct s; reflexivity.
Qed.


(** What a successful import leaves behind. *)
Lemma confirm_success (month : Month) (rawData : list SheetRow) (now : Z)
    (s : State) (result : ImportResult) (s1 : State) :
  confirm tz visitorDefault customersDefault
    (mkRequest (Some month) (Some rawData)) now s
  = (ImportSuccess result, s1) ->
  exists startDate endDate,
    month_bounds tz month = Some (startDate, endDate)
    /\ recordsImported result
       = List.length (confirm_rows tz month (dataRows rawData))
    /\ s1 = mkState
              (appended visitorDefault customersDefault
                 (without (date_gte_lt startDate endDate) (table s))
                 (map row_data (confirm_rows tz month (dataRows rawData))))
              (Some (mkBackup (month_string month)
                       (filter (date_gte_lt startDate endDate)
                          (rows (table s)))
                       (map id
                          (number_rows visitorDefault customersDefault
                             (nextId (table s))
                             (map row_data
                                (confirm_rows tz month (dataRows rawData)))))
                       now)).
Proof.
  intros H.
  pose proof (confirm_cases visitorDefault customersDefault tz month rawData
                now s) as Hc.
  cbv zeta in Hc. rewrite H in Hc.
  destruct (month_bounds tz month) as [[startDate endDate]|];
    [|destruct Hc; discriminate].
  destruct Hc as (k & _ & Ht & [(-> & Hr & Hb)|(_ & Hr & _)]);
    [|discriminate].
  exists startDate, endDate. split; [reflexivity|].
  injection Hr as ->. split; [reflexivity|].
  rewrite firstn_all2 in Ht by (rewrite length_map; lia).
  destruct s1 as [t1 b1]. cbn in Ht, Hb. subst. reflexivity.
Qed.

(** X2. Import, then undo: on a well-formed table the undo of a
    successful import always succeeds; it answers with the counts of the
    import, leaves the records outside the month as they were, followed by
    the records the import deleted, put back with their dates and sales
    and ads columns, and clears the backup. *)
Theorem import_then_undo (month : Month) (rawData : list SheetRow) (now : Z)
    (s : State) (result : ImportResult) (s1 : State) :
  wf_table (table s) ->
  confirm tz visitorDefault customersDefault
    (mkRequest (Some month) (Some rawData)) now s
  = (ImportSuccess result, s1) ->
  exists startDate endDate restored s2,
    month_bounds tz month = Some (startDate, endDate)
    /\ undo visitorDefault customersDefault s1
       = (UndoSuccess
            (mkUndoResult (month_string month) (recordsDeleted result)
               (recordsImported result)),
          s2)
    /\ rows (table s2)
       = filter (fun r => negb (date_gte_lt startDate endDate r))
           (rows (table s)) ++ restored
    /\ Forall2 (restored_from visitorDefault customersDefault)
         (filter (date_gte_lt startDate endDate) (rows (table s))) restored
    /\ lastImportBackup s2 = None.
Proof.
  intros (Hb & Hi & Hd) H.
  pose proof H as H0.
  apply confirm_success in H as (startDate & endDate & Em & Hri & ->).
  pose proof (confirm_cases visitorDefault customersDefault tz month rawData
                now s) as Hc.
  cbv zeta in Hc. rewrite H0, Em in Hc.
  destruct Hc as (k & _ & _ & [(_ & Hr & _)|(_ & Hr & _)]); [|discriminate].
  injection Hr as ->. clear H0.
  set (in_month := date_gte_lt startDate endDate) in *.
  set (valid := confirm_rows tz month (dataRows rawData)) in *.
  set (old := filter in_month (rows (table s))).
  set (kept := without in_month (table s)).
  exists startDate, endDate.
  erewrite undo_unfold by reflexivity.
  cbn [table records importedIds BulkImport.month].
  assert (Hkb : ids_below kept).
  { apply (wf_without in_month (table s)). repeat split; assumption. }
  assert (Hw : without
                 (id_in (map id (number_rows visitorDefault customersDefault
                                   (nextId (table s)) (map row_data valid))))
                 (appended visitorDefault customersDefault kept
                    (map row_data valid))
               = mkTable (rows kept)
                   (nextId kept + Z.of_nat (List.length (map row_data valid)))).
  { unfold without at 1. f_equal.
    exact (without_imported visitorDefault customersDefault kept
             (map row_data valid) Hkb). }
  rewrite Hw.
  rewrite (for_of_create_ok visitorDefault customersDefault _ restore_data
             (fun r => r) old (undo_creates_one _ _)).
  - cbn [table lastImportBackup rows nextId appended].
    eexists. eexists. split; [exact Em|].
    cbn [recordsDeleted recordsImported].
    rewrite length_map, length_number_rows, length_map.
    split; [reflexivity|]. cbn [table rows].
    split; [reflexivity|]. split; [|reflexivity].
    apply restored_from_number_rows.
  - replace (map (fun x => c_date (restore_data x)) old) with (map date old)
      by (apply map_ext; reflexivity).
    unfold old. apply NoDup_map_filter. exact Hd.
  - cbn [table rows]. intros x r Hx Hr Heq.
    apply filter_In in Hx as [_ Hx]. apply filter_In in Hr as [_ Hr].
    cbn in Heq. unfold in_month, date_gte_lt in Hx, Hr.
    rewrite Heq in Hr. rewrite Hx in Hr. discriminate.
Qed.


(** A date whose local year and month are those of the request lies
    between the bounds the handlers query. *)
Lemma month_bounds_contain (month : Month) (t startDate endDate : Z) :
  ~ (0 <= targetYear month <= 99) ->
  month_mismatch tz month (Some t) = false ->
  month_bounds tz month = Some (startDate, endDate) ->
  startDate <= t < endDate.
Proof.
  intros Hy Hm Hb. unfold month_mismatch in Hm.
  apply orb_false_iff in Hm as [H1 H2].
  apply negb_false_iff in H1, H2. apply Z.eqb_eq in H1, H2.
  unfold getMonth, getFullYear in H1, H2.
  destruct (civil_from_days (Day (LocalTime tz t))) as [[y m] d] eqn:E.
  destruct (civil_from_days_month _ _ _ _ E) as (Hmr & _ & Hlo & Hhi).
  unfold month_bounds, new_Date, TimeClip in Hb.
  rewrite <- H1, <- H2 in Hb.
  assert (Hfy : fullYear y = y).
  { unfold fullYear. rewrite H2.
    destruct (0 <=? targetYear month) eqn:A;
      destruct (targetYear month <=? 99) eqn:B; cbn; try reflexivity.
    exfalso. apply Hy. lia. }
  rewrite Hfy in Hb.
  replace (m - 1 + 1) with m in Hb by lia.
  rewrite (MakeDay_month y m 1 Hmr), (MakeDay_next_month y m Hmr) in Hb.
  destruct (next_month y m) as [y' m'].
  repeat match type of Hb with
         | context [if ?c then _ else _] => destruct c; try discriminate
         end.
  injection Hb as <- <-.
  unfold UTC, LocalTime, Day, msPerDay in *.
  pose proof (Z.div_mod (t + tz) 86400000).
  pose proof (Z.mod_pos_bound (t + tz) 86400000). lia.
Qed.

Lemma confirm_row_date (month : Month) (row : SheetRow) (r : ParsedRow) :
  confirm_row tz month row = Some r ->
  month_mismatch tz month (Some (BulkImport.date r)) = false.
Proof.
  unfold confirm_row.
  destruct (parseExcelDate (cell0 row)) as [[t|]|]; try discriminate.
  destruct (month_mismatch tz month (Some t)) eqn:E; try discriminate.
  destruct (_ && _); [|discriminate].
  intros H. injection H as <-. exact E.
Qed.

Lemma confirm_rows_dates (month : Month) (rows : list SheetRow) :
  Forall (fun r => month_mismatch tz month (Some (BulkImport.date r)) = false)
    (confirm_rows tz month rows).
Proof.
  induction rows as [|row rows IH].
  - constructor.
  - rewrite ValidationFacts.confirm_rows_cons.
    destruct (confirm_row tz month row) as [r|] eqn:E; [|exact IH].
    constructor; [exact (confirm_row_date month row r E)|exact IH].
Qed.

(** X3. After a successful import the records of the month are the rows
    the import inserted, in file order and numbered from the counter on,
    and the records outside the month are the ones that were there (for a
    year the Date constructor takes as it is: not 0 to 99). *)
Theorem import_replaces_month (month : Month) (rawData : list SheetRow)
    (now : Z) (s : State) (result : ImportResult) (s1 : State) :
  ~ (0 <= targetYear month <= 99) ->
  confirm tz visitorDefault customersDefault
    (mkRequest (Some month) (Some rawData)) now s
  = (ImportSuccess result, s1) ->
  exists startDate endDate,
    month_bounds tz month = Some (startDate, endDate)
    /\ filter (date_gte_lt startDate endDate) (rows (table s1))
       = number_rows visitorDefault customersDefault (nextId (table s))
           (map row_data (confirm_rows tz month (dataRows rawData)))
    /\ filter (fun r => negb (date_gte_lt startDate endDate r))
         (rows (table s1))
       = filter (fun r => negb (date_gte_lt startDate endDate r))
           (rows (table s)).
Proof.
  intros Hy H.
  apply confirm_success in H as (startDate & endDate & Em & _ & ->).
  exists startDate, endDate. split; [exact Em|].
  cbn [table appended rows without nextId].
  set (in_month := date_gte_lt startDate endDate).
  set (valid := confirm_rows tz month (dataRows rawData)).
  assert (Hnew : forall r,
             In r (number_rows visitorDefault customersDefault
                     (nextId (table s)) (map row_data valid)) ->
             in_month r = true).
  { pose proof (confirm_rows_dates month (dataRows rawData)) as Hv.
    fold valid in Hv. generalize (nextId (table s)).
    induction Hv as [|p ps Hp _ IH]; intros i r Hr; [destruct Hr|].
    destruct Hr as [<-|Hr]; [|exact (IH _ r Hr)].
    pose proof (month_bounds_contain month (BulkImport.date p) _ _ Hy Hp Em).
    unfold in_month, date_gte_lt. cbn [date new_row row_data c_date].
    apply andb_true_iff. rewrite Z.leb_le, Z.ltb_lt. lia. }
  rewrite !filter_app. split.
  - rewrite (filter_all_false in_month).
    + cbn [app]. apply forallb_filter_id. apply forallb_forall. exact Hnew.
    + intros r Hr. apply filter_In in Hr as [_ Hr].
      apply negb_true_iff. exact Hr.
  - rewrite (filter_all_false _ (number_rows _ _ _ _)).
    + rewrite app_nil_r. apply forallb_filter_id. apply forallb_forall.
      intros r Hr. apply filter_In in Hr as [_ Hr]. exact Hr.
    + intros r Hr. rewrite (Hnew r Hr). reflexivity.
Qed.

Lemma length_confirm_rows (month : Month) (rows : list SheetRow) :
  (List.length (confirm_rows tz month rows) <= List.length rows)%nat.
Proof.
  induction rows as [|row rows IH]; [cbn; lia|].
  rewrite ValidationFacts.confirm_rows_cons.
  destruct (confirm_row tz month row); cbn [List.length]; lia.
Qed.

Lemma length_filter_split {A} (p : A -> bool) (l : list A) :
  (List.length (filter p l)
   + List.length (filter (fun x => negb (p x)) l) = List.length l)%nat.
Proof.
  induction l as [|x l IH]; [reflexivity|].
  cbn [filter]. destruct (p x); cbn [negb List.length]; lia.
Qed.

(** X4. A successful import accounts for every row and every record: the
    rows it imported and the rows it skipped are the data rows of the
    file, the table shrinks by the records deleted and grows by the rows
    imported, and so does the id counter. *)
Theorem import_accounts_for_every_row (month : Month)
    (rawData : list SheetRow) (now : Z) (s : State) (result : ImportResult)
    (s1 : State) :
  confirm tz visitorDefault customersDefault
    (mkRequest (Some month) (Some rawData)) now s
  = (ImportSuccess result, s1) ->
  Z.of_nat (recordsImported result) + skipped result
  = Z.of_nat (List.length (dataRows rawData))
  /\ 0 <= skipped result
  /\ (List.length (rows (table s1)) + recordsDeleted result
      = List.length (rows (table s)) + recordsImported result)%nat
  /\ nextId (table s1)
     = nextId (table s) + Z.of_nat (recordsImported result).
Proof.
  intros H. pose proof H as H0.
  apply confirm_success in H as (startDate & endDate & Em & Hri & ->).
  pose proof (confirm_cases visitorDefault customersDefault tz month rawData
                now s) as Hc.
  cbv zeta in Hc. rewrite H0, Em in Hc.
  destruct Hc as (k & _ & _ & [(_ & Hr & _)|(_ & Hr & _)]); [|discriminate].
  injection Hr as ->.
  pose proof (length_confirm_rows month (dataRows rawData)) as Hl.
  pose proof (length_filter_split (date_gte_lt startDate endDate)
                (rows (table s))) as Hf.
  cbn [recordsImported skipped recordsDeleted table appended rows nextId
       without].
  rewrite length_app, length_number_rows, !length_map.
  repeat split; lia.
Qed.

End Schema.

Lemma import_then_undo_witness :
  wf_table (table state0)
  /\ exists startDate endDate restored s2,
       month_bounds gmt8 january = Some (startDate, endDate)
       /\ undo 0 0 imported_state
          = (UndoSuccess (mkUndoResult "2026-01" 1 1), s2)
       /\ rows (table s2)
          = filter (fun r => negb (date_gte_lt startDate endDate r))
              (rows (table state0)) ++ restored
       /\ Forall2 (restored_from 0 0)
            (filter (date_gte_lt startDate endDate) (rows (table state0)))
            restored
       /\ lastImportBackup s2 = None.
Proof.
  split; [exact (proj1 state0_wf)|].
  exact (import_then_undo 0 0 gmt8 january file_one now0 state0
           (mkImportResult "2026-01" 1 1 0) imported_state
           (proj1 state0_wf) eq_refl).
Defined.

Lemma import_replaces_month_witness :
  ~ (0 <= targetYear january <= 99)
  /\ exists startDate endDate,
       month_bounds gmt8 january = Some (startDate, endDate)
       /\ filter (date_gte_lt startDate endDate)
            (rows (table imported_state))
          = number_rows 0 0 (nextId (table state0))
              (map row_data
                 (confirm_rows gmt8 january (dataRows file_one)))
       /\ filter (fun r => negb (date_gte_lt startDate endDate r))
            (rows (table imported_state))
          = filter (fun r => negb (date_gte_lt startDate endDate r))
              (rows (table state0)).
Proof.
  assert (Hy : ~ (0 <= targetYear january <= 99)) by (cbn; lia).
  split; [exact Hy|].
  exact (import_replaces_month 0 0 gmt8 january file_one now0 state0
           (mkImportResult "2026-01" 1 1 0) imported_state Hy eq_refl).
Defined.

Lemma import_accounts_for_every_row_witness :
  confirm gmt8 0 0 (request file_customers) now0 state0
  = (ImportSuccess (mkImportResult "2026-01" 1 1 0), 
     snd (confirm gmt8 0 0 (request file_customers) now0 state0))
  /\ Z.of_nat 1 + 0 = Z.of_nat (List.length (dataRows file_customers)).
Proof.
  split; [vm_compute; reflexivity|].
  exact (proj1 (import_accounts_for_every_row 0 0 gmt8 january
                  file_customers now0 state0
                  (mkImportResult "2026-01" 1 1 0)
                  (snd (confirm gmt8 0 0 (request file_customers) now0
                          state0))
                  eq_refl)).
Defined.

End ImportMoreFacts.

(** ** The counts of a preview *)

Module PreviewFacts.
Import JsNumber JsDate Async Async.Notations BulkImport Prisma Spec PreviewSpec
  Scenario ValidationFacts.

Section Zone.
Variable tz : Z.

(** The first pass puts every row on one of the two lists. *)
Lemma preview_rows_lengths (month : Month) (rows : list SheetRow) :
  forall index validRows invalidRows,
    (List.length (fst (preview_rows tz month rows index validRows
                         invalidRows))
     + List.length (snd (preview_rows tz month rows index validRows
                           invalidRows))
     = List.length validRows + List.length invalidRows + List.length rows)%nat.
Proof.
  induction rows as [|row rows IH]; intros index validRows invalidRows.
  - cbn. lia.
  - cbn [preview_rows]. destruct (preview_row tz month row) as [r|reason];
      rewrite IH, length_app; cbn; lia.
Qed.

Lemma existsb_eqb_In (k : Z) (l : list Z) :
  existsb (Z.eqb k) l = true <-> In k l.
Proof.
  rewrite existsb_exists. split.
  - intros (x & Hx & He). apply Z.eqb_eq in He. subst. exact Hx.
  - intros H. exists k. split; [exact H|apply Z.eqb_refl].
Qed.

Lemma filter_fresh_cons_out (k : Z) (dateSet l : list Z) :
  ~ In k l -> filter (fresh (k :: dateSet)) l = filter (fresh dateSet) l.
Proof.
  intros Hk. apply filter_ext_in. intros x Hx. unfold fresh. cbn.
  destruct (Z.eqb_spec x k) as [->|_]; [contradiction|reflexivity].
Qed.

Lemma filter_fresh_cons_in (k : Z) (dateSet l : list Z) :
  NoDup l -> In k l -> fresh dateSet k = true ->
  List.length (filter (fresh dateSet) l)
  = S (List.length (filter (fresh (k :: dateSet)) l)).
Proof.
  induction l as [|x l IH]; intros Hnd Hin Hf; [destruct Hin|].
  apply NoDup_cons_iff in Hnd as [Hx Hnd].
  destruct Hin as [->|Hin].
  - cbn [filter]. rewrite Hf.
    replace (fresh (k :: dateSet) k) with false
      by (unfold fresh; cbn; rewrite Z.eqb_refl; reflexivity).
    cbn. rewrite filter_fresh_cons_out by exact Hx. reflexivity.
  - cbn [filter].
    replace (fresh (k :: dateSet) x) with (fresh dateSet x).
    + destruct (fresh dateSet x); cbn; rewrite (IH Hnd Hin Hf); reflexivity.
    + unfold fresh. cbn. destruct (Z.eqb_spec x k) as [->|_];
        [contradiction|reflexivity].
Qed.

(** The second pass reports a row for every date seen before: what it adds
    and the dates it meets for the first time make up the valid rows. *)
Lemma duplicate_dates_length (validRows : list ParsedRow) :
  forall index dateSet invalidRows,
    (List.length (duplicate_dates validRows index dateSet invalidRows)
     + List.length
         (filter (fresh dateSet) (nodup Z.eq_dec (valid_dates validRows)))
     = List.length invalidRows + List.length validRows)%nat.
Proof.
  induction validRows as [|r rest IH]; intros index dateSet invalidRows.
  - cbn. lia.
  - cbn [duplicate_dates valid_dates map nodup].
    fold (valid_dates rest).
    set (k := isoDateKey (BulkImport.date r)).
    destruct (existsb (Z.eqb k) dateSet) eqn:E.
    + pose proof (IH (index + 1) dateSet
                    (invalidRows
                       ++ [(index + 2, "Duplicate date in file"%string)]))
        as H.
      rewrite length_app in H. cbn [List.length] in H.
      destruct (in_dec Z.eq_dec k (valid_dates rest)); cbn [filter].
      * cbn [List.length]. lia.
      * unfold fresh at 1. rewrite E. cbn [negb List.length]. lia.
    + pose proof (IH (index + 1) (k :: dateSet) invalidRows) as H.
      assert (Hf : fresh dateSet k = true) by (unfold fresh; rewrite E; auto).
      destruct (in_dec Z.eq_dec k (valid_dates rest)) as [Hin|Hout].
      * rewrite (filter_fresh_cons_in k dateSet _ (NoDup_nodup _ _)
                   (proj2 (nodup_In _ _ _) Hin) Hf).
        cbn [List.length]. lia.
      * cbn [filter]. rewrite Hf. cbn [List.length].
        rewrite filter_fresh_cons_out in H
          by (intros Hc; apply Hout; apply (nodup_In Z.eq_dec); exact Hc).
        lia.
Qed.

(** X5. The counts of a preview: every row of the file is counted once, as
    valid or as invalid, and the invalid count has one more entry for each
    valid row that repeats the date of an earlier valid row. *)
Theorem preview_counts (month : Month) (rawData : list SheetRow)
    (s : State) (p : Preview) (s' : State) :
  preview tz (mkRequest (Some month) (Some rawData)) s
  = (PreviewSuccess p, s') ->
  let valid := fst (preview_rows tz month (dataRows rawData) 0 [] []) in
  totalRowsInFile p = List.length (dataRows rawData)
  /\ validRows p = List.length valid
  /\ (validRows p <= totalRowsInFile p)%nat
  /\ (invalidRows p + distinct_dates valid = totalRowsInFile p)%nat
  /\ List.length (errors p) = invalidRows p.
Proof.
  unfold preview, try_catch, preview_body. cbn [req_month req_file].
  pose proof (preview_rows_lengths month (dataRows rawData) 0 [] []) as Hl.
  destruct (preview_rows tz month (dataRows rawData) 0 [] [])
    as [valid invalid].
  cbn [fst snd List.length] in Hl.
  pose proof (duplicate_dates_length valid 0 [] invalid) as Hd.
  unfold month_range.
  destruct (new_Date tz (targetYear month) (targetMonth month - 1) 1);
    [|cbn; discriminate].
  destruct (new_Date tz (targetYear month) (targetMonth month) 1);
    [|cbn; discriminate].
  cbn. intros H. injection H as <- _. cbn.
  unfold distinct_dates.
  replace (filter (fresh []) (nodup Z.eq_dec (valid_dates valid)))
    with (nodup Z.eq_dec (valid_dates valid)) in Hd
    by (symmetry; apply forallb_filter_id; apply forallb_forall;
        intros x _; reflexivity).
  unfold valid_dates in *. repeat split; lia.
Qed.

End Zone.

Lemma preview_counts_witness :
  preview gmt8 (request file_duplicate) state0
  = (PreviewSuccess
       (mkPreview "2026-01" 2 2 1 1 [(3, "Duplicate date in file"%string)]),
     state0)
  /\ (1 + distinct_dates
            (fst (preview_rows gmt8 january (dataRows file_duplicate) 0 [] []))
      = 2)%nat.
Proof.
  split; [vm_compute; reflexivity|].
  exact (proj1 (proj2 (proj2 (proj2
           (preview_counts gmt8 january file_duplicate state0
              (mkPreview "2026-01" 2 2 1 1
                 [(3, "Duplicate date in file"%string)])
              state0 eq_refl))))).
Defined.

End PreviewFacts.

(** ** A preview without errors *)

Module DryRunFacts.
Import JsNumber JsDate Async Async.Notations BulkImport Prisma Spec TableSpec
  PreviewSpec Scenario ValidationFacts ImportFacts TableFacts ImportMoreFacts
  PreviewFacts.





Section Schema.
Variables visitorDefault customersDefault : number.
Variable tz : Z.


End Schema.


End DryRunFacts.

(** ** The record handlers *)

Module RecordFacts.
Import JsNumber JsDate Async Async.Notations BulkImport Prisma Formulas
  Records RecordsById Spec TableSpec RecordSpec Scenario UpsertFacts
  TableFacts.

(** What [recordSchema.parse] lets through. *)
Lemma recordSchema_parse_consistent (b : Body) (v : Validated) :
  recordSchema_parse b = Some v ->
  ge (u_totalSale (v_data v)) (u_totalSaleGmv (v_data v)) = true
  /\ ge (u_totalSaleGmv (v_data v)) (u_gmvSaleLive (v_data v)) = true
  /\ ge (u_gmvAdsSpend (v_data v)) (u_gmvLiveAdsSpend (v_data v)) = true.
Proof.
  unfold recordSchema_parse. intros E.
  destruct (b_date b); [discriminate|].
  repeat match type of E with
         | match ?o with _ => _ end = _ => destruct o eqn:?; try discriminate
         end.
  injection E as <-. cbn.
  repeat match goal with
         | H : (_ && _)%bool = true |- _ => apply andb_true_iff in H as [? ?]
         end.
  auto.
Qed.

Lemma set_data_idem (u : UpdateData) (r : DailyRecord) :
  set_data u (set_data u r) = set_data u r.
Proof. reflexivity. Qed.

Lemma map_update_ids (i : Z) (u : UpdateData) (l : list DailyRecord) :
  map id (map (fun x => if id x =? i then set_data u x else x) l) = map id l.
Proof.
  rewrite map_map. apply map_ext. intros x. destruct (id x =? i); reflexivity.
Qed.

Lemma map_update_dates (i : Z) (u : UpdateData) (l : list DailyRecord) :
  map date (map (fun x => if id x =? i then set_data u x else x) l)
  = map date l.
Proof.
  rewrite map_map. apply map_ext. intros x. destruct (id x =? i); reflexivity.
Qed.

(** [update] changes neither the ids nor the dates nor the counter. *)
Lemma update_keeps (i : Z) (u : UpdateData) (t : Table) :
  map id (rows (snd (update i u t))) = map id (rows t)
  /\ map date (rows (snd (update i u t))) = map date (rows t)
  /\ nextId (snd (update i u t)) = nextId t.
Proof.
  unfold update. destruct (find _ (rows t)); cbn [snd rows nextId].
  - rewrite map_update_ids, map_update_dates. auto.
  - auto.
Qed.

Lemma wf_same_keys (t t' : Table) :
  map id (rows t') = map id (rows t) ->
  map date (rows t') = map date (rows t) ->
  nextId t' = nextId t ->
  wf_table t -> wf_table t'.
Proof.
  intros Hi Hd Hn (Hb & Hu & Hdu).
  unfold wf_table, ids_below, ids_unique, dates_unique in *.
  rewrite Hi, Hd, Hn. split; [|split; assumption].
  apply Forall_forall. intros r Hr.
  assert (Hin : In (id r) (map id (rows t)))
    by (rewrite <- Hi; apply in_map; exact Hr).
  apply in_map_iff in Hin as (r0 & <- & Hr0).
  exact (proj1 (Forall_forall _ _) Hb r0 Hr0).
Qed.

Lemma wf_update (i : Z) (u : UpdateData) (t : Table) :
  wf_table t -> wf_table (snd (update i u t)).
Proof.
  destruct (update_keeps i u t) as (Hi & Hd & Hn).
  apply wf_same_keys; assumption.
Qed.

Section Schema.
Variables visitorDefault customersDefault : number.

(** POST /api/records, case by case. *)
Lemma post_records_cases (b : Body) (t : Table) :
  match recordSchema_parse b with
  | None =>
      post_records visitorDefault customersDefault b t
      = (Records.Status400 "validation_error" "Invalid date or values", t)
  | Some v =>
      match v_date v with
      | None =>
          post_records visitorDefault customersDefault b t
          = (Records.Status500 "server_error" "Unable to save record", t)
      | Some date0 =>
          let date := setUTCHours0 date0 in
          match find (date_gte_lt date (date + 24 * 60 * 60 * 1000))
                  (rows t) with
          | Some existing =>
              exists y,
                find (fun r => id r =? id existing) (rows t) = Some y
                /\ post_records visitorDefault customersDefault b t
                   = (Records.Success update_
                        (calculateMetrics (set_data (v_data v) y)),
                      snd (update (id existing) (v_data v) t))
          | None =>
              post_records visitorDefault customersDefault b t
              = (Records.Success create_
                   (calculateMetrics
                      (new_row visitorDefault customersDefault (nextId t)
                         (create_data date (v_data v)))),
                 appended visitorDefault customersDefault t
                   [create_data date (v_data v)])
          end
      end
  end.
Proof.
  unfold post_records, try_catch, post_records_body.
  destruct (recordSchema_parse b) as [v|]; [|reflexivity].
  destruct (v_date v) as [date0|]; [|reflexivity].
  cbv zeta. unfold bind, findFirst. cbn [fst snd].
  destruct (find _ (rows t)) as [existing|] eqn:Efind.
  - destruct (find_same_id _ _ _ Efind) as [y Ey]. exists y.
    split; [exact Ey|]. unfold update. rewrite Ey. reflexivity.
  - unfold create.
    destruct (existsb _ (rows t)) eqn:Eex.
    + exfalso. apply existsb_exists in Eex as (r & Hr & Hd).
      apply Z.eqb_eq in Hd. cbn in Hd.
      pose proof (find_none _ _ Efind r Hr) as Hn.
      unfold date_gte_lt in Hn. rewrite Hd in Hn.
      apply andb_false_iff in Hn as [Hn|Hn].
      * apply Z.leb_gt in Hn. lia.
      * apply Z.ltb_ge in Hn. lia.
    + reflexivity.
Qed.

(** POST /api/records keeps the table well formed. *)
Lemma post_records_wf (b : Body) (t : Table) :
  wf_table t ->
  wf_table (snd (post_records visitorDefault customersDefault b t)).
Proof.
  intros Hwf. pose proof (post_records_cases b t) as H.
  destruct (recordSchema_parse b) as [v|]; [|rewrite H; exact Hwf].
  destruct (v_date v) as [date0|]; [|rewrite H; exact Hwf].
  cbv zeta in H.
  destruct (find _ (rows t)) as [existing|] eqn:Efind.
  - destruct H as (y & _ & ->). cbn [snd]. apply wf_update. exact Hwf.
  - rewrite H. cbn [snd].
    pose proof (wf_create visitorDefault customersDefault
                  (create_data (setUTCHours0 date0) (v_data v)) t Hwf)
      as Hc.
    unfold create in Hc.
    destruct (existsb _ (rows t)) eqn:Eex.
    + exfalso. apply existsb_exists in Eex as (r & Hr & Hd).
      apply Z.eqb_eq in Hd. cbn in Hd.
      pose proof (find_none _ _ Efind r Hr) as Hn.
      unfold date_gte_lt in Hn. rewrite Hd in Hn.
      apply andb_false_iff in Hn as [Hn|Hn].
      * apply Z.leb_gt in Hn. lia.
      * apply Z.ltb_ge in Hn. lia.
    + exact Hc.
Qed.

End Schema.

(** PUT /api/records/:id keeps ids, dates and the counter. *)
Lemma put_records_keeps (i : option Z) (b : Body) (t : Table) :
  map id (rows (snd (put_records i b t))) = map id (rows t)
  /\ map date (rows (snd (put_records i b t))) = map date (rows t)
  /\ nextId (snd (put_records i b t)) = nextId t.
Proof.
  unfold put_records. destruct i as [i|]; [|auto].
  destruct (recordSchema_parse b) as [v|]; [|auto].
  pose proof (update_keeps i (v_data v) t) as H.
  destruct (update i (v_data v) t) as [[r|] t']; exact H.
Qed.

(** A key that is unique in the table names one record. *)
Lemma unique_key (key : DailyRecord -> Z) (rs : list DailyRecord)
    (x y : DailyRecord) :
  NoDup (map key rs) -> In x rs -> In y rs -> key x = key y -> x = y.
Proof.
  induction rs as [|r rs IH]; intros Hnd Hx Hy Hk; [destruct Hx|].
  cbn [map] in Hnd. apply NoDup_cons_iff in Hnd as [Hr Hnd].
  destruct Hx as [<-|Hx], Hy as [<-|Hy].
  - reflexivity.
  - exfalso. apply Hr. rewrite Hk. apply in_map. exact Hy.
  - exfalso. apply Hr. rewrite <- Hk. apply in_map. exact Hx.
  - exact (IH Hnd Hx Hy Hk).
Qed.

(** C10. POST /api/records keeps at most one record per UTC calendar day.
    The date is normalized to midnight UTC and the 24 hours from it are
    the UTC day. When a record of that day is stored, the answer is mode
    update, that record keeps its id and date and takes the nine values of
    the body, and no record is added; a record is created, mode create,
    exactly when the day has none, dated midnight UTC of the day. The
    outcome is stated twice: read off the response ([upsert_outcome]), and
    decided by the body and the table ([upsert_decided]) for a table with
    its primary key and values the database takes. *)
Theorem C10_post_records_upserts_by_day
    (visitorDefault customersDefault : number) (body : Body) (table : Table) :
  one_record_per_day table ->
  let '(response, table') :=
    post_records visitorDefault customersDefault body table in
  one_record_per_day table'
  /\ upsert_outcome body table response table'
  /\ upsert_decided body table response table'.
Proof.
  intros Hinv.
  pose proof (one_record_per_day_preserved visitorDefault customersDefault
                body table Hinv) as Hold.
  pose proof (post_records_cases visitorDefault customersDefault body table)
    as Hc.
  destruct (post_records visitorDefault customersDefault body table)
    as [response table'].
  destruct Hold as [H1 H2]. split; [exact H1|]. split; [exact H2|].
  unfold upsert_decided.
  destruct (recordSchema_parse body) as [v|];
    [|injection Hc as -> ->; split; reflexivity].
  destruct (v_date v) as [date0|];
    [|injection Hc as -> ->; split; reflexivity].
  cbv zeta in *. intros Hids _.
  destruct (find _ (rows table)) as [e|] eqn:Efind.
  - destruct Hc as (y & Ey & Hc). injection Hc as -> ->.
    apply find_some in Efind as [Hein Hewin].
    apply window_is_utc_day in Hewin.
    split.
    + intros existing Hin Hday.
      assert (He : e = existing).
      { apply (unique_key utc_day (rows table)); try assumption.
        rewrite Hewin, Hday. reflexivity. }
      subst e.
      pose proof Ey as Ey'. apply find_some in Ey' as [Hyin Hyid].
      apply Z.eqb_eq in Hyid.
      assert (Hy : y = existing)
        by (apply (unique_key id (rows table)); assumption).
      subst y. split; [reflexivity|].
      unfold update. rewrite Ey. cbn [snd]. f_equal.
      apply map_ext_in. intros r Hr.
      destruct (Z.eqb_spec (id r) (id existing)) as [Hid|_]; [|reflexivity].
      rewrite (unique_key id (rows table) r existing Hids Hr Hin Hid).
      reflexivity.
    + intros Hnone. exfalso. exact (Hnone e Hein Hewin).
  - injection Hc as -> ->. split.
    + intros existing Hin Hday. exfalso.
      apply window_is_utc_day in Hday.
      rewrite (find_none _ _ Efind existing Hin) in Hday. discriminate.
    + intros _. split; reflexivity.
Qed.

Lemma C10_post_records_upserts_by_day_witness :
  let u := mkUpdateData 11000 9000 6000 1200 700 600 60000 0 0 in
  one_record_per_day table0
  /\ post_records 0 0 body_jan5 table0
     = (Records.Success update_ (calculateMetrics (record_of 1 jan5 u)),
        mkTable [record_of 1 jan5 u] 2)
  /\ post_records 0 0 body_jan6 table0
     = (Records.Success create_
          (calculateMetrics (record_of 2 (jan5 + msPerDay) u)),
        mkTable [stored; record_of 2 (jan5 + msPerDay) u] 3).
Proof.
  cbv zeta.
  assert (Hids : NoDup (map id (rows table0)))
    by (constructor; [intros []|constructor]).
  assert (Hw0 : whole 0) by (exists 0; split; [lia|reflexivity]).
  assert (Hw : whole 60000) by (exists 60000; split; [lia|reflexivity]).
  split; [exact table0_one_record_per_day|]. split.
  - pose proof (C10_post_records_upserts_by_day 0 0 body_jan5 table0
                  table0_one_record_per_day) as H.
    destruct (post_records 0 0 body_jan5 table0) as [response table'].
    destruct H as (_ & _ & H).
    assert (Hst : storable (jan5 + 12 * 3600000)
                    (mkUpdateData 11000 9000 6000 1200 700 600 60000 0 0)).
    { split; [unfold storable_date, jan5; lia|]. cbn. auto. }
    destruct (H Hids Hst) as [Hup _].
    destruct (Hup stored (or_introl eq_refl) eq_refl) as [-> ->].
    reflexivity.
  - pose proof (C10_post_records_upserts_by_day 0 0 body_jan6 table0
                  table0_one_record_per_day) as H.
    destruct (post_records 0 0 body_jan6 table0) as [response table'].
    destruct H as (_ & _ & H).
    assert (Hst : storable (jan5 + 36 * 3600000)
                    (mkUpdateData 11000 9000 6000 1200 700 600 60000 0 0)).
    { split; [unfold storable_date, jan5; lia|]. cbn. auto. }
    destruct (H Hids Hst) as [_ Hcr].
    destruct Hcr as [-> ->]; [|reflexivity].
    intros r [<-|[]]. vm_compute. discriminate.
Defined.

End RecordFacts.

(** ** What every writer keeps *)

Module WriterFacts.
Import JsNumber JsDate Async Async.Notations BulkImport Prisma Formulas
  Records RecordsById Spec TableSpec RecordSpec Scenario UpsertFacts
  ImportFacts TableFacts RecordFacts ImportMoreFacts.

Section Schema.
Variables visitorDefault customersDefault : number.

(** A loop over [create] keeps what holds of the stored rows and of the
    rows it inserts. *)
Lemma for_of_create_Forall {A B} (Q : DailyRecord -> Prop)
    (f : A -> io State B) (data : A -> CreateData)
    (result : DailyRecord -> B) (xs : list A) :
  creates_one visitorDefault customersDefault f data result ->
  (forall x i, In x xs ->
               Q (new_row visitorDefault customersDefault i (data x))) ->
  forall (acc : list B) (s : State),
    Forall Q (rows (table s)) ->
    Forall Q (rows (table (snd (for_of f xs acc s)))).
Proof.
  intros Hf. induction xs as [|x xs IH]; intros HQ acc s Hs.
  - exact Hs.
  - cbn [for_of]. unfold bind. rewrite Hf. unfold create.
    destruct (existsb _ (rows (table s))); [exact Hs|].
    apply IH.
    + intros y i Hy. apply HQ. right. exact Hy.
    + cbn [table rows]. apply Forall_app. split; [exact Hs|].
      constructor; [|constructor]. apply HQ. left. reflexivity.
Qed.

Lemma Forall_filter {A} (Q : A -> Prop) (p : A -> bool) (l : list A) :
  Forall Q l -> Forall Q (filter p l).
Proof.
  intros H. apply Forall_forall. intros x Hx.
  apply filter_In in Hx as [Hx _].
  exact (proj1 (Forall_forall _ _) H x Hx).
Qed.

Lemma consistent_update (i : Z) (v : Validated) (b : Body) (t : Table) :
  recordSchema_parse b = Some v ->
  consistent_table t -> consistent_table (snd (update i (v_data v) t)).
Proof.
  intros Hp Ht. apply recordSchema_parse_consistent in Hp.
  unfold update. destruct (find _ (rows t)); [|exact Ht].
  unfold consistent_table. cbn [snd rows].
  apply Forall_forall. intros r Hr.
  apply in_map_iff in Hr as (x & <- & Hx).
  destruct (id x =? i); [exact Hp|].
  exact (proj1 (Forall_forall _ _) Ht x Hx).
Qed.

Lemma post_records_consistent (b : Body) (t : Table) :
  consistent_table t ->
  consistent_table (snd (post_records visitorDefault customersDefault b t)).
Proof.
  intros Ht.
  pose proof (post_records_cases visitorDefault customersDefault b t) as H.
  destruct (recordSchema_parse b) as [v|] eqn:Ep; [|rewrite H; exact Ht].
  destruct (v_date v) as [date0|]; [|rewrite H; exact Ht].
  cbv zeta in H.
  destruct (find _ (rows t)) as [existing|].
  - destruct H as (y & _ & ->). cbn [snd].
    exact (consistent_update _ v b t Ep Ht).
  - rewrite H. cbn [snd]. unfold consistent_table, appended.
    cbn [rows number_rows]. apply Forall_app. split; [exact Ht|].
    constructor; [|constructor].
    exact (recordSchema_parse_consistent b v Ep).
Qed.

Lemma put_records_consistent (i : option Z) (b : Body) (t : Table) :
  consistent_table t -> consistent_table (snd (put_records i b t)).
Proof.
  intros Ht. unfold put_records. destruct i as [i|]; [|exact Ht].
  destruct (recordSchema_parse b) as [v|] eqn:Ep; [|exact Ht].
  pose proof (consistent_update i v b t Ep Ht) as H.
  destruct (update i (v_data v) t) as [[r|] t']; exact H.
Qed.

Section Checks.
Variable tz : Z.

(** The rows the import inserts passed its three checks. *)
Lemma confirm_row_consistent (month : Month) (row : SheetRow)
    (r : ParsedRow) (i : Z) :
  confirm_row tz month row = Some r ->
  sales_consistent (new_row visitorDefault customersDefault i (row_data r)).
Proof.
  unfold confirm_row.
  destruct (parseExcelDate (cell0 row)) as [[t|]|]; try discriminate.
  destruct (month_mismatch tz month (Some t)); try discriminate.
  cbv zeta.
  destruct (ge _ _ && ge _ _ && ge _ _)%bool eqn:E; [|discriminate].
  intros H. injection H as <-.
  apply andb_true_iff in E as [E E3]. apply andb_true_iff in E as [E1 E2].
  unfold sales_consistent. cbn. auto.
Qed.

Lemma confirm_rows_consistent (month : Month) (rows : list SheetRow)
    (r : ParsedRow) (i : Z) :
  In r (confirm_rows tz month rows) ->
  sales_consistent (new_row visitorDefault customersDefault i (row_data r)).
Proof.
  induction rows as [|row rows IH] using rev_ind; intros Hr.
  - destruct Hr.
  - unfold confirm_rows in *. rewrite fold_left_app in Hr. cbn in Hr.
    destruct (confirm_row tz month row) as [r'|] eqn:E; [|exact (IH Hr)].
    apply in_app_or in Hr as [Hr|[<-|[]]]; [exact (IH Hr)|].
    exact (confirm_row_consistent month row r' i E).
Qed.

Lemma confirm_consistent (req : Request) (now : Z) (s : State) :
  consistent_state s ->
  consistent_state
    (snd (confirm tz visitorDefault customersDefault req now s)).
Proof.
  intros [Ht Hb].
  destruct req as [[month|] [rawData|]]; try (cbn; split; assumption).
  destruct (month_bounds tz month) as [[startDate endDate]|] eqn:Em.
  - rewrite (confirm_unfold _ _ tz month rawData now s _ _ Em).
    set (f := fun row : ParsedRow => _).
    set (s1 := mkState _ (lastImportBackup s)).
    assert (Hk : Forall sales_consistent (rows (table s1)))
      by (apply Forall_filter; exact Ht).
    pose proof (for_of_create_Forall sales_consistent f row_data id
                  (confirm_rows tz month (dataRows rawData))
                  (confirm_creates_one _ _)
                  (fun x i Hx =>
                     confirm_rows_consistent month (dataRows rawData) x i Hx)
                  [] s1 Hk) as H1.
    destruct (for_of_create visitorDefault customersDefault f row_data id
                (confirm_rows tz month (dataRows rawData))
                (confirm_creates_one _ _) [] s1) as (k & Hkl & Hs & Hr).
    destruct (for_of f _ [] s1) as [[ids|] s2]; cbn [fst snd] in *.
    + split; [exact H1|]. cbn [lastImportBackup records].
      apply Forall_filter. exact Ht.
    + split; [exact H1|]. rewrite Hs. cbn [lastImportBackup s1]. exact Hb.
  - pose proof (confirm_cases visitorDefault customersDefault tz month
                  rawData now s) as Hc.
    cbv zeta in Hc. rewrite Em in Hc.
    destruct (confirm _ _ _ _ _ s) as [r s']. destruct Hc as [_ ->].
    split; assumption.
Qed.

End Checks.

Lemma restore_consistent (r : DailyRecord) (i : Z) :
  sales_consistent r ->
  sales_consistent
    (new_row visitorDefault customersDefault i (restore_data r)).
Proof. intros H. exact H. Qed.

Lemma undo_consistent (s : State) :
  consistent_state s ->
  consistent_state (snd (undo visitorDefault customersDefault s)).
Proof.
  intros [Ht Hb].
  destruct (lastImportBackup s) as [backup|] eqn:Eb.
  - rewrite (undo_unfold _ _ s backup Eb).
    set (f := fun record : DailyRecord => _).
    set (s1 := mkState _ (Some backup)).
    assert (Hk : Forall sales_consistent (rows (table s1)))
      by (apply Forall_filter; exact Ht).
    pose proof (for_of_create_Forall sales_consistent f restore_data
                  (fun r => r) (records backup) (undo_creates_one _ _)
                  (fun x i Hx =>
                     restore_consistent x i
                       (proj1 (Forall_forall _ _) Hb x Hx))
                  [] s1 Hk) as H1.
    destruct (for_of_create visitorDefault customersDefault f restore_data
                (fun r => r) (records backup) (undo_creates_one _ _) [] s1)
      as (k & Hkl & Hs & Hr).
    destruct (for_of f _ [] s1) as [[ys|] s2]; cbn [fst snd] in *.
    + split; [exact H1|exact I].
    + split; [exact H1|]. rewrite Hs. cbn [lastImportBackup s1]. exact Hb.
  - pose proof (undo_cases visitorDefault customersDefault s) as Hu.
    rewrite Eb in Hu.
    destruct (undo _ _ s) as [r s']. destruct Hu as [_ ->].
    cbn [snd]. split; [exact Ht|]. rewrite Eb. exact I.
Qed.

Lemma midnight_update (i : Z) (u : UpdateData) (t : Table) :
  midnight_table t -> midnight_table (snd (update i u t)).
Proof.
  intros Ht. unfold update. destruct (find _ (rows t)); [|exact Ht].
  unfold midnight_table. cbn [snd rows].
  apply Forall_forall. intros r Hr.
  apply in_map_iff in Hr as (x & <- & Hx).
  pose proof (proj1 (Forall_forall _ _) Ht x Hx) as H.
  destruct (id x =? i); exact H.
Qed.

Lemma setUTCHours0_midnight (t : Z) : setUTCHours0 t mod msPerDay = 0.
Proof. unfold setUTCHours0. apply Z.mod_mul. unfold msPerDay. lia. Qed.

Lemma post_records_midnight (b : Body) (t : Table) :
  midnight_table t ->
  midnight_table (snd (post_records visitorDefault customersDefault b t)).
Proof.
  intros Ht.
  pose proof (post_records_cases visitorDefault customersDefault b t) as H.
  destruct (recordSchema_parse b) as [v|] eqn:Ep; [|rewrite H; exact Ht].
  destruct (v_date v) as [date0|]; [|rewrite H; exact Ht].
  cbv zeta in H.
  destruct (find _ (rows t)) as [existing|].
  - destruct H as (y & _ & ->). cbn [snd]. apply midnight_update. exact Ht.
  - rewrite H. cbn [snd]. unfold midnight_table, appended.
    cbn [rows number_rows]. apply Forall_app. split; [exact Ht|].
    constructor; [|constructor]. apply setUTCHours0_midnight.
Qed.

Lemma put_records_midnight (i : option Z) (b : Body) (t : Table) :
  midnight_table t -> midnight_table (snd (put_records i b t)).
Proof.
  intros Ht. unfold put_records. destruct i as [i|]; [|exact Ht].
  destruct (recordSchema_parse b) as [v|] eqn:Ep; [|exact Ht].
  pose proof (midnight_update i (v_data v) t Ht) as H.
  destruct (update i (v_data v) t) as [[r|] t']; exact H.
Qed.

(** [Date.UTC] gives midnight UTC, and so does [parseExcelDate]. *)
Lemma Date_UTC_midnight (y m d t : Z) :
  Date_UTC y m d = Some t -> t mod msPerDay = 0.
Proof.
  unfold Date_UTC, TimeClip. destruct (_ <=? _); [|discriminate].
  intros H. injection H as <-. apply Z.mod_mul. unfold msPerDay. lia.
Qed.

Lemma parseExcelDate_midnight (c : Cell) (t : Z) :
  parseExcelDate c = Some (Some t) -> t mod msPerDay = 0.
Proof.
  unfold parseExcelDate. destruct (negb (cell_truthy c)); [discriminate|].
  destruct c as [|b|v [[[y m] d]|]|s]; try discriminate.
  - intros H. injection H as H. exact (Date_UTC_midnight _ _ _ _ H).
  - destruct (split "/" s) as [|p0 [|p1 [|p2 [|]]]]; try discriminate.
    destruct (parseInt p0), (parseInt p1), (parseInt p2); try discriminate.
    intros H. injection H as H. exact (Date_UTC_midnight _ _ _ _ H).
Qed.

Section Zone.
Variable tz : Z.

Lemma confirm_rows_midnight (month : Month) (rows : list SheetRow)
    (r : ParsedRow) (i : Z) :
  In r (confirm_rows tz month rows) ->
  at_midnight (new_row visitorDefault customersDefault i (row_data r)).
Proof.
  induction rows as [|row rows IH] using rev_ind; intros Hr.
  - destruct Hr.
  - unfold confirm_rows in *. rewrite fold_left_app in Hr. cbn in Hr.
    destruct (confirm_row tz month row) as [r'|] eqn:E; [|exact (IH Hr)].
    apply in_app_or in Hr as [Hr|[<-|[]]]; [exact (IH Hr)|].
    unfold confirm_row in E.
    destruct (parseExcelDate (cell0 row)) as [[t|]|] eqn:Ed;
      try discriminate.
    destruct (month_mismatch tz month (Some t)); try discriminate.
    cbv zeta in E. destruct (_ && _)%bool; [|discriminate].
    injection E as <-. exact (parseExcelDate_midnight _ _ Ed).
Qed.

Lemma confirm_midnight (req : Request) (now : Z) (s : State) :
  midnight_state s ->
  midnight_state
    (snd (confirm tz visitorDefault customersDefault req now s)).
Proof.
  intros [Ht Hb].
  destruct req as [[month|] [rawData|]]; try (cbn; split; assumption).
  destruct (month_bounds tz month) as [[startDate endDate]|] eqn:Em.
  - rewrite (confirm_unfold _ _ tz month rawData now s _ _ Em).
    set (f := fun row : ParsedRow => _).
    set (s1 := mkState _ (lastImportBackup s)).
    assert (Hk : Forall at_midnight (rows (table s1)))
      by (apply Forall_filter; exact Ht).
    pose proof (for_of_create_Forall at_midnight f row_data id
                  (confirm_rows tz month (dataRows rawData))
                  (confirm_creates_one _ _)
                  (fun x i Hx =>
                     confirm_rows_midnight month (dataRows rawData) x i Hx)
                  [] s1 Hk) as H1.
    destruct (for_of_create visitorDefault customersDefault f row_data id
                (confirm_rows tz month (dataRows rawData))
                (confirm_creates_one _ _) [] s1) as (k & Hkl & Hs & Hr).
    destruct (for_of f _ [] s1) as [[ids|] s2]; cbn [fst snd] in *.
    + split; [exact H1|]. cbn [lastImportBackup records].
      apply Forall_filter. exact Ht.
    + split; [exact H1|]. rewrite Hs. cbn [lastImportBackup s1]. exact Hb.
  - pose proof (confirm_cases visitorDefault customersDefault tz month
                  rawData now s) as Hc.
    cbv zeta in Hc. rewrite Em in Hc.
    destruct (confirm _ _ _ _ _ s) as [r s']. destruct Hc as [_ ->].
    split; assumption.
Qed.

End Zone.

Lemma undo_midnight (s : State) :
  midnight_state s ->
  midnight_state (snd (undo visitorDefault customersDefault s)).
Proof.
  intros [Ht Hb].
  destruct (lastImportBackup s) as [backup|] eqn:Eb.
  - rewrite (undo_unfold _ _ s backup Eb).
    set (f := fun record : DailyRecord => _).
    set (s1 := mkState _ (Some backup)).
    assert (Hk : Forall at_midnight (rows (table s1)))
      by (apply Forall_filter; exact Ht).
    pose proof (for_of_create_Forall at_midnight f restore_data
                  (fun r => r) (records backup) (undo_creates_one _ _)
                  (fun x i Hx => proj1 (Forall_forall _ _) Hb x Hx)
                  [] s1 Hk) as H1.
    destruct (for_of_create visitorDefault customersDefault f restore_data
                (fun r => r) (records backup) (undo_creates_one _ _) [] s1)
      as (k & Hkl & Hs & Hr).
    destruct (for_of f _ [] s1) as [[ys|] s2]; cbn [fst snd] in *.
    + split; [exact H1|exact I].
    + split; [exact H1|]. rewrite Hs. cbn [lastImportBackup s1]. exact Hb.
  - pose proof (undo_cases visitorDefault customersDefault s) as Hu.
    rewrite Eb in Hu.
    destruct (undo _ _ s) as [r s']. destruct Hu as [_ ->].
    cbn [snd]. split; [exact Ht|]. rewrite Eb. exact I.
Qed.

End Schema.

(** X7. Every handler that writes keeps the database well formed: ids stay
    unique and below the counter and no two records share a date, after
    POST /api/records, PUT /api/records/:id, the import and its undo,
    whatever they answer; the ids a backup lists stay ids the counter has
    passed. *)
Theorem writers_keep_well_formed
    (visitorDefault customersDefault : number) (tz : Z) (s : State) :
  wf_state s ->
  (forall body,
      wf_table
        (snd (post_records visitorDefault customersDefault body (table s))))
  /\ (forall id body, wf_table (snd (put_records id body (table s))))
  /\ (forall req now,
         wf_state (snd (confirm tz visitorDefault customersDefault req now s)))
  /\ wf_state (snd (undo visitorDefault customersDefault s)).
Proof.
  intros Hs. split; [|split; [|split]].
  - intros body. apply post_records_wf. exact (proj1 Hs).
  - intros i body. destruct (put_records_keeps i body (table s))
      as (Hi & Hd & Hn).
    exact (wf_same_keys _ _ Hi Hd Hn (proj1 Hs)).
  - intros req now. apply confirm_wf. exact Hs.
  - apply undo_wf. exact Hs.
Qed.

Lemma writers_keep_well_formed_witness :
  wf_state state0
  /\ wf_table (snd (post_records 0 0 body_jan6 (table state0)))
  /\ wf_state (snd (confirm gmt8 0 0 (request file_one) now0 state0)).
Proof.
  split; [exact state0_wf|].
  destruct (writers_keep_well_formed 0 0 gmt8 state0 state0_wf)
    as (Hpost & _ & Hconfirm & _).
  split; [apply Hpost|apply Hconfirm].
Defined.

(** X8. Every stored record has total sale >= GMV sale >= live sale and
    GMV ads spend >= live ads spend, whichever handler wrote it: POST and
    PUT refuse other bodies, the import skips other rows, and the undo
    restores only records that were stored. *)
Theorem writers_keep_sales_consistent
    (visitorDefault customersDefault : number) (tz : Z) (s : State) :
  consistent_state s ->
  (forall body,
      consistent_table
        (snd (post_records visitorDefault customersDefault body (table s))))
  /\ (forall id body, consistent_table (snd (put_records id body (table s))))
  /\ (forall req now,
         consistent_state
           (snd (confirm tz visitorDefault customersDefault req now s)))
  /\ consistent_state (snd (undo visitorDefault customersDefault s)).
Proof.
  intros Hs. split; [|split; [|split]].
  - intros body. apply post_records_consistent. exact (proj1 Hs).
  - intros i body. apply put_records_consistent. exact (proj1 Hs).
  - intros req now. apply confirm_consistent. exact Hs.
  - apply undo_consistent. exact Hs.
Qed.

Lemma state0_consistent : consistent_state state0.
Proof.
  split; [|exact I]. constructor; [|constructor].
  repeat split; vm_compute; reflexivity.
Defined.

Lemma writers_keep_sales_consistent_witness :
  consistent_state state0
  /\ consistent_state (snd (confirm gmt8 0 0 (request file_one) now0 state0))
  /\ consistent_state (snd (undo 0 0 imported_state)).
Proof.
  split; [exact state0_consistent|].
  destruct (writers_keep_sales_consistent 0 0 gmt8 state0 state0_consistent)
    as (_ & _ & Hconfirm & _).
  split; [apply Hconfirm|].
  destruct (writers_keep_sales_consistent 0 0 gmt8 imported_state
              (Hconfirm (request file_one) now0)) as (_ & _ & _ & Hundo).
  exact Hundo.
Defined.

(** X9. Every stored date is midnight UTC, whichever handler wrote it:
    POST normalizes the date it is given, PUT leaves dates alone, the
    import stores what [Date.UTC] returns, and the undo restores dates
    that were stored. *)
Theorem writers_store_midnight
    (visitorDefault customersDefault : number) (tz : Z) (s : State) :
  midnight_state s ->
  (forall body,
      midnight_table
        (snd (post_records visitorDefault customersDefault body (table s))))
  /\ (forall id body, midnight_table (snd (put_records id body (table s))))
  /\ (forall req now,
         midnight_state
           (snd (confirm tz visitorDefault customersDefault req now s)))
  /\ midnight_state (snd (undo visitorDefault customersDefault s)).
Proof.
  intros Hs. split; [|split; [|split]].
  - intros body. apply post_records_midnight. exact (proj1 Hs).
  - intros i body. apply put_records_midnight. exact (proj1 Hs).
  - intros req now. apply confirm_midnight. exact Hs.
  - apply undo_midnight. exact Hs.
Qed.

Lemma state0_midnight : midnight_state state0.
Proof.
  split; [|exact I]. constructor; [|constructor]. vm_compute. reflexivity.
Defined.

Lemma writers_store_midnight_witness :
  midnight_state state0
  /\ midnight_table (snd (post_records 0 0 body_jan6 (table state0)))
  /\ midnight_state (snd (confirm gmt8 0 0 (request file_one) now0 state0)).
Proof.
  split; [exact state0_midnight|].
  destruct (writers_store_midnight 0 0 gmt8 state0 state0_midnight)
    as (Hpost & _ & Hconfirm & _).
  split; [apply Hpost|apply Hconfirm].
Defined.

(** X10. GET /api/import/undo-status agrees with the undo: it reports an
    undo as available exactly when POST /api/import/undo would not answer
    that there is no import to undo, and then names the month and the
    time of the import the undo would revert. *)
Theorem undo_status_tells_undo
    (visitorDefault customersDefault : number) (s : State) :
  (UndoStatus.available (UndoStatus.undo_status s) = false
   <-> undo visitorDefault customersDefault s = (no_import_to_undo, s))
  /\ (forall b,
         lastImportBackup s = Some b ->
         UndoStatus.available (UndoStatus.undo_status s) = true
         /\ UndoStatus.timestamp (UndoStatus.undo_status s)
            = Some (timestamp b)
         /\ forall result s',
              undo visitorDefault customersDefault s
              = (UndoSuccess result, s') ->
              UndoStatus.month (UndoStatus.undo_status s)
              = Some (u_month result)
              \/ (UndoStatus.month (UndoStatus.undo_status s) = None
                  /\ u_month result = EmptyString)).
Proof.
  pose proof (undo_cases visitorDefault customersDefault s) as Hu.
  unfold UndoStatus.undo_status.
  destruct (lastImportBackup s) as [b|] eqn:Eb.
  - split.
    + cbn [UndoStatus.available]. split; [discriminate|].
      intros H. rewrite H in Hu. exfalso.
      destruct Hu as (k & _ & _ & [(_ & Hr & _)|(_ & Hr & _)]);
        discriminate.
    + intros b' Hb'. injection Hb' as <-.
      cbn [UndoStatus.available UndoStatus.timestamp UndoStatus.month].
      split; [reflexivity|]. split; [reflexivity|].
      intros result s' H. rewrite H in Hu.
      destruct Hu as (k & _ & _ & [(_ & Hr & _)|(_ & Hr & _)]);
        [|discriminate].
      injection Hr as ->. cbn [u_month].
      destruct (BulkImport.month b); [right|left]; auto.
  - split; [|intros b Hb; discriminate].
    cbn [UndoStatus.available]. split; [intros _|reflexivity].
    destruct (undo _ _ s) as [r s']. destruct Hu as [-> ->]. reflexivity.
Qed.

End WriterFacts.

(** ** Saving a record twice, and saving by id *)

Module SaveFacts.
Import JsNumber JsDate Async Async.Notations BulkImport Prisma Formulas
  Records RecordsById Spec TableSpec RecordSpec RequestSpec Scenario
  UpsertFacts ImportFacts TableFacts RecordFacts.

Lemma map_update_idem (i : Z) (u : UpdateData) (l : list DailyRecord) :
  map (fun x => if id x =? i then set_data u x else x)
    (map (fun x => if id x =? i then set_data u x else x) l)
  = map (fun x => if id x =? i then set_data u x else x) l.
Proof.
  rewrite map_map. apply map_ext. intros x.
  destruct (id x =? i) eqn:E; [|rewrite E; reflexivity].
  cbn [id set_data]. rewrite E. reflexivity.
Qed.

Lemma find_map_same {A} (p : A -> bool) (g : A -> A) (l : list A) :
  (forall x, p (g x) = p x) ->
  find p (map g l) = option_map g (find p l).
Proof.
  intros Hp. induction l as [|x l IH]; [reflexivity|].
  cbn. rewrite Hp. destruct (p x); [reflexivity|exact IH].
Qed.

Lemma find_app_none {A} (p : A -> bool) (l : list A) (x : A) :
  find p l = None -> p x = true -> find p (l ++ [x]) = Some x.
Proof.
  intros Hn Hx. induction l as [|y l IH]; cbn in *.
  - rewrite Hx. reflexivity.
  - destruct (p y); [discriminate|]. exact (IH Hn).
Qed.

Lemma map_id_ext {A} (g : A -> A) (l : list A) :
  (forall x, In x l -> g x = x) -> map g l = l.
Proof.
  intros H. rewrite <- (map_id l) at 2. apply map_ext_in. exact H.
Qed.

(** X11. POST /api/records is idempotent: sending the body a second time
    leaves the table as the first request left it, and answers with the
    same record (as an update). *)
Theorem post_records_idempotent
    (visitorDefault customersDefault : number) (body : Body) (t : Table) :
  ids_below t ->
  let '(response1, t1) :=
    post_records visitorDefault customersDefault body t in
  let '(response2, t2) :=
    post_records visitorDefault customersDefault body t1 in
  t2 = t1
  /\ saved response2 = saved response1
  /\ (saved response1 <> None ->
      exists data, response2 = Records.Success update_ data).
Proof.
  intros Hb.
  pose proof (post_records_cases visitorDefault customersDefault body t)
    as H1.
  destruct (recordSchema_parse body) as [v|] eqn:Ep.
  2:{ rewrite H1.
      pose proof (post_records_cases visitorDefault customersDefault body t)
        as H2.
      rewrite Ep in H2. rewrite H2.
      split; [reflexivity|]. split; [reflexivity|]. intros []. reflexivity. }
  destruct (v_date v) as [date0|] eqn:Ed.
  2:{ rewrite H1.
      pose proof (post_records_cases visitorDefault customersDefault body t)
        as H2.
      rewrite Ep, Ed in H2. rewrite H2.
      split; [reflexivity|]. split; [reflexivity|]. intros []. reflexivity. }
  cbv zeta in H1.
  set (date := setUTCHours0 date0) in *.
  set (window := date_gte_lt date (date + 24 * 60 * 60 * 1000)) in *.
  destruct (find window (rows t)) as [existing|] eqn:Efind.
  - destruct H1 as (y & Ey & ->).
    set (upd := fun x => if id x =? id existing
                         then set_data (v_data v) x else x).
    assert (Et1 : snd (update (id existing) (v_data v) t)
                  = mkTable (map upd (rows t)) (nextId t))
      by (unfold update; rewrite Ey; reflexivity).
    rewrite Et1.
    pose proof (post_records_cases visitorDefault customersDefault body
                  (mkTable (map upd (rows t)) (nextId t))) as H2.
    rewrite Ep, Ed in H2. cbv zeta in H2. fold date window in H2.
    cbn [rows] in H2.
    assert (Ew : forall x, window (upd x) = window x).
    { intros x. unfold upd. destruct (id x =? id existing); reflexivity. }
    rewrite (find_map_same window upd (rows t) Ew), Efind in H2.
    cbn [option_map] in H2.
    assert (Eid : id (upd existing) = id existing).
    { unfold upd. destruct (id existing =? id existing); reflexivity. }
    rewrite Eid in H2.
    destruct H2 as (y2 & Ey2 & ->).
    assert (Ei : forall x, (id (upd x) =? id existing) = (id x =? id existing)).
    { intros x. unfold upd.
      destruct (id x =? id existing) eqn:E; cbn [id set_data]; rewrite E;
        reflexivity. }
    rewrite (find_map_same _ upd (rows t) Ei), Ey in Ey2.
    cbn [option_map] in Ey2. injection Ey2 as <-.
    assert (Ey' : (id y =? id existing) = true).
    { apply find_some in Ey as [_ Hy]. exact Hy. }
    unfold update. cbn [rows nextId].
    rewrite (find_map_same _ upd (rows t) Ei), Ey. cbn [option_map snd].
    fold upd. unfold upd at 1 2. rewrite map_update_idem. fold upd.
    split; [reflexivity|].
    unfold upd at 1. rewrite Ey'. cbn [saved].
    split; [reflexivity|]. intros _. eexists. reflexivity.
  - rewrite H1.
    set (d := create_data date (v_data v)).
    set (new := new_row visitorDefault customersDefault (nextId t) d).
    pose proof (post_records_cases visitorDefault customersDefault body
                  (appended visitorDefault customersDefault t [d])) as H2.
    rewrite Ep, Ed in H2. cbv zeta in H2. fold date window in H2.
    unfold appended in H2 at 1. cbn [rows number_rows] in H2. fold new in H2.
    assert (Hw : window new = true).
    { unfold window, date_gte_lt, new, d. cbn.
      apply andb_true_iff. rewrite Z.leb_le, Z.ltb_lt. lia. }
    rewrite (find_app_none window (rows t) new Efind Hw) in H2.
    destruct H2 as (y2 & Ey2 & ->).
    assert (Hnone : find (fun r => id r =? id new) (rows t) = None).
    { destruct (find (fun r => id r =? id new) (rows t)) as [z|] eqn:E;
        [|reflexivity].
      apply find_some in E as [Hz Hi]. apply Z.eqb_eq in Hi.
      pose proof (proj1 (Forall_forall _ _) Hb z Hz). cbn in *. lia. }
    assert (Hfound : find (fun r => id r =? id new) (rows t ++ [new])
                     = Some new).
    { apply find_app_none; [exact Hnone|]. apply Z.eqb_refl. }
    unfold appended in Ey2. cbn [rows number_rows] in Ey2. fold new in Ey2.
    rewrite Hfound in Ey2. injection Ey2 as <-.
    assert (Hset : set_data (v_data v) new = new) by reflexivity.
    rewrite Hset.
    split.
    + unfold update, appended. cbn [rows nextId number_rows]. fold new.
      rewrite Hfound. cbn [snd]. f_equal.
      apply map_id_ext. intros x Hx.
      destruct (id x =? id new) eqn:E; [|reflexivity].
      apply in_app_or in Hx as [Hx|[<-|[]]]; [|exact Hset].
      exfalso. apply Z.eqb_eq in E.
      pose proof (proj1 (Forall_forall _ _) Hb x Hx). cbn in *. lia.
    + split; [reflexivity|]. intros _. eexists. reflexivity.
Qed.

Lemma post_records_idempotent_witness :
  ids_below table0
  /\ (let '(response1, t1) := post_records 0 0 body_jan6 table0 in
      let '(response2, t2) := post_records 0 0 body_jan6 t1 in
      t2 = t1
      /\ saved response2 = saved response1
      /\ (saved response1 <> None ->
          exists data, response2 = Records.Success update_ data)).
Proof.
  assert (H : ids_below table0) by (constructor; [cbn; lia|constructor]).
  split; [exact H|].
  exact (post_records_idempotent 0 0 body_jan6 table0 H).
Defined.

(** X12. PUT /api/records/:id changes a record in place: the ids and the
    dates of the table and its counter stay as they were, a record with
    another id is left alone, and the date sent in the body is never
    used: any other date string gives the same answer and the same
    table. *)
Theorem put_records_in_place (i : option Z) (body : Body) (t : Table) :
  let '(response, t') := put_records i body t in
  map id (rows t') = map id (rows t)
  /\ map date (rows t') = map date (rows t)
  /\ nextId t' = nextId t
  /\ (forall r, In r (rows t) -> Some (id r) <> i -> In r (rows t'))
  /\ (forall d d',
         b_date body = DateString d ->
         put_records i (with_date (DateString d') body) t = (response, t')).
Proof.
  pose proof (put_records_keeps i body t) as (Hi & Hd & Hn).
  destruct (put_records i body t) as [response t'] eqn:E. cbn [snd] in *.
  split; [exact Hi|]. split; [exact Hd|]. split; [exact Hn|]. split.
  - intros r Hr Hne. unfold put_records in E.
    destruct i as [i|]; [|injection E as _ <-; exact Hr].
    destruct (recordSchema_parse body) as [v|];
      [|injection E as _ <-; exact Hr].
    unfold update in E.
    destruct (find _ (rows t)); injection E as _ <-; [|exact Hr].
    cbn [rows]. apply in_map_iff. exists r. split; [|exact Hr].
    cbv beta. destruct (Z.eqb_spec (id r) i) as [He|_]; [|reflexivity].
    exfalso. apply Hne. rewrite He. reflexivity.
  - intros d d' Hdate. rewrite <- E. unfold put_records.
    destruct i as [i|]; [|reflexivity].
    assert (Hp : recordSchema_parse (with_date (DateString d') body)
                 = option_map (fun v => mkValidated d' (v_data v))
                     (recordSchema_parse body)).
    { unfold recordSchema_parse, with_date. rewrite Hdate. cbn.
      repeat match goal with
             | |- context [match ?o with Some _ => _ | None => _ end] =>
                 match o with
                 | context [match _ with Some _ => _ | None => _ end] => fail 1
                 | _ => destruct o; try reflexivity
                 end
             end.
      match goal with |- context [if ?c then _ else _] => destruct c end;
        reflexivity. }
    rewrite Hp. destruct (recordSchema_parse body) as [v|]; reflexivity.
Qed.

End SaveFacts.

(** ** Printing and reading dates *)

Module StringFacts.
Import JsNumber JsDate BulkImport Template NumeralSpec.

Lemma digit_cases (d : Z) :
  0 <= d < 10 ->
  d = 0 \/ d = 1 \/ d = 2 \/ d = 3 \/ d = 4 \/ d = 5 \/ d = 6 \/ d = 7
  \/ d = 8 \/ d = 9.
Proof. lia. Qed.

Ltac each_digit H :=
  apply digit_cases in H;
  repeat (destruct H as [->|H]; [|]); [..|subst].

Lemma digit_value_digit_char (d : Z) :
  0 <= d < 10 -> digit_value 10 (digit_char d) = Some d.
Proof. intros H. each_digit H; reflexivity. Qed.

Lemma digits_numeral_acc (s : string) :
  numeral s -> digits 10 s (Some 0) = digits 10 s None.
Proof.
  intros H. destruct H as [d Hd|d s Hd Hs]; cbn [digits];
    rewrite (digit_value_digit_char d Hd); reflexivity.
Qed.

(** [parseInt] reads a numeral as its digits say. *)
Lemma parseInt_numeral (s : string) :
  numeral s -> parseInt s = digits 10 s None.
Proof.
  intros H. destruct H as [d Hd|d s Hd Hs].
  - each_digit Hd; reflexivity.
  - destruct Hs as [d2 Hd2|d2 s Hd2 Hs].
    + assert (H0 : forall r,
                 parseInt (String (digit_char d) (String (digit_char d2) r))
                 = match digits 10
                           (String (digit_char d) (String (digit_char d2) r))
                           None with
                   | Some n => Some (1 * n)
                   | None => None
                   end).
      { intros r. each_digit Hd; each_digit Hd2; reflexivity. }
      rewrite H0.
      destruct (digits 10 _ None) as [n|]; [|reflexivity].
      f_equal. lia.
    + assert (H0 : forall r,
                 parseInt (String (digit_char d) (String (digit_char d2) r))
                 = match digits 10
                           (String (digit_char d) (String (digit_char d2) r))
                           None with
                   | Some n => Some (1 * n)
                   | None => None
                   end).
      { intros r. each_digit Hd; each_digit Hd2; reflexivity. }
      rewrite H0.
      destruct (digits 10 _ None) as [n|]; [|reflexivity].
      f_equal. lia.
Qed.

(** A numeral holds no slash. *)
Lemma split_numeral (s : string) :
  numeral s -> split "/" s = [s].
Proof.
  induction 1 as [d Hd|d s Hd Hs IH].
  - each_digit Hd; reflexivity.
  - cbn [split]. rewrite IH. each_digit Hd; reflexivity.
Qed.

Lemma split_numeral_slash (s t : string) :
  numeral s -> split "/" (s ++ String "/" t) = s :: split "/" t.
Proof.
  induction 1 as [d Hd|d s Hd Hs IH].
  - cbn [append split]. each_digit Hd; reflexivity.
  - cbn [append split]. rewrite IH. each_digit Hd; reflexivity.
Qed.

Lemma decimal_S (fuel : nat) (n : Z) (acc : string) :
  decimal (S fuel) n acc
  = if n <? 10 then String (digit_char (n mod 10)) acc
    else decimal fuel (n / 10) (String (digit_char (n mod 10)) acc).
Proof. reflexivity. Qed.

(** [decimal] writes a numeral that reads back as the number. *)
Lemma decimal_numeral (fuel : nat) :
  forall n acc,
    0 <= n < 2 ^ Z.of_nat (S fuel) ->
    acc = EmptyString \/ numeral acc ->
    numeral (decimal (S fuel) n acc)
    /\ digits 10 (decimal (S fuel) n acc) None = digits 10 acc (Some n).
Proof.
  induction fuel as [|fuel IH]; intros n acc Hn Hacc;
    rewrite decimal_S;
    assert (Hd : 0 <= n mod 10 < 10) by (apply Z.mod_pos_bound; lia);
    assert (Hnum : numeral (String (digit_char (n mod 10)) acc))
      by (destruct Hacc as [->|Hacc];
          [apply numeral_digit|apply numeral_more]; assumption);
    destruct (Z.ltb_spec n 10) as [Hlt|Hge].
  - split; [exact Hnum|]. cbn [digits].
    rewrite (digit_value_digit_char _ Hd). rewrite Z.mod_small by lia.
    reflexivity.
  - exfalso. cbn in Hn. lia.
  - split; [exact Hnum|]. cbn [digits].
    rewrite (digit_value_digit_char _ Hd). rewrite Z.mod_small by lia.
    reflexivity.
  - assert (Hq : 0 <= n / 10 < 2 ^ Z.of_nat (S fuel)).
    { split; [apply Z.div_pos; lia|].
      rewrite (Nat2Z.inj_succ (S fuel)), Z.pow_succ_r in Hn by lia.
      apply Z.div_lt_upper_bound; lia. }
    destruct (IH (n / 10) _ Hq (or_intror Hnum)) as [H1 H2].
    split; [exact H1|]. rewrite H2. cbn [digits].
    rewrite (digit_value_digit_char _ Hd). do 2 f_equal.
    pose proof (Z.div_mod n 10). lia.
Qed.

(** [toString] of a natural number is a numeral that [parseInt] reads
    back. *)
Lemma toString_numeral (n : Z) :
  0 <= n -> numeral (toString n) /\ parseInt (toString n) = Some n.
Proof.
  intros Hn. unfold toString.
  destruct (Z.ltb_spec n 0) as [Hneg|_]; [lia|].
  assert (Hb : 0 <= n < 2 ^ Z.of_nat (S (Z.to_nat (Z.log2 n)))).
  { split; [exact Hn|].
    rewrite Nat2Z.inj_succ, Z2Nat.id by apply Z.log2_nonneg.
    destruct (Z.eq_dec n 0) as [->|Hne]; [cbn; lia|].
    apply Z.log2_spec. lia. }
  destruct (decimal_numeral _ n EmptyString Hb (or_introl eq_refl))
    as [H1 H2].
  split; [exact H1|]. rewrite (parseInt_numeral _ H1), H2. reflexivity.
Qed.

Lemma padStart2_numeral (s : string) :
  numeral s ->
  numeral (padStart2 s) /\ parseInt (padStart2 s) = parseInt s.
Proof.
  intros H. destruct H as [d Hd|d s Hd Hs].
  - cbn [padStart2]. split.
    + apply (numeral_more 0); [lia|]. apply numeral_digit. exact Hd.
    + each_digit Hd; reflexivity.
  - assert (E : padStart2 (String (digit_char d) s) = String (digit_char d) s)
      by (destruct Hs; reflexivity).
    rewrite E. split; [|reflexivity]. apply numeral_more; assumption.
Qed.

(** What the template prints for a date, [parseExcelDate] reads back as
    the numbers printed. *)
Lemma parseExcelDate_dateStr (year monthNum day : Z) :
  0 <= year -> 0 <= monthNum -> 0 <= day ->
  parseExcelDate (CStr (dateStr year monthNum day))
  = Some (Date_UTC year (monthNum - 1) day).
Proof.
  intros Hy Hm Hd.
  destruct (toString_numeral year Hy) as [Ny Py].
  destruct (toString_numeral monthNum Hm) as [Nm Pm].
  destruct (toString_numeral day Hd) as [Nd Pd].
  destruct (padStart2_numeral _ Nm) as [Nm2 Pm2].
  destruct (padStart2_numeral _ Nd) as [Nd2 Pd2].
  unfold parseExcelDate, dateStr.
  replace (cell_truthy (CStr _)) with true
    by (destruct Nd2; reflexivity).
  cbn [negb].
  change ("/" ++ ?x)%string with (String "/" x).
  rewrite (split_numeral_slash _ _ Nd2).
  change (String "/" (toString year)) with ("/" ++ toString year)%string.
  change ("/" ++ ?x)%string with (String "/" x).
  rewrite (split_numeral_slash _ _ Nm2), (split_numeral _ Ny).
  rewrite Pd2, Pd, Pm2, Pm, Py. reflexivity.
Qed.

End StringFacts.

(** ** The template and the import *)

Module TemplateFacts.
Import JsNumber JsDate Async Async.Notations BulkImport Prisma Template Spec
  CalendarSpec NumeralSpec PreviewSpec Scenario DateFacts CalendarFacts
  ValidationFacts StringFacts PreviewFacts.

Lemma first_of_month_bounds (y m : Z) :
  100 <= y <= 9999 -> 1 <= m <= 12 ->
  -700000 <= first_of_month y m <= 3000000.
Proof.
  intros Hy Hm. unfold first_of_month, days_from_civil.
  assert (Hc : m = 1 \/ m = 2 \/ m = 3 \/ m = 4 \/ m = 5 \/ m = 6 \/ m = 7
               \/ m = 8 \/ m = 9 \/ m = 10 \/ m = 11 \/ m = 12) by lia.
  repeat (destruct Hc as [->|Hc]; [cbn; Z.div_mod_to_equations; lia|]).
  subst m. cbn. Z.div_mod_to_equations. lia.
Qed.

Lemma next_month_range (y m : Z) :
  100 <= y <= 9999 -> 1 <= m <= 12 ->
  let '(y', m') := next_month y m in
  100 <= y' <= 10000 /\ 1 <= m' <= 12.
Proof.
  intros Hy Hm. unfold next_month. destruct (Z.eqb_spec m 12); lia.
Qed.

Lemma days_in_month_le_31 (y m : Z) :
  1 <= m <= 12 -> days_in_month y m <= 31.
Proof.
  intros Hm. unfold days_in_month, next_month, first_of_month.
  assert (Hc : m = 1 \/ m = 2 \/ m = 3 \/ m = 4 \/ m = 5 \/ m = 6 \/ m = 7
               \/ m = 8 \/ m = 9 \/ m = 10 \/ m = 11 \/ m = 12) by lia.
  unfold days_from_civil.
  repeat (destruct Hc as [->|Hc]; [cbn; Z.div_mod_to_equations; lia|]).
  subst m. cbn. Z.div_mod_to_equations. lia.
Qed.

Lemma fullYear_id (y : Z) : ~ (0 <= y <= 99) -> fullYear y = y.
Proof.
  intros Hy. unfold fullYear.
  destruct (Z.leb_spec 0 y); destruct (Z.leb_spec y 99); cbn; lia.
Qed.

(** [Date.UTC] of a date of the years 100 to 9999 is midnight UTC of its
    day. *)
Lemma Date_UTC_civil (y m d : Z) :
  100 <= y <= 9999 -> 1 <= m <= 12 -> -1000000 <= d <= 1000000 ->
  Date_UTC y (m - 1) d = Some ((first_of_month y m + d - 1) * msPerDay).
Proof.
  intros Hy Hm Hd. unfold Date_UTC, TimeClip.
  rewrite fullYear_id by lia. rewrite (MakeDay_month y m d Hm).
  pose proof (first_of_month_bounds y m Hy Hm) as Hb.
  destruct (Z.leb_spec (Z.abs ((first_of_month y m + d - 1) * msPerDay))
              8640000000000000) as [_|Hgt]; [reflexivity|].
  unfold msPerDay in Hgt. lia.
Qed.

Section Zone.
Variable tz : Z.
Hypothesis tz_east : 0 <= tz < msPerDay.

Lemma Day_local_midnight (z : Z) : Day (LocalTime tz (z * msPerDay)) = z.
Proof.
  unfold Day, LocalTime, msPerDay in *.
  symmetry. apply (Z.div_unique_pos _ _ _ tz); lia.
Qed.

(** A date of month [m] of year [y] at midnight UTC is in that month for
    the server; a day number outside [1 .. days_in_month] is not. *)
Lemma month_mismatch_civil (month : Month) (d : Z) :
  100 <= targetYear month <= 9999 -> 1 <= targetMonth month <= 12 ->
  -1000000 <= d <= 1000000 ->
  month_mismatch tz month
    (Date_UTC (targetYear month) (targetMonth month - 1) d)
  = negb ((1 <=? d)
          && (d <=? days_in_month (targetYear month) (targetMonth month))).
Proof.
  intros Hy Hm Hd. rewrite (Date_UTC_civil _ _ d Hy Hm Hd).
  set (y := targetYear month) in *. set (m := targetMonth month) in *.
  unfold month_mismatch, getMonth, getFullYear.
  rewrite Day_local_midnight.
  destruct (civil_from_days (first_of_month y m + d - 1))
    as [[y2 m2] d2] eqn:E.
  destruct ((1 <=? d) && (d <=? days_in_month y m)) eqn:Ein.
  - apply andb_true_iff in Ein as [H1 H2].
    apply Z.leb_le in H1, H2.
    assert (Hz : days_from_civil y m d = first_of_month y m + d - 1)
      by (unfold first_of_month, days_from_civil; cbv zeta; lia).
    rewrite <- Hz, (civil_from_days_of_civil y m d Hm (conj H1 H2)) in E.
    injection E as <- <- <-. fold y m.
    replace (m - 1 + 1) with m by lia. rewrite !Z.eqb_refl. reflexivity.
  - cbn [negb]. apply orb_true_iff. fold y m.
    destruct (Z.eqb_spec (m2 - 1 + 1) m) as [Em|Em]; [|left; reflexivity].
    destruct (Z.eqb_spec y2 y) as [Ey|Ey]; [|right; reflexivity].
    exfalso. assert (m2 = m) by lia. subst m2 y2.
    destruct (civil_from_days_month _ _ _ _ E) as (_ & _ & Hlo & Hhi).
    unfold days_in_month in Ein. destruct (next_month y m) as [y' m'].
    apply andb_false_iff in Ein as [H|H];
      [apply Z.leb_gt in H|apply Z.leb_gt in H]; lia.
Qed.

(** X13. The dates of the template are read back as the dates they print:
    for a day [d] of month [m] of a year [y] of 100 to 9999, the import
    reads the cell DD/MM/YYYY as midnight UTC of that day, which for a
    server on or east of Greenwich is a date of month [m] of year [y]. *)
Theorem template_date_round_trip (y m d : Z) :
  100 <= y <= 9999 -> 1 <= m <= 12 -> 1 <= d <= days_in_month y m ->
  exists t,
    parseExcelDate (CStr (dateStr y m d)) = Some (Some t)
    /\ t = days_from_civil y m d * msPerDay
    /\ civil_from_days (Day t) = (y, m, d)
    /\ (getFullYear tz t, getMonth tz t + 1, getDate tz t) = (y, m, d).
Proof.
  intros Hy Hm Hd.
  pose proof (days_in_month_le_31 y m Hm) as H31.
  exists (days_from_civil y m d * msPerDay).
  rewrite parseExcelDate_dateStr by lia.
  rewrite (Date_UTC_civil y m d Hy Hm) by lia.
  assert (Hz : days_from_civil y m d = first_of_month y m + d - 1)
    by (unfold first_of_month, days_from_civil; cbv zeta; lia).
  rewrite <- Hz. split; [reflexivity|]. split; [reflexivity|].
  assert (HD : Day (days_from_civil y m d * msPerDay) = days_from_civil y m d)
    by (unfold Day, msPerDay; apply Z.div_mul; lia).
  rewrite HD, (civil_from_days_of_civil y m d Hm Hd).
  split; [reflexivity|].
  unfold getFullYear, getMonth, getDate.
  rewrite Day_local_midnight, (civil_from_days_of_civil y m d Hm Hd).
  f_equal. f_equal. lia.
Qed.

(** [daysInMonth] of the template handler. *)
Lemma template_daysInMonth (y m : Z) :
  100 <= y <= 9999 -> 1 <= m <= 12 ->
  exists lastDay,
    new_Date tz y m 0 = Some lastDay
    /\ getDate tz lastDay = days_in_month y m.
Proof.
  intros Hy Hm. unfold new_Date, TimeClip.
  rewrite fullYear_id by lia.
  assert (H0 : MakeDay y m 0 = MakeDay y m 1 - 1)
    by (unfold MakeDay; cbv zeta; lia).
  rewrite H0, (MakeDay_next_month y m Hm).
  pose proof (days_in_month_ge_28 y m Hm) as H28.
  pose proof (first_of_month_bounds y m Hy Hm) as Hb.
  pose proof (days_in_month_le_31 y m Hm) as H31.
  assert (Hn : (let '(y', m') := next_month y m in first_of_month y' m')
               = first_of_month y m + days_in_month y m).
  { unfold days_in_month. destruct (next_month y m). lia. }
  rewrite Hn.
  set (z := first_of_month y m + days_in_month y m - 1).
  destruct (Z.leb_spec (Z.abs (UTC tz (z * msPerDay))) 8640000000000000)
    as [_|Hgt].
  - eexists. split; [reflexivity|].
    unfold getDate, LocalTime, UTC.
    replace (z * msPerDay - tz + tz) with (z * msPerDay) by lia.
    replace (Day (z * msPerDay)) with z
      by (unfold Day, msPerDay; symmetry; apply Z.div_mul; lia).
    assert (Hz : days_from_civil y m (days_in_month y m) = z)
      by (unfold z, first_of_month, days_from_civil; cbv zeta; lia).
    rewrite <- Hz, (civil_from_days_of_civil y m _ Hm) by lia.
    reflexivity.
  - exfalso. unfold UTC, msPerDay, z in *. lia.
Qed.

Lemma NoDup_map_inj {A B} (f : A -> B) (l : list A) :
  (forall x y, f x = f y -> x = y) -> NoDup l -> NoDup (map f l).
Proof.
  intros Hf Hl. induction Hl as [|x l Hx _ IH]; cbn; constructor.
  - intros Hin. apply in_map_iff in Hin as (y & Hy & Hyin).
    apply Hf in Hy. subst y. exact (Hx Hyin).
  - exact IH.
Qed.

Lemma In_days (n d : Z) : In d (days n) <-> 1 <= d <= n.
Proof.
  unfold days. rewrite in_map_iff. split.
  - intros (k & <- & Hk). apply in_seq in Hk. lia.
  - intros H. exists (Z.to_nat d). split; [lia|]. apply in_seq. lia.
Qed.

Lemma NoDup_days (n : Z) : NoDup (days n).
Proof.
  unfold days. apply NoDup_map_inj; [|apply seq_NoDup].
  intros a b. apply Nat2Z.inj.
Qed.

Lemma dateStr_truthy (y m d : Z) :
  0 <= d -> cell_truthy (CStr (dateStr y m d)) = true.
Proof.
  intros Hd. destruct (toString_numeral d Hd) as [Nd _].
  destruct (padStart2_numeral _ Nd) as [Nd2 _].
  unfold dateStr. destruct Nd2; reflexivity.
Qed.

(** The row of the template for a day of the month, as the preview reads
    it. *)
Lemma preview_row_dayRow (month : Month) (d : Z) :
  100 <= targetYear month <= 9999 -> 1 <= targetMonth month <= 12 ->
  1 <= d <= days_in_month (targetYear month) (targetMonth month) ->
  preview_row tz month
    (dayRow (dateStr (targetYear month) (targetMonth month) d))
  = inl (mkParsedRow
           ((first_of_month (targetYear month) (targetMonth month) + d - 1)
            * msPerDay)
           0 0 0 0 0 0 0 0 0).
Proof.
  intros Hy Hm Hd.
  pose proof (days_in_month_le_31 (targetYear month) _ Hm) as H31.
  assert (Hr : -1000000 <= d <= 1000000) by lia.
  pose proof (month_mismatch_civil month d Hy Hm Hr) as Hmm.
  unfold preview_row. cbn [dayRow cell0].
  rewrite parseExcelDate_dateStr by lia.
  rewrite (Date_UTC_civil _ _ d Hy Hm Hr) in *.
  rewrite Hmm.
  replace ((1 <=? d)
           && (d <=? days_in_month (targetYear month) (targetMonth month)))
    with true by (symmetry; apply andb_true_iff; rewrite !Z.leb_le; lia).
  reflexivity.
Qed.

Lemma preview_rows_all_valid (month : Month) (rows : list SheetRow)
    (rs : list ParsedRow) :
  Forall2 (fun row r => preview_row tz month row = inl r) rows rs ->
  forall index validRows invalidRows,
    preview_rows tz month rows index validRows invalidRows
    = (validRows ++ rs, invalidRows).
Proof.
  induction 1 as [|row r rows rs Hrow _ IH];
    intros index validRows invalidRows.
  - cbn. rewrite app_nil_r. reflexivity.
  - cbn [preview_rows]. rewrite Hrow, IH, <- app_assoc. reflexivity.
Qed.

Lemma duplicate_dates_NoDup (validRows : list ParsedRow) :
  forall index dateSet invalidRows,
    NoDup (valid_dates validRows) ->
    (forall k, In k (valid_dates validRows) -> ~ In k dateSet) ->
    duplicate_dates validRows index dateSet invalidRows = invalidRows.
Proof.
  induction validRows as [|r rest IH]; intros index dateSet invalidRows Hnd Hs;
    [reflexivity|].
  cbn [duplicate_dates]. cbn [valid_dates map] in Hnd, Hs.
  apply NoDup_cons_iff in Hnd as [Hr Hnd].
  destruct (existsb _ dateSet) eqn:E.
  - exfalso. apply existsb_eqb_In in E.
    exact (Hs _ (or_introl eq_refl) E).
  - apply IH; [exact Hnd|]. intros k Hk [<-|Hin].
    + exact (Hr Hk).
    + exact (Hs k (or_intror Hk) Hin).
Qed.

Lemma month_bounds_some (month : Month) :
  100 <= targetYear month <= 9999 -> 1 <= targetMonth month <= 12 ->
  exists startDate endDate,
    new_Date tz (targetYear month) (targetMonth month - 1) 1 = Some startDate
    /\ new_Date tz (targetYear month) (targetMonth month) 1 = Some endDate.
Proof.
  intros Hy Hm. unfold new_Date, TimeClip.
  rewrite fullYear_id by lia.
  rewrite (MakeDay_month _ _ 1 Hm), (MakeDay_next_month _ _ Hm).
  pose proof (first_of_month_bounds _ _ Hy Hm) as Hb.
  pose proof (days_in_month_le_31 (targetYear month) _ Hm) as H31.
  pose proof (days_in_month_ge_28 (targetYear month) _ Hm) as H28.
  unfold days_in_month in H31, H28.
  destruct (next_month (targetYear month) (targetMonth month)) as [y' m'].
  unfold UTC, msPerDay in *.
  do 2 eexists.
  split; (match goal with
          | |- (if ?c then _ else _) = _ => destruct c eqn:E
          end; [reflexivity|apply Z.leb_gt in E; lia]).
Qed.

(** X14. The template of a month, uploaded as it was downloaded, previews
    without an error: one row for every day of the month, all of them
    valid, for a server on or east of Greenwich and a year of 100 to
    9999. *)
Theorem template_previews_clean (month : Month) (s : State) :
  100 <= targetYear month <= 9999 -> 1 <= targetMonth month <= 12 ->
  exists p,
    preview tz (mkRequest (Some month) (Some (templateData tz (Some month))))
      s
    = (PreviewSuccess p, s)
    /\ Z.of_nat (totalRowsInFile p)
       = days_in_month (targetYear month) (targetMonth month)
    /\ validRows p = totalRowsInFile p
    /\ invalidRows p = 0%nat
    /\ errors p = [].
Proof.
  intros Hy Hm.
  set (y := targetYear month) in *. set (m := targetMonth month) in *.
  destruct (template_daysInMonth y m Hy Hm) as (lastDay & Hnew & Hlast).
  destruct (month_bounds_some month Hy Hm) as (a & b & Ha & Hb).
  pose proof (days_in_month_ge_28 y m Hm) as H28.
  set (rows := map (fun day => dayRow (dateStr y m day))
                 (days (days_in_month y m))).
  assert (Htpl : templateData tz (Some month) = headerRow :: rows).
  { unfold templateData. fold y m. rewrite Hnew, Hlast. reflexivity. }
  assert (Hdata : dataRows (headerRow :: rows) = rows).
  { unfold dataRows. cbn [tl]. apply forallb_filter_id.
    apply forallb_forall. intros row Hrow.
    apply in_map_iff in Hrow as (d & <- & Hd). apply In_days in Hd.
    apply dateStr_truthy. lia. }
  set (parsed := fun day =>
                   mkParsedRow ((first_of_month y m + day - 1) * msPerDay)
                     0 0 0 0 0 0 0 0 0).
  assert (Hvalid : Forall2 (fun row r => preview_row tz month row = inl r)
                     rows (map parsed (days (days_in_month y m)))).
  { unfold rows.
    assert (Hall : forall d, In d (days (days_in_month y m)) ->
                             1 <= d <= days_in_month y m)
      by (intros d; apply In_days).
    revert Hall. generalize (days (days_in_month y m)). intros l.
    induction l as [|d ds IH]; intros Hall; cbn; constructor.
    - apply (preview_row_dayRow month d Hy Hm). apply Hall. left. reflexivity.
    - apply IH. intros d' Hd'. apply Hall. right. exact Hd'. }
  assert (Hkeys : valid_dates (map parsed (days (days_in_month y m)))
                  = map (fun d => first_of_month y m + d - 1)
                      (days (days_in_month y m))).
  { unfold valid_dates. rewrite map_map. apply map_ext. intros d.
    unfold parsed, isoDateKey, Day, msPerDay. cbn [BulkImport.date].
    apply Z.div_mul. lia. }
  assert (Hnd : NoDup (valid_dates (map parsed (days (days_in_month y m))))).
  { rewrite Hkeys. apply NoDup_map_inj; [|apply NoDup_days].
    intros d d' H. lia. }
  unfold preview, try_catch, preview_body. cbn [req_month req_file].
  rewrite Htpl, Hdata.
  rewrite (preview_rows_all_valid month rows _ Hvalid). cbn [app].
  rewrite (duplicate_dates_NoDup _ 0 [] [] Hnd) by (intros k _ []).
  unfold month_range. rewrite Ha, Hb.
  unfold bind, ret, on_table, zoom, count. cbn [fst snd].
  eexists. split; [destruct s; reflexivity|].
  cbn [totalRowsInFile validRows invalidRows errors List.length].
  unfold rows. rewrite !length_map. unfold days.
  rewrite length_map, length_seq.
  repeat split. lia.
Qed.

(** X15. On a server on or east of Greenwich and for a month of a year
    of 100 to 9999, a day number outside the month is not an invalid date
    for the import: a cell DD/MM/YYYY of that month and year whose day is
    0, or lies beyond the last day of the month (up to 1000000), is read
    as a date of another month, so the preview reports the row as not
    matching the selected month and the import skips it. *)
Theorem day_outside_month_rejected (month : Month) (d : Z) (row : SheetRow) :
  100 <= targetYear month <= 9999 -> 1 <= targetMonth month <= 12 ->
  0 <= d <= 1000000 ->
  ~ (1 <= d <= days_in_month (targetYear month) (targetMonth month)) ->
  cell0 row = CStr (dateStr (targetYear month) (targetMonth month) d) ->
  preview_row tz month row
  = inr ("Date does not match selected month (" ++ month_string month ++ ")")%string
  /\ confirm_row tz month row = None.
Proof.
  intros Hy Hm Hd Hout Hcell.
  assert (Hr : -1000000 <= d <= 1000000) by lia.
  pose proof (month_mismatch_civil month d Hy Hm Hr) as Hmm.
  unfold preview_row, confirm_row. rewrite Hcell.
  rewrite parseExcelDate_dateStr by lia.
  rewrite (Date_UTC_civil _ _ d Hy Hm Hr) in *. rewrite Hmm.
  replace ((1 <=? d)
           && (d <=? days_in_month (targetYear month) (targetMonth month)))
    with false; [split; reflexivity|].
  symmetry. apply andb_false_iff. rewrite !Z.leb_gt. lia.
Qed.

End Zone.

Lemma gmt8_east : 0 <= gmt8 < msPerDay.
Proof. vm_compute. split; [discriminate|reflexivity]. Defined.

Lemma template_date_round_trip_witness :
  1 <= 5 <= days_in_month 2026 1
  /\ exists t,
       parseExcelDate (CStr (dateStr 2026 1 5)) = Some (Some t)
       /\ t = days_from_civil 2026 1 5 * msPerDay
       /\ civil_from_days (Day t) = (2026, 1, 5)
       /\ (getFullYear gmt8 t, getMonth gmt8 t + 1, getDate gmt8 t)
          = (2026, 1, 5).
Proof.
  assert (Hd : 1 <= 5 <= days_in_month 2026 1)
    by (vm_compute; split; discriminate).
  split; [exact Hd|].
  apply (template_date_round_trip gmt8 gmt8_east 2026 1 5); [lia|lia|].
  exact Hd.
Defined.

Lemma template_previews_clean_witness :
  (100 <= targetYear january <= 9999 /\ 1 <= targetMonth january <= 12)
  /\ exists p,
       preview gmt8
         (mkRequest (Some january) (Some (templateData gmt8 (Some january))))
         state0
       = (PreviewSuccess p, state0)
       /\ Z.of_nat (totalRowsInFile p)
          = days_in_month (targetYear january) (targetMonth january)
       /\ validRows p = totalRowsInFile p
       /\ invalidRows p = 0%nat
       /\ errors p = [].
Proof.
  assert (Hy : 100 <= targetYear january <= 9999) by (cbn; lia).
  assert (Hm : 1 <= targetMonth january <= 12) by (cbn; lia).
  split; [split; assumption|].
  exact (template_previews_clean gmt8 gmt8_east january state0 Hy Hm).
Defined.

Lemma day_outside_month_rejected_witness :
  ~ (1 <= 32 <= days_in_month (targetYear january) (targetMonth january))
  /\ preview_row gmt8 january (dayRow (dateStr 2026 1 32))
     = inr ("Date does not match selected month ("
              ++ month_string january ++ ")")%string
  /\ confirm_row gmt8 january (dayRow (dateStr 2026 1 32)) = None.
Proof.
  assert (Hy : 100 <= targetYear january <= 9999) by (cbn; lia).
  assert (Hm : 1 <= targetMonth january <= 12) by (cbn; lia).
  assert (Hout : ~ (1 <= 32 <= days_in_month (targetYear january)
                                  (targetMonth january)))
    by (vm_compute; intros [_ H]; apply H; reflexivity).
  split; [exact Hout|].
  apply (day_outside_month_rejected gmt8 gmt8_east january 32
           (dayRow (dateStr 2026 1 32)) Hy Hm); [lia|exact Hout|reflexivity].
Defined.

End TemplateFacts.

(** ** The periods of the funnel metrics *)

Module FunnelFacts.
Import JsDate Spec DateFacts PeriodFacts Scenario.

Section Zone.
Variable tz : Z.

Lemma startOfDay_le (n t : Z) : startOfDay tz n <= t <-> n <= localDay tz t.
Proof.
  unfold startOfDay, localDay, UTC, LocalTime, Day, msPerDay.
  pose proof (Z.div_mod (t + tz) 86400000).
  pose proof (Z.mod_pos_bound (t + tz) 86400000). lia.
Qed.

Lemma le_endOfDay (n t : Z) : t <= endOfDay tz n <-> localDay tz t <= n.
Proof.
  unfold endOfDay, localDay, UTC, LocalTime, Day, msPerDay.
  pose proof (Z.div_mod (t + tz) 86400000).
  pose proof (Z.mod_pos_bound (t + tz) 86400000). lia.
Qed.

(** X16. The two periods of GET /api/funnel-metrics, by local calendar day:
    the current one holds the dates from [start] to the end of the day of
    [end]; the previous one holds the dates of the [rangeDays] days before
    the day of [start], where [rangeDays] counts the days from [start] to
    [end]; no date lies in both. *)
Theorem funnel_periods_by_day (start end0 t : Z) :
  let '(cs, ce) := Funnel.current_period tz start end0 in
  let '(ps, pe) := Funnel.previous_period tz start end0 in
  (cs <= t <= ce <-> start <= t /\ localDay tz t <= localDay tz end0)
  /\ (ps <= t <= pe
      <-> localDay tz start - Funnel.rangeDays tz start end0
          <= localDay tz t <= localDay tz start - 1)
  /\ Funnel.rangeDays tz start end0
     = localDay tz end0 - localDay tz start + 1
  /\ ~ (cs <= t <= ce /\ ps <= t <= pe).
Proof.
  unfold Funnel.current_period. rewrite previous_period_spec, setHours_end.
  pose proof (startOfDay_le (localDay tz start
                             - Funnel.rangeDays tz start end0) t) as H1.
  pose proof (le_endOfDay (localDay tz start - 1) t) as H2.
  pose proof (le_endOfDay (localDay tz end0) t) as H3.
  pose proof (le_endOfDay (localDay tz start - 1) start) as H4.
  split; [|split; [|split]].
  - lia.
  - lia.
  - apply rangeDays_spec.
  - lia.
Qed.

Lemma Math_ceil_div_days (k w : Z) :
  0 <= w < msPerDay - 1 ->
  WorkerFunnel.Math_ceil_div (k * msPerDay + (msPerDay - 1 - w))
    (1000 * 60 * 60 * 24)
  = k + 1.
Proof.
  intros Hw. unfold WorkerFunnel.Math_ceil_div, msPerDay in *.
  replace (- (k * 86400000 + (86400000 - 1 - w)))
    with ((w + 1 - 86400000) + (- k) * 86400000) by lia.
  replace (1000 * 60 * 60 * 24) with 86400000 by lia.
  rewrite Z.div_add by lia.
  replace ((w + 1 - 86400000) / 86400000) with (-1); [lia|].
  apply (Z.div_unique_pos _ _ _ (w + 1)); lia.
Qed.

(** The previous period of the worker ends where the server's does and
    begins at the last millisecond of a day. *)
Lemma worker_previous_period_spec (start end0 : Z) :
  WorkerFunnel.previous_period tz start end0
  = (let n := WorkerFunnel.diffDays tz start end0 in
     endOfDay tz (localDay tz start - 1 - (if 0 <? n then n - 1 else 0)),
     endOfDay tz (localDay tz start - 1)).
Proof.
  unfold WorkerFunnel.previous_period. cbv zeta.
  set (n := WorkerFunnel.diffDays tz start end0).
  set (k := if 0 <? n then n - 1 else 0).
  replace (getDate tz start - 1) with (getDate tz start + (-1)) by lia.
  rewrite setDate_getDate, setHours_end, localDay_add_days.
  replace (getDate tz (endOfDay tz (localDay tz start + -1)) - k)
    with (getDate tz (endOfDay tz (localDay tz start + -1)) + (- k)) by lia.
  rewrite setDate_getDate.
  unfold endOfDay, UTC, msPerDay. f_equal; lia.
Qed.

(** X17. The previous period of the worker is a day shorter than the
    server's: for a range of whole days it ends at the same millisecond
    and begins 23:59:59.999 later, at the last millisecond of the first
    day of the server's period, so the dates of that day fall outside
    it. *)
Theorem worker_previous_period_short (start end0 : Z) :
  localDay tz start <= localDay tz end0 ->
  TimeWithinDay (LocalTime tz start) < msPerDay - 1 ->
  let '(ps, pe) := Funnel.previous_period tz start end0 in
  WorkerFunnel.diffDays tz start end0 = Funnel.rangeDays tz start end0
  /\ WorkerFunnel.previous_period tz start end0 = (ps + (msPerDay - 1), pe)
  /\ forall t,
       localDay tz t = localDay tz start - Funnel.rangeDays tz start end0 ->
       t <> ps + (msPerDay - 1) ->
       ps <= t <= pe
       /\ ~ (fst (WorkerFunnel.previous_period tz start end0) <= t).
Proof.
  intros Hle Hw.
  assert (Hn : WorkerFunnel.diffDays tz start end0
               = Funnel.rangeDays tz start end0).
  { rewrite rangeDays_spec. unfold WorkerFunnel.diffDays. cbv zeta.
    rewrite setHours_end.
    set (w := TimeWithinDay (LocalTime tz start)) in *.
    assert (Hw0 : 0 <= w)
      by (unfold w, TimeWithinDay, msPerDay;
          apply Z.mod_pos_bound; lia).
    assert (Hd : endOfDay tz (localDay tz end0) - start
                 = (localDay tz end0 - localDay tz start) * msPerDay
                   + (msPerDay - 1 - w)).
    { generalize (localDay tz end0). intros lde.
      unfold endOfDay, UTC, w, TimeWithinDay, localDay, Day, LocalTime,
        msPerDay.
      pose proof (Z.div_mod (start + tz) 86400000). lia. }
    rewrite Hd.
    rewrite Z.abs_eq by (unfold msPerDay in *; nia).
    rewrite Math_ceil_div_days by lia. lia. }
  rewrite worker_previous_period_spec, previous_period_spec. cbv zeta.
  rewrite Hn.
  pose proof (rangeDays_spec tz start end0) as Hr.
  set (n := Funnel.rangeDays tz start end0) in *.
  replace (0 <? n) with true by (symmetry; apply Z.ltb_lt; lia).
  split; [reflexivity|]. split.
  - unfold endOfDay, startOfDay, UTC, msPerDay. f_equal. lia.
  - intros t Ht Hne. cbn [fst].
    pose proof (startOfDay_le (localDay tz start - n) t) as H1.
    pose proof (le_endOfDay (localDay tz start - 1) t) as H2.
    pose proof (le_endOfDay (localDay tz start - n) t) as H3.
    unfold endOfDay, startOfDay, UTC, msPerDay in *. lia.
Qed.

End Zone.

Lemma worker_previous_period_short_witness :
  localDay gmt8 jan5 <= localDay gmt8 (jan5 + 6 * msPerDay)
  /\ TimeWithinDay (LocalTime gmt8 jan5) < msPerDay - 1
  /\ WorkerFunnel.diffDays gmt8 jan5 (jan5 + 6 * msPerDay) = 7
  /\ Funnel.rangeDays gmt8 jan5 (jan5 + 6 * msPerDay) = 7.
Proof.
  assert (H1 : localDay gmt8 jan5 <= localDay gmt8 (jan5 + 6 * msPerDay))
    by (vm_compute; discriminate).
  assert (H2 : TimeWithinDay (LocalTime gmt8 jan5) < msPerDay - 1)
    by (vm_compute; reflexivity).
  split; [exact H1|]. split; [exact H2|].
  pose proof (worker_previous_period_short gmt8 jan5 (jan5 + 6 * msPerDay)
                H1 H2) as H.
  destruct (Funnel.previous_period gmt8 jan5 (jan5 + 6 * msPerDay))
    as [ps pe].
  destruct H as (H & _). split; [|vm_compute; reflexivity].
  rewrite H. vm_compute. reflexivity.
Defined.

End FunnelFacts.

(** ** Listing and summing the records of a range *)

Module ListingFacts.
Import JsNumber JsDate Prisma Formulas GetRecords Spec CalendarSpec RecordSpec
  ListingSpec Scenario DateFacts CalendarFacts TemplateFacts.

Lemma insert_desc_perm (r : DailyRecord) (l : list DailyRecord) :
  Permutation (insert_desc r l) (r :: l).
Proof.
  induction l as [|x l IH]; cbn; [reflexivity|].
  destruct (date x <=? date r); [reflexivity|].
  rewrite IH. apply perm_swap.
Qed.

Lemma orderBy_date_desc_perm (l : list DailyRecord) :
  Permutation (orderBy_date_desc l) l.
Proof.
  induction l as [|x l IH]; cbn; [reflexivity|].
  rewrite insert_desc_perm. constructor. exact IH.
Qed.

Lemma insert_desc_sorted (r : DailyRecord) (l : list DailyRecord) :
  latest_first l -> latest_first (insert_desc r l).
Proof.
  induction l as [|x l IH]; intros Hl; cbn [insert_desc].
  - cbn. auto.
  - destruct Hl as [Hx Hl].
    destruct (Z.leb_spec (date x) (date r)) as [Hle|Hgt].
    + cbn [latest_first]. split; [|split; assumption].
      constructor; [exact Hle|].
      eapply Forall_impl; [|exact Hx]. cbn. intros b Hb. lia.
    + cbn [latest_first]. split; [|exact (IH Hl)].
      apply Forall_forall. intros b Hb.
      apply (Permutation_in _ (insert_desc_perm r l)) in Hb.
      destruct Hb as [<-|Hb]; [lia|].
      exact (proj1 (Forall_forall _ _) Hx b Hb).
Qed.

Lemma orderBy_date_desc_sorted (l : list DailyRecord) :
  latest_first (orderBy_date_desc l).
Proof.
  induction l as [|x l IH]; cbn [orderBy_date_desc fold_right];
    [exact I|].
  apply insert_desc_sorted. exact IH.
Qed.

(** The dates from the first of a month to the first of the next are the
    dates of that month. *)
Lemma window_in_utc_month (y m : Z) (r : DailyRecord) :
  1 <= m <= 12 ->
  date_gte_lt (first_of_month y m * msPerDay)
    ((first_of_month y m + days_in_month y m) * msPerDay) r
  = in_utc_month y m r.
Proof.
  intros Hm. unfold date_gte_lt, in_utc_month, utc_day.
  set (z := Day (date r)).
  assert (Hlo : first_of_month y m * msPerDay <= date r
                <-> first_of_month y m <= z).
  { unfold z, Day, msPerDay.
    pose proof (Z.div_mod (date r) 86400000).
    pose proof (Z.mod_pos_bound (date r) 86400000). lia. }
  assert (Hhi : date r < (first_of_month y m + days_in_month y m) * msPerDay
                <-> z < first_of_month y m + days_in_month y m).
  { unfold z, Day, msPerDay.
    pose proof (Z.div_mod (date r) 86400000).
    pose proof (Z.mod_pos_bound (date r) 86400000). lia. }
  assert (Hn : (let '(y', m') := next_month y m in first_of_month y' m')
               = first_of_month y m + days_in_month y m).
  { unfold days_in_month. destruct (next_month y m). lia. }
  destruct (civil_from_days z) as [[y2 m2] d2] eqn:E.
  destruct (civil_from_days_month _ _ _ _ E) as (Hm2 & _ & Hlo2 & Hhi2).
  destruct ((y2 =? y) && (m2 =? m)) eqn:Eq.
  - apply andb_true_iff in Eq as [Ey Em].
    apply Z.eqb_eq in Ey, Em. subst y2 m2. rewrite Hn in Hhi2.
    apply andb_true_iff. rewrite Z.leb_le, Z.ltb_lt. lia.
  - apply andb_false_iff.
    destruct (Z.leb_spec (first_of_month y m * msPerDay) (date r))
      as [Hge|Hlt]; [|left; reflexivity].
    destruct (Z.ltb_spec (date r)
                ((first_of_month y m + days_in_month y m) * msPerDay))
      as [Hlt|Hge2]; [|right; reflexivity].
    exfalso. apply Hlo in Hge. apply Hhi in Hlt.
    rewrite (next_month_index y2 m2 Hm2) in Hhi2.
    rewrite <- (first_of_index_month y2 m2 Hm2) in Hlo2.
    rewrite <- Hn, (next_month_index y m Hm) in Hlt.
    rewrite <- (first_of_index_month y m Hm) in Hge.
    pose proof (month_of_day_unique z _ _ (conj Hge Hlt) (conj Hlo2 Hhi2))
      as Hidx.
    destruct (month_index_inv y m Hm) as [H1 H2].
    destruct (month_index_inv y2 m2 Hm2) as [H3 H4].
    rewrite Hidx in H1, H2.
    assert (Ey : y2 = y) by lia. assert (Em : m2 = m) by lia.
    rewrite Ey, Em, !Z.eqb_refl in Eq. discriminate.
Qed.

Section Zone.
Variable tz : Z.
Hypothesis tz_east : 0 <= tz < msPerDay.

(** [end] of the month query: the first of the next month, for a server at
    a fixed offset on or east of Greenwich. *)
Lemma setMonth_next (y m : Z) :
  100 <= y <= 9999 -> 1 <= m <= 12 ->
  let start := first_of_month y m * msPerDay in
  setMonth tz start (getMonth tz start + 1)
  = Some ((first_of_month y m + days_in_month y m) * msPerDay).
Proof.
  intros Hy Hm. cbv zeta. unfold setMonth, getMonth.
  rewrite (Day_local_midnight tz tz_east).
  assert (H1 : days_from_civil y m 1 = first_of_month y m) by reflexivity.
  pose proof (days_in_month_ge_28 y m Hm) as H28.
  pose proof (days_in_month_le_31 y m Hm) as H31.
  assert (Hc : civil_from_days (first_of_month y m) = (y, m, 1))
    by (apply (civil_from_days_of_civil y m 1 Hm); lia).
  rewrite !Hc.
  replace (m - 1 + 1) with m by lia.
  rewrite (MakeDay_next_month y m Hm).
  assert (Hn : (let '(y', m') := next_month y m in first_of_month y' m')
               = first_of_month y m + days_in_month y m).
  { unfold days_in_month. destruct (next_month y m). lia. }
  rewrite Hn.
  assert (Hw : TimeWithinDay (LocalTime tz (first_of_month y m * msPerDay))
               = tz).
  { unfold TimeWithinDay, LocalTime, msPerDay in *.
    symmetry. apply (Z.mod_unique_pos _ _ (first_of_month y m)); lia. }
  rewrite Hw. unfold UTC, TimeClip.
  pose proof (first_of_month_bounds y m Hy Hm) as Hb.
  replace ((first_of_month y m + days_in_month y m) * msPerDay + tz - tz)
    with ((first_of_month y m + days_in_month y m) * msPerDay) by lia.
  destruct (Z.leb_spec
              (Z.abs ((first_of_month y m + days_in_month y m) * msPerDay))
              8640000000000000) as [_|Hgt]; [reflexivity|].
  unfold msPerDay in Hgt. lia.
Qed.

(** X18. On a server whose zone is a fixed offset from UTC (no daylight
    saving) on or east of Greenwich, GET /api/records?month=YYYY-MM, for a
    year of 100 to 9999, lists the records of that month in UTC, each
    with its metrics, latest first. *)
Theorem get_records_of_month (y m : Z) (table : Table) :
  100 <= y <= 9999 -> 1 <= m <= 12 ->
  exists records,
    get_records tz (ByMonth (Some (first_of_month y m * msPerDay))) table
    = Some (map calculateMetrics records)
    /\ Permutation records (filter (in_utc_month y m) (rows table))
    /\ latest_first records.
Proof.
  intros Hy Hm. unfold get_records, where_.
  rewrite (setMonth_next y m Hy Hm).
  eexists. split; [reflexivity|]. split.
  - rewrite orderBy_date_desc_perm.
    rewrite (filter_ext _ _ (fun r => window_in_utc_month y m r Hm)).
    reflexivity.
  - apply orderBy_date_desc_sorted.
Qed.

End Zone.

Lemma get_records_of_month_witness :
  0 <= gmt8 < msPerDay
  /\ exists records,
       get_records gmt8 (ByMonth (Some (first_of_month 2026 1 * msPerDay)))
         table0
       = Some (map calculateMetrics records)
       /\ Permutation records (filter (in_utc_month 2026 1) (rows table0))
       /\ latest_first records.
Proof.
  split; [exact gmt8_east|].
  apply (get_records_of_month gmt8 gmt8_east 2026 1 table0); lia.
Defined.

(** X19. On a server whose zone is a fixed offset from UTC (no daylight
    saving), whichever the offset, GET /api/summary with the midnight-UTC
    dates of two days, as the pages send them, sums the records of those
    days and of the days between, in UTC: the day of [end] is
    included. *)
Theorem summary_days_inclusive (tz first last : Z) (table : Table) :
  exists b,
    Summary.summary tz (Some (first * msPerDay)) (Some (last * msPerDay))
      table
    = Summary.Json b
    /\ Summary.b_records b
       = map calculateMetrics (filter (on_days first last) (rows table))
    /\ Summary.aggregate (filter (on_days first last) (rows table)) = b.
Proof.
  unfold Summary.summary. cbv zeta. eexists. split; [reflexivity|].
  rewrite setDate_getDate.
  assert (E : filter
                (date_gte_lt (first * msPerDay)
                   (last * msPerDay + 1 * msPerDay)) (rows table)
              = filter (on_days first last) (rows table)).
  { apply filter_ext. intros r. unfold date_gte_lt, on_days, Day, msPerDay.
    pose proof (Z.div_mod (date r) 86400000).
    pose proof (Z.mod_pos_bound (date r) 86400000).
    destruct (Z.leb_spec (first * 86400000) (date r));
      destruct (Z.ltb_spec (date r) (last * 86400000 + 1 * 86400000));
      destruct (Z.leb_spec first (date r / 86400000));
      destruct (Z.leb_spec (date r / 86400000) last);
      cbn; try reflexivity; lia. }
  rewrite E. split; reflexivity.
Qed.

End ListingFacts.

(** ** Saving from the data-entry page *)

Module DataEntryFacts.
Import JsNumber JsDate Async Prisma Formulas Records DataEntry Spec FormSpec
  Scenario NumberFacts UpsertFacts ImportFacts RecordFacts.

Lemma SFcompare_refl (a : spec_float) :
  a <> S754_nan -> SFcompare a a = Some Eq.
Proof.
  destruct a as [s|s| |s m e]; intros H; cbn.
  - reflexivity.
  - destruct s; reflexivity.
  - contradiction.
  - destruct s; rewrite Z.compare_refl, Pos.compare_cont_refl; reflexivity.
Qed.

(** A number that compares is not NaN. *)
Lemma ge_not_NaN (x y : number) :
  ge x y = true -> isNaN x = false /\ isNaN y = false.
Proof.
  unfold ge, isNaN. rewrite leb_spec, !eqb_spec. unfold SFleb, SFeqb.
  intros H.
  destruct (Prim2SF x) as [sx|sx| |sx mx ex] eqn:Ex,
           (Prim2SF y) as [sy|sy| |sy my ey] eqn:Ey;
    try discriminate;
    split; rewrite SFcompare_refl by discriminate; reflexivity.
Qed.

Lemma json_number_sendable (x : number) :
  sendable x -> number_min0 (json_number x) = Some x.
Proof.
  intros [Hge Hinf]. unfold json_number.
  destruct (ge_not_NaN _ _ Hge) as [Hx _].
  rewrite Hx, Hinf. cbn [orb]. unfold number_min0. rewrite Hge.
  reflexivity.
Qed.

(** The checks of [validateForm], one by one. *)
Lemma validateForm_checks (selectedDate : SelectedDate) (f : FormData) :
  validateForm selectedDate f = true ->
  (exists t, selectedDate = Some (Some t))
  /\ lt (totalSale f) (totalSaleGmv f) = false
  /\ lt (totalSaleGmv f) (gmvSaleLive f) = false
  /\ lt (gmvAdsSpend f) (gmvLiveAdsSpend f) = false
  /\ gt (customers f) (visitor f) = false
  /\ lt (visitor f) 0 = false
  /\ lt (customers f) 0 = false.
Proof.
  unfold validateForm, errors.
  destruct selectedDate as [[t|]|]; try discriminate.
  destruct (lt (totalSale f) (totalSaleGmv f)); try discriminate.
  destruct (lt (totalSaleGmv f) (gmvSaleLive f)); try discriminate.
  destruct (lt (gmvAdsSpend f) (gmvLiveAdsSpend f)); try discriminate.
  destruct (gt (customers f) (visitor f)); try discriminate.
  destruct (lt (visitor f) 0); try discriminate.
  destruct (lt (customers f) 0); try discriminate.
  intros _. repeat split; eauto.
Qed.

(** What the server makes of a payload: the funnel counts take their
    defaults. *)
Lemma payload_parse (date : option Z) (f : FormData) (v : Validated) :
  recordSchema_parse (payload date f) = Some v ->
  u_visitor (v_data v) = 0%float /\ u_customers (v_data v) = 0%float.
Proof.
  unfold recordSchema_parse, payload.
  cbn [b_date b_totalSale b_totalSaleGmv b_gmvSaleLive b_gmvAdsSpend
       b_gmvLiveAdsSpend b_ttamSpendAds b_ttamImpressions b_visitor
       b_customers number_min0_default0].
  intros E.
  repeat match type of E with
         | match ?o with _ => _ end = _ => destruct o; try discriminate
         end.
  injection E as <-. split; reflexivity.
Qed.

Section Schema.
Variables visitorDefault customersDefault : number.

(** X20. Whatever the data-entry form holds for visitor and customers, a
    save stores 0 for both: the payload leaves them out and the schema of
    the server fills in its default, on a new record and on an updated
    one alike. When the save is not answered with success the table is
    left as it was. *)
Theorem data_entry_save_zeroes_funnel_counts (selectedDate : SelectedDate)
    (formData : FormData) (date : option Z) (body : Body) (table : Table) :
  handleSubmit selectedDate formData date = Some body ->
  let '(response, table') :=
    post_records visitorDefault customersDefault body table in
  match response with
  | Records.Success _ data =>
      Metrics.visitor data = 0%float /\ Metrics.customers data = 0%float
      /\ exists r, In r (rows table') /\ calculateMetrics r = data
  | _ => table' = table
  end.
Proof.
  unfold handleSubmit.
  destruct (negb (validateForm selectedDate formData)); [discriminate|].
  intros H. injection H as <-.
  pose proof (post_records_cases visitorDefault customersDefault
                (payload date formData) table) as Hc.
  destruct (recordSchema_parse (payload date formData)) as [v|] eqn:Ep;
    [|rewrite Hc; reflexivity].
  destruct (payload_parse date formData v Ep) as [Hv Hcu].
  destruct (v_date v) as [date0|]; [|rewrite Hc; reflexivity].
  cbv zeta in Hc.
  destruct (find _ (rows table)) as [existing|] eqn:Efind.
  - destruct Hc as (y & Ey & ->).
    split; [exact Hv|]. split; [exact Hcu|].
    exists (set_data (v_data v) y). split; [|reflexivity].
    unfold update. rewrite Ey. cbn [snd rows].
    apply in_map_iff. exists y. apply find_some in Ey as [Hin Hid].
    cbv beta. rewrite Hid. split; [reflexivity|exact Hin].
  - rewrite Hc. split; [exact Hv|]. split; [exact Hcu|].
    eexists. split; [|reflexivity].
    unfold appended. cbn [rows number_rows]. apply in_or_app. right.
    left. reflexivity.
Qed.

(** X21. A form that [validateForm] accepts is saved when its values are
    ones the server and the database take: the seven sales and ads fields
    are numbers that are not negative and finite, the impressions are a
    whole number below 2^31 (the column is INTEGER), and the server reads
    the date as one of the years 0 to 9999. The client's checks then imply
    the three inequalities of the server's schema, and the answer is a
    success. *)
Theorem data_entry_valid_form_is_saved (selectedDate : SelectedDate)
    (formData : FormData) (date : Z) (table : Table) :
  validateForm selectedDate formData = true ->
  sendable_form formData ->
  whole (ttamImpressions formData) ->
  storable_date date ->
  exists body mode data table',
    handleSubmit selectedDate formData (Some date) = Some body
    /\ post_records visitorDefault customersDefault body table
       = (Records.Success mode data, table').
Proof.
  intros Hval (H1 & H2 & H3 & H4 & H5 & H6 & H7) _ _.
  destruct (validateForm_checks _ _ Hval) as (_ & L1 & L2 & L3 & _).
  exists (payload (Some date) formData).
  unfold handleSubmit. rewrite Hval. cbn [negb].
  assert (Hp : recordSchema_parse (payload (Some date) formData)
               = Some (mkValidated (Some date)
                         (mkUpdateData (totalSale formData)
                            (totalSaleGmv formData) (gmvSaleLive formData)
                            (gmvAdsSpend formData)
                            (gmvLiveAdsSpend formData)
                            (ttamSpendAds formData)
                            (ttamImpressions formData) 0 0))).
  { unfold recordSchema_parse, payload.
    cbn [b_date b_totalSale b_totalSaleGmv b_gmvSaleLive b_gmvAdsSpend
         b_gmvLiveAdsSpend b_ttamSpendAds b_ttamImpressions b_visitor
         b_customers number_min0_default0].
    rewrite !json_number_sendable by assumption.
    destruct (ge_not_NaN _ _ (proj1 H1)) as [N1 _].
    destruct (ge_not_NaN _ _ (proj1 H2)) as [N2 _].
    destruct (ge_not_NaN _ _ (proj1 H3)) as [N3 _].
    destruct (ge_not_NaN _ _ (proj1 H4)) as [N4 _].
    destruct (ge_not_NaN _ _ (proj1 H5)) as [N5 _].
    rewrite (ge_negb_lt _ _ N1 N2), (ge_negb_lt _ _ N2 N3),
      (ge_negb_lt _ _ N4 N5), L1, L2, L3.
    reflexivity. }
  pose proof (post_records_cases visitorDefault customersDefault
                (payload (Some date) formData) table) as Hc.
  rewrite Hp in Hc. cbn [v_date] in Hc. cbv zeta in Hc.
  destruct (find _ (rows table)) as [existing|].
  - destruct Hc as (y & _ & Hc). do 3 eexists. split; [reflexivity|exact Hc].
  - do 3 eexists. split; [reflexivity|exact Hc].
Qed.

End Schema.

Lemma data_entry_save_zeroes_funnel_counts_witness :
  handleSubmit (Some (Some jan5)) form0 (Some jan5)
  = Some (payload (Some jan5) form0)
  /\ (let '(response, table') :=
        post_records 0 0 (payload (Some jan5) form0) table0 in
      match response with
      | Records.Success _ data =>
          Metrics.visitor data = 0%float /\ Metrics.customers data = 0%float
          /\ exists r, In r (rows table') /\ calculateMetrics r = data
      | _ => table' = table0
      end)
  /\ map Prisma.visitor (rows table0) = [1000%float]
  /\ map Prisma.visitor
       (rows (snd (post_records 0 0 (payload (Some jan5) form0) table0)))
     = [0%float].
Proof.
  split; [reflexivity|].
  split; [|split; [reflexivity|vm_compute; reflexivity]].
  exact (data_entry_save_zeroes_funnel_counts 0 0 (Some (Some jan5)) form0
           (Some jan5) (payload (Some jan5) form0) table0 eq_refl).
Defined.

Lemma data_entry_valid_form_is_saved_witness :
  validateForm (Some (Some jan5)) form0 = true
  /\ sendable_form form0
  /\ whole (ttamImpressions form0)
  /\ storable_date jan5
  /\ exists body mode data table',
       handleSubmit (Some (Some jan5)) form0 (Some jan5) = Some body
       /\ post_records 0 0 body table0 = (Records.Success mode data, table').
Proof.
  assert (Hs : sendable_form form0)
    by (repeat split; vm_compute; reflexivity).
  assert (Hw : whole (ttamImpressions form0))
    by (exists 60000; split; [lia|reflexivity]).
  assert (Hd : storable_date jan5) by (unfold storable_date, jan5; lia).
  split; [reflexivity|]. split; [exact Hs|]. split; [exact Hw|].
  split; [exact Hd|].
  exact (data_entry_valid_form_is_saved 0 0 (Some (Some jan5)) form0 jan5
           table0 eq_refl Hs Hw Hd).
Defined.

End DataEntryFacts.
